(** * Dual Scorpion: the dual-arm follower and leader coordinators

    A shallow embedding of
      - lerobot/robots/dual_scorpion_follower/dual_scorpion_follower.py
      - lerobot/teleoperators/dual_scropion_leader/dual_scropion_leader.py
      - lerobot/teleoperators/dual_scropion_leader/config_dual_scropion_leader.py
    Python dictionaries are insertion-ordered association lists, methods are
    computations in a state-and-exception monad over the device object, and
    every call made on a collaborator (motor bus, camera, operator console,
    calibration file) is appended to the device's trace. *)

From Stdlib Require Import String Ascii List ZArith Bool Lia.
Import ListNotations.

Set Implicit Arguments.
Open Scope string_scope.

(** ** Python strings *)

Module Str.

(** [s.startswith(p)] *)
Definition startswith (s p : string) : bool := String.prefix p s.

(** [strip_suffix suf s] is [Some p] exactly when [s = p ++ suf]. *)
Fixpoint strip_suffix (suf s : string) : option string :=
  if String.eqb s suf then Some ""
  else match s with
       | EmptyString => None
       | String c s' => option_map (String c) (strip_suffix suf s')
       end.

(** [s.endswith(suf)] *)
Definition endswith (s suf : string) : bool :=
  match strip_suffix suf s with Some _ => true | None => false end.

(** [s.removesuffix(suf)] *)
Definition removesuffix (s suf : string) : string :=
  match strip_suffix suf s with Some p => p | None => s end.

(** [s.replace(old, new)] for a non-empty [old]: every non-overlapping
    occurrence is replaced, scanning from the left.  [skip] counts the
    characters of the current occurrence still to be dropped. *)
Fixpoint replace_from (old new : string) (skip : nat) (s : string) : string :=
  match s with
  | EmptyString => EmptyString
  | String c s' =>
      match skip with
      | S n => replace_from old new n s'
      | O =>
          if String.prefix old s
          then new ++ replace_from old new (String.length old - 1) s'
          else String c (replace_from old new 0 s')
      end
  end.

Definition replace (s old new : string) : string := replace_from old new 0 s.

End Str.

(** ** Python dictionaries *)

Section Dict.
Variable V : Type.

Definition dict := list (string * V).

Fixpoint dict_get (k : string) (d : dict) : option V :=
  match d with
  | [] => None
  | (k', v) :: d' => if String.eqb k k' then Some v else dict_get k d'
  end.

(** [d[k] = v]: an existing key keeps its position, a new one goes last. *)
Fixpoint dict_set (k : string) (v : V) (d : dict) : dict :=
  match d with
  | [] => [(k, v)]
  | (k', v') :: d' =>
      if String.eqb k k' then (k', v) :: d' else (k', v') :: dict_set k v d'
  end.

Definition dict_keys (d : dict) : list string := map fst d.

(** [d.update(items)] *)
Definition dict_update (d : dict) (items : list (string * V)) : dict :=
  fold_left (fun acc kv => dict_set (fst kv) (snd kv) acc) items d.

(** The dictionary built by a comprehension generating [items] in order. *)
Definition dict_of_items (items : list (string * V)) : dict :=
  dict_update [] items.

End Dict.

Arguments dict_get {V} k d.
Arguments dict_set {V} k v d.
Arguments dict_keys {V} d.
Arguments dict_update {V} d items.
Arguments dict_of_items {V} items.

(** [{f(k): v for k, v in d.items() if p(k)}] *)
Definition dict_comp {V : Type} (p : string -> bool) (f : string -> string)
    (d : dict V) : dict V :=
  dict_of_items (map (fun kv => (f (fst kv), snd kv)) (filter (fun kv => p (fst kv)) d)).

(** ** Motors, calibration records and collaborators *)

Inductive side := Right | Left.

(** [f"right_"] and [f"left_"], the prefixes the sources spell out. *)
Definition side_prefix (s : side) : string :=
  match s with Right => "right_" | Left => "left_" end.

Inductive MotorNormMode := DEGREES | RANGE_M100_100 | RANGE_0_100.

(** The driver's operating-mode enumeration; the sources only ever pass
    [OperatingMode.POSITION.value]. *)
Inductive OperatingMode := POSITION | VELOCITY | PWM | STEP.

Record Motor := mkMotor
  { motor_id : Z; motor_model : string; motor_norm_mode : MotorNormMode }.

Record MotorCalibration := mkMotorCalibration
  { cal_id : Z; drive_mode : Z; homing_offset : Z; range_min : Z; range_max : Z }.

(** A value written to a control-table register. *)
Inductive reg_value := VMode (m : OperatingMode) | VInt (z : Z).

(** The calls the coordinators make on a [FeetechMotorsBus]. *)
Inductive bus_call :=
| BusConnect
| BusDisconnect (disable_torque : option bool)
| DisableTorque
| EnableTorque
| ConfigureMotors
| Write (register motor : string) (value : reg_value)
| SyncRead (register : string)
| SyncWrite (register : string) (values : dict Z)
| SetHalfTurnHomings
| RecordRangesOfMotion
| WriteCalibration (records : dict MotorCalibration).

Inductive event :=
| Bus (s : side) (c : bus_call)
| CamConnect (cam : string)
| CamDisconnect (cam : string)
| CamAsyncRead (cam : string)
| Input (s : side)
| SaveCalibration (records : dict MotorCalibration).

Inductive exn :=
| DeviceAlreadyConnectedError
| DeviceNotConnectedError
| KeyError (k : string)
| NotImplementedError
| BusTransportError (s : side) (c : bus_call)
| CameraError (cam : string)
| KeyboardInterrupt
| CalibrationFileError.

(** One [FeetechMotorsBus]: its motor table, whether its port is open and the
    calibration it currently holds. *)
Record MotorsBus := mkBus
  { motors : dict Motor;
    bus_is_connected : bool;
    bus_calibration : dict MotorCalibration }.

(** A camera object, as far as the coordinator looks at it. *)
Record Camera := mkCamera { cam_is_connected : bool }.

(** Modelled from the spec: the driver's [is_calibrated] property is not part
    of these sources.  Section 3 derives each bus's flag "from presence of a
    complete, valid calibration record set for all 8 of its motors", a record
    being valid when [range_min <= range_max]. *)
Definition bus_is_calibrated (b : MotorsBus) : bool :=
  forallb (fun m => match dict_get m (bus_calibration b) with
                    | Some c => (range_min c <=? range_max c)%Z
                    | None => false
                    end)
          (dict_keys (motors b)).

(** The device object: [C] is the configuration class.  The leader has no
    [cameras] attribute; its record keeps the field empty and never reads it. *)
Record Device (C : Type) := mkDevice
  { config : C;
    calibration : dict MotorCalibration;
    right_bus : MotorsBus;
    left_bus : MotorsBus;
    cameras : dict Camera;
    trace : list event }.

Arguments mkDevice {C}.

Definition bus {C} (s : side) (d : Device C) : MotorsBus :=
  match s with Right => right_bus d | Left => left_bus d end.

Definition set_bus {C} (s : side) (b : MotorsBus) (d : Device C) : Device C :=
  match s with
  | Right => mkDevice (config d) (calibration d) b (left_bus d) (cameras d) (trace d)
  | Left => mkDevice (config d) (calibration d) (right_bus d) b (cameras d) (trace d)
  end.

Definition set_calibration {C} (c : dict MotorCalibration) (d : Device C) : Device C :=
  mkDevice (config d) c (right_bus d) (left_bus d) (cameras d) (trace d).

Definition set_cameras {C} (cs : dict Camera) (d : Device C) : Device C :=
  mkDevice (config d) (calibration d) (right_bus d) (left_bus d) cs (trace d).

Definition log {C} (e : event) (d : Device C) : Device C :=
  mkDevice (config d) (calibration d) (right_bus d) (left_bus d) (cameras d)
           (trace d ++ [e]).

(** What the outside answers during one method call: which collaborator calls
    raise, and what the read-like calls return. *)
Record World := mkWorld
  { bus_raises : side -> bus_call -> bool;
    cam_raises : string -> bool;
    operator_interrupts : side -> bool;
    save_raises : bool;
    sync_read_reply : side -> string -> dict Z;
    homing_reply : side -> dict Z;
    range_mins_reply : side -> dict Z;
    range_maxes_reply : side -> dict Z;
    frame_reply : string -> Z }.

(** ** The method monad: device state threaded, exceptions propagated.
    State changes made before an exception is raised stay made. *)

Inductive outcome (A : Type) :=
| Ok (a : A)
| Raise (e : exn).

Arguments Ok {A} a.
Arguments Raise {A} e.

Definition M (C A : Type) := Device C -> outcome A * Device C.

Definition ret {C A} (a : A) : M C A := fun d => (Ok a, d).

Definition raise {C A} (e : exn) : M C A := fun d => (Raise e, d).

Definition bind {C A B} (m : M C A) (k : A -> M C B) : M C B :=
  fun d => match m d with
           | (Ok a, d') => k a d'
           | (Raise e, d') => (Raise e, d')
           end.

Definition get {C} : M C (Device C) := fun d => (Ok d, d).

Definition modify {C} (f : Device C -> Device C) : M C unit := fun d => (Ok tt, f d).

Declare Scope py_scope.
Delimit Scope py_scope with py.
Notation "x <- m ;; k" := (bind m (fun x => k))
  (at level 100, m at next level, right associativity) : py_scope.
Notation "m ;; k" := (bind m (fun _ => k))
  (at level 100, right associativity) : py_scope.
Open Scope py_scope.

(** [for x in xs: body(x)] *)
Fixpoint for_each {C X} (xs : list X) (body : X -> M C unit) : M C unit :=
  match xs with
  | [] => ret tt
  | x :: xs' => body x ;; for_each xs' body
  end.

(** [try: body finally: cleanup] *)
Definition try_finally {C A} (body : M C A) (cleanup : M C unit) : M C A :=
  fun d => match body d with
           | (r, d') => match cleanup d' with
                        | (Ok _, d'') => (r, d'')
                        | (Raise e, d'') => (Raise e, d'')
                        end
           end.

(** [d[k]], raising [KeyError] on a missing key. *)
Definition subscript {C V} (d : dict V) (k : string) : M C V :=
  match dict_get k d with
  | Some v => ret v
  | None => raise (KeyError k)
  end.

(** ** The collaborators

    The motor-bus driver, the cameras, the operator console and the
    calibration file are not under the sources.  Each call on them is logged;
    whether it raises and what it returns is the [World]'s answer. *)

Section Collaborators.
Context {C : Type}.
Variable w : World.

(** Modelled from the spec: one call on a bus handle (section 6).  The call is
    logged, then either raises the driver's error or returns. *)
Definition call (s : side) (c : bus_call) : M C unit :=
  modify (log (Bus s c)) ;;
  if bus_raises w s c then raise (BusTransportError s c) else ret tt.

(** Modelled from the spec: the error of a [connect] the bus handle refuses,
    by the taxonomy of section 7: [DeviceAlreadyConnectedError] ("operation
    requires disconnected state") when the port is already open, the opaque
    transport error otherwise. *)
Definition connect_failure (s : side) (b : MotorsBus) : exn :=
  if bus_is_connected b then DeviceAlreadyConnectedError
  else BusTransportError s BusConnect.

(** Modelled from the spec: [FeetechMotorsBus.connect]; the call is logged and
    the bus is connected once it has returned.  Whether a handle refuses, an
    open port included, is the world's answer. *)
Definition bus_connect (s : side) : M C unit :=
  d <- get ;;
  modify (log (Bus s BusConnect)) ;;
  if bus_raises w s BusConnect then raise (connect_failure s (bus s d))
  else modify (fun d => set_bus s (mkBus (motors (bus s d)) true (bus_calibration (bus s d))) d).

(** Modelled from the spec: [FeetechMotorsBus.disconnect]; the bus is no
    longer connected once the call has returned. *)
Definition bus_disconnect (s : side) (disable_torque : option bool) : M C unit :=
  call s (BusDisconnect disable_torque) ;;
  modify (fun d => set_bus s (mkBus (motors (bus s d)) false (bus_calibration (bus s d))) d).

(** Modelled from the spec: [disable_torque], [enable_torque],
    [configure_motors], [write] and [sync_write] change nothing the
    coordinator reads back; their calls and arguments are in the trace. *)
Definition bus_disable_torque (s : side) : M C unit := call s DisableTorque.

Definition bus_enable_torque (s : side) : M C unit := call s EnableTorque.

Definition bus_configure_motors (s : side) : M C unit := call s ConfigureMotors.

Definition bus_write (s : side) (register motor : string) (v : reg_value) : M C unit :=
  call s (Write register motor v).

(** Modelled from the spec: [sync_read], [set_half_turn_homings] and
    [record_ranges_of_motion] return maps keyed by the bus's motor names. *)
Definition bus_sync_read (s : side) (register : string) : M C (dict Z) :=
  call s (SyncRead register) ;; ret (sync_read_reply w s register).

Definition bus_sync_write (s : side) (register : string) (values : dict Z) : M C unit :=
  call s (SyncWrite register values).

Definition bus_set_half_turn_homings (s : side) : M C (dict Z) :=
  call s SetHalfTurnHomings ;; ret (homing_reply w s).

Definition bus_record_ranges_of_motion (s : side) : M C (dict Z * dict Z) :=
  call s RecordRangesOfMotion ;; ret (range_mins_reply w s, range_maxes_reply w s).

(** Modelled from the spec: [write_calibration]; the bus then holds exactly
    the record set it was given (section 3: "fully replaced"). *)
Definition bus_write_calibration (s : side) (records : dict MotorCalibration) : M C unit :=
  call s (WriteCalibration records) ;;
  modify (fun d => set_bus s (mkBus (motors (bus s d)) (bus_is_connected (bus s d)) records) d).

(** [with bus.torque_disabled(): body] *)
Definition torque_disabled {A} (s : side) (body : M C A) : M C A :=
  bus_disable_torque s ;; try_finally body (bus_enable_torque s).

(** Modelled from the spec: the camera collaborator's [connect],
    [disconnect] and [async_read] (section 6). *)
Definition cam_connect (cam : string) : M C unit :=
  modify (log (CamConnect cam)) ;;
  if cam_raises w cam then raise (CameraError cam)
  else modify (fun d => set_cameras (dict_set cam (mkCamera true) (cameras d)) d).

Definition cam_disconnect (cam : string) : M C unit :=
  modify (log (CamDisconnect cam)) ;;
  if cam_raises w cam then raise (CameraError cam)
  else modify (fun d => set_cameras (dict_set cam (mkCamera false) (cameras d)) d).

Definition cam_async_read (cam : string) : M C Z :=
  modify (log (CamAsyncRead cam)) ;;
  if cam_raises w cam then raise (CameraError cam) else ret (frame_reply w cam).

(** [input(...)]: the operator presses ENTER, or interrupts. *)
Definition input (s : side) : M C unit :=
  modify (log (Input s)) ;;
  if operator_interrupts w s then raise KeyboardInterrupt else ret tt.

(** [self._save_calibration()], of the base class: the device's record set
    goes to the calibration file. *)
Definition _save_calibration : M C unit :=
  d <- get ;;
  modify (log (SaveCalibration (calibration d))) ;;
  if save_raises w then raise CalibrationFileError else ret tt.

End Collaborators.

(** An expression statement: the value is built and dropped. *)
Definition discard {C A} (_ : A) : M C unit := ret tt.

(** The eight motors both sources give each arm. *)
Definition arm_motors (norm_mode_body : MotorNormMode) : dict Motor :=
  [ ("joint0", mkMotor 1 "sts3215" norm_mode_body);
    ("joint1", mkMotor 2 "sts3215" norm_mode_body);
    ("joint2", mkMotor 3 "sts3215" norm_mode_body);
    ("joint3", mkMotor 4 "sts3215" norm_mode_body);
    ("joint4", mkMotor 5 "sts3215" norm_mode_body);
    ("joint5", mkMotor 6 "sts3215" norm_mode_body);
    ("joint6", mkMotor 7 "sts3215" norm_mode_body);
    ("gripper", mkMotor 8 "sts3215" RANGE_0_100) ].

(** [{key.replace("right_", ""): val for key, val in d.items()
      if key.startswith("right_")}], and the same with ["left_"]. *)
Definition for_side {V} (s : side) (d : dict V) : dict V :=
  dict_comp (fun key => Str.startswith key (side_prefix s))
            (fun key => Str.replace key (side_prefix s) "") d.

(** A feature's declared type: [float], or an image shape. *)
Inductive feature := FFloat | FShape (height width channels : Z).

(** [{f"right_{motor}.pos": float for motor in self.right_bus.motors}] *)
Definition side_motors_ft (s : side) (b : MotorsBus) : list (string * feature) :=
  map (fun motor => (side_prefix s ++ motor ++ ".pos", FFloat)) (dict_keys (motors b)).

(** [{f"right_{motor}.pos": val for motor, val in obs.items()}] *)
Definition side_positions {V} (s : side) (obs : dict V) : dict V :=
  dict_comp (fun _ => true) (fun motor => side_prefix s ++ motor ++ ".pos") obs.

(** [[f(x) for x in xs]] where [f] may raise. *)
Fixpoint map_m {C X Y} (f : X -> M C Y) (xs : list X) : M C (list Y) :=
  match xs with
  | [] => ret []
  | x :: xs' => y <- f x ;; ys <- map_m f xs' ;; ret (y :: ys)
  end.

(** Modelled from the spec: the clamp of section 4.3, applied by
    [ensure_safe_goal_position].  With [delta = requested - current], a
    [|delta|] above the maximum step is replaced by
    [current + sign(delta) * maxStep]; anything else passes unchanged. *)
Definition clamp_goal (goal present max_step : Z) : Z :=
  let delta := (goal - present)%Z in
  if (max_step <? Z.abs delta)%Z then (present + Z.sgn delta * max_step)%Z else goal.

(** Modelled from the spec: [ensure_safe_goal_position] is defined in
    [lerobot/robots/utils.py], which is not under the sources.  It clamps
    every [(goal, present)] pair of its argument (section 4.3). *)
Definition ensure_safe_goal_position (goal_present_pos : dict (Z * Z))
    (max_relative_target : Z) : dict Z :=
  dict_of_items
    (map (fun kv => (fst kv, clamp_goal (fst (snd kv)) (snd (snd kv)) max_relative_target))
         goal_present_pos).

(** ** The follower: [DualScorpionFollower] *)

Module Follower.

(** [config_dual_scorpion_follower.py] is not under the sources; these are
    the attributes the robot reads from its configuration. *)
Record CameraConfig := mkCameraConfig { height : Z; width : Z }.

Record DualScorpionFollowerConfig := mkConfig
  { right_arm_port : string;
    left_arm_port : string;
    use_degrees : bool;
    cfg_cameras : dict CameraConfig;
    max_relative_target : option Z;
    disable_torque_on_disconnect : bool }.

Definition t := Device DualScorpionFollowerConfig.

(** An observation value: a joint position or a camera frame. *)
Inductive obs_value := Position (z : Z) | Frame (f : Z).

(** Modelled from the spec: [make_cameras_from_configs] is not under the
    sources; it yields one camera object per configured key (section 6), not
    yet connected. *)
Definition make_cameras_from_configs (cs : dict CameraConfig) : dict Camera :=
  dict_of_items (map (fun kc => (fst kc, mkCamera false)) cs).

(** [__init__]; [loaded] is the calibration the base class read, if any. *)
Definition init (cfg : DualScorpionFollowerConfig) (loaded : dict MotorCalibration) : t :=
  let norm_mode_body := if use_degrees cfg then DEGREES else RANGE_M100_100 in
  let right_calibration := for_side Right loaded in
  let left_calibration := for_side Left loaded in
  mkDevice cfg loaded
           (mkBus (arm_motors norm_mode_body) false right_calibration)
           (mkBus (arm_motors norm_mode_body) false left_calibration)
           (make_cameras_from_configs (cfg_cameras cfg))
           [].

Definition _motors_ft (d : t) : dict feature :=
  let ft := [] in
  let ft := dict_update ft (dict_of_items (side_motors_ft Right (right_bus d))) in
  let ft := dict_update ft (dict_of_items (side_motors_ft Left (left_bus d))) in
  ft.

(** [self.config.cameras[cam]] raises [KeyError] on an unknown camera. *)
Fixpoint cameras_ft_items (cfg : dict CameraConfig) (cams : list string)
    : outcome (list (string * feature)) :=
  match cams with
  | [] => Ok []
  | cam :: cams' =>
      match dict_get cam cfg with
      | None => Raise (KeyError cam)
      | Some c =>
          match cameras_ft_items cfg cams' with
          | Ok items => Ok ((cam, FShape (height c) (width c) 3) :: items)
          | Raise e => Raise e
          end
      end
  end.

Definition _cameras_ft (d : t) : outcome (dict feature) :=
  match cameras_ft_items (cfg_cameras (config d)) (dict_keys (cameras d)) with
  | Ok items => Ok (dict_of_items items)
  | Raise e => Raise e
  end.

Definition observation_features (d : t) : outcome (dict feature) :=
  match _cameras_ft d with
  | Ok cams => Ok (dict_update (dict_update [] (_motors_ft d)) cams)
  | Raise e => Raise e
  end.

Definition action_features (d : t) : dict feature := _motors_ft d.

Definition is_connected (d : t) : bool :=
  bus_is_connected (right_bus d) &&
  bus_is_connected (left_bus d) &&
  forallb cam_is_connected (map snd (cameras d)).

Definition is_calibrated (d : t) : bool :=
  bus_is_calibrated (right_bus d) && bus_is_calibrated (left_bus d).

Section Methods.
Variable w : World.

Definition set_operating_mode (s : side) : M DualScorpionFollowerConfig unit :=
  d <- get ;;
  for_each (dict_keys (motors (bus s d)))
           (fun motor => bus_write w s "Operating_Mode" motor (VMode POSITION)).

(** One arm's homing and range recording (lines 177-192 for the right
    arm, 194-209 for the left). *)
Definition calibrate_arm (s : side) : M DualScorpionFollowerConfig unit :=
  input w s ;;
  homing_offsets <- bus_set_half_turn_homings w s ;;
  ranges <- bus_record_ranges_of_motion w s ;;
  let range_mins := fst ranges in
  let range_maxes := snd ranges in
  d <- get ;;
  for_each (motors (bus s d))
           (fun mm =>
              let motor := fst mm in
              let m := snd mm in
              ho <- subscript homing_offsets motor ;;
              rmin <- subscript range_mins motor ;;
              rmax <- subscript range_maxes motor ;;
              modify (fun d =>
                set_calibration
                  (dict_set (side_prefix s ++ motor)
                            (mkMotorCalibration (motor_id m) 0 ho rmin rmax)
                            (calibration d)) d)).

Definition calibrate : M DualScorpionFollowerConfig unit :=
  bus_disable_torque w Right ;;
  bus_disable_torque w Left ;;
  set_operating_mode Right ;;
  set_operating_mode Left ;;
  modify (set_calibration []) ;;
  calibrate_arm Right ;;
  calibrate_arm Left ;;
  d <- get ;;
  let right_calibration := for_side Right (calibration d) in
  let left_calibration := for_side Left (calibration d) in
  bus_write_calibration w Right right_calibration ;;
  bus_write_calibration w Left left_calibration ;;
  _save_calibration w.

Definition configure_arm (s : side) : M DualScorpionFollowerConfig unit :=
  d <- get ;;
  for_each (dict_keys (motors (bus s d)))
           (fun motor =>
              bus_write w s "Operating_Mode" motor (VMode POSITION) ;;
              bus_write w s "P_Coefficient" motor (VInt 16) ;;
              bus_write w s "I_Coefficient" motor (VInt 0) ;;
              bus_write w s "D_Coefficient" motor (VInt 32)).

Definition configure : M DualScorpionFollowerConfig unit :=
  torque_disabled w Right (torque_disabled w Left (
    bus_configure_motors w Right ;;
    bus_configure_motors w Left ;;
    configure_arm Right ;;
    configure_arm Left)).

Definition connect (do_calibrate : bool) : M DualScorpionFollowerConfig unit :=
  d <- get ;;
  if is_connected d then raise DeviceAlreadyConnectedError
  else
    bus_connect w Right ;;
    bus_connect w Left ;;
    d <- get ;;
    (if negb (is_calibrated d) && do_calibrate then calibrate else ret tt) ;;
    d <- get ;;
    for_each (dict_keys (cameras d)) (cam_connect w) ;;
    configure.

Definition get_observation : M DualScorpionFollowerConfig (dict obs_value) :=
  d <- get ;;
  if negb (is_connected d) then raise DeviceNotConnectedError
  else
    right_obs_dict <- bus_sync_read w Right "Present_Position" ;;
    left_obs_dict <- bus_sync_read w Left "Present_Position" ;;
    let right_obs_dict := side_positions Right right_obs_dict in
    let left_obs_dict := side_positions Left left_obs_dict in
    let obs_dict := dict_update (dict_update [] right_obs_dict) left_obs_dict in
    let obs_dict := map (fun kv => (fst kv, Position (snd kv))) obs_dict in
    d <- get ;;
    frames <- map_m (fun cam_key => f <- cam_async_read w cam_key ;; ret (cam_key, Frame f))
                    (dict_keys (cameras d)) ;;
    ret (dict_update obs_dict frames).

(** [{f"right_{key}": (g_pos, right_present_pos[key])
      for key, g_pos in goal_pos.items() if key.startswith("right_")}] *)
Definition goal_present_items (s : side) (present_pos goal_pos : dict Z)
    : M DualScorpionFollowerConfig (list (string * (Z * Z))) :=
  map_m (fun kg =>
           let key := fst kg in
           let g_pos := snd kg in
           p <- subscript present_pos key ;;
           ret (side_prefix s ++ key, (g_pos, p)))
        (filter (fun kg => Str.startswith (fst kg) (side_prefix s)) goal_pos).

Definition send_action (action : dict Z) : M DualScorpionFollowerConfig (dict Z) :=
  d <- get ;;
  if negb (is_connected d) then raise DeviceNotConnectedError
  else
    let goal_pos :=
      dict_comp (fun key => Str.endswith key ".pos")
                (fun key => Str.removesuffix key ".pos") action in
    goal_pos <-
      match max_relative_target (config d) with
      | Some max_target =>
          right_present_pos <- bus_sync_read w Right "Present_Position" ;;
          left_present_pos <- bus_sync_read w Left "Present_Position" ;;
          right_items <- goal_present_items Right right_present_pos goal_pos ;;
          let goal_present_pos := dict_of_items right_items in
          left_items <- goal_present_items Left left_present_pos goal_pos ;;
          let goal_present_pos := dict_update goal_present_pos (dict_of_items left_items) in
          ret (ensure_safe_goal_position goal_present_pos max_target)
      | None => ret goal_pos
      end ;;
    let right_goal_pos := for_side Right goal_pos in
    let left_goal_pos := for_side Left goal_pos in
    bus_sync_write w Right "Goal_Position" right_goal_pos ;;
    bus_sync_write w Left "Goal_Position" left_goal_pos ;;
    ret (dict_comp (fun _ => true) (fun motor => motor ++ ".pos") goal_pos).

Definition disconnect : M DualScorpionFollowerConfig unit :=
  d <- get ;;
  if negb (is_connected d) then raise DeviceNotConnectedError
  else
    bus_disconnect w Right (Some (disable_torque_on_disconnect (config d))) ;;
    bus_disconnect w Left (Some (disable_torque_on_disconnect (config d))) ;;
    d <- get ;;
    for_each (dict_keys (cameras d)) (cam_disconnect w).

End Methods.

End Follower.

(** ** The leader: [DualScropionLeader] *)

Module Leader.

(** [config_dual_scropion_leader.py] *)
Record DualScropionLeaderConfig := mkConfig
  { right_arm_port : string;
    left_arm_port : string;
    use_degrees : bool }.

Definition t := Device DualScropionLeaderConfig.

Definition init (cfg : DualScropionLeaderConfig) (loaded : dict MotorCalibration) : t :=
  let norm_mode_body := if use_degrees cfg then DEGREES else RANGE_M100_100 in
  let right_calibration := for_side Right loaded in
  let left_calibration := for_side Left loaded in
  mkDevice cfg loaded
           (mkBus (arm_motors norm_mode_body) false right_calibration)
           (mkBus (arm_motors norm_mode_body) false left_calibration)
           []
           [].

Definition action_features (d : t) : dict feature :=
  let features := [] in
  let features := dict_update features (dict_of_items (side_motors_ft Right (right_bus d))) in
  let features := dict_update features (dict_of_items (side_motors_ft Left (left_bus d))) in
  features.

Definition feedback_features (d : t) : dict feature := [].

Definition is_connected (d : t) : bool :=
  bus_is_connected (right_bus d) && bus_is_connected (left_bus d).

Definition is_calibrated (d : t) : bool :=
  bus_is_calibrated (right_bus d) && bus_is_calibrated (left_bus d).

Section Methods.
Variable w : World.

Definition set_operating_mode (s : side) : M DualScropionLeaderConfig unit :=
  d <- get ;;
  for_each (dict_keys (motors (bus s d)))
           (fun motor => bus_write w s "Operating_Mode" motor (VMode POSITION)).

(** One arm's homing and range recording (lines 157-172 for the right
    arm, 174-189 for the left). *)
Definition calibrate_arm (s : side) : M DualScropionLeaderConfig unit :=
  input w s ;;
  homing_offsets <- bus_set_half_turn_homings w s ;;
  ranges <- bus_record_ranges_of_motion w s ;;
  let range_mins := fst ranges in
  let range_maxes := snd ranges in
  d <- get ;;
  for_each (motors (bus s d))
           (fun mm =>
              let motor := fst mm in
              let m := snd mm in
              ho <- subscript homing_offsets motor ;;
              rmin <- subscript range_mins motor ;;
              rmax <- subscript range_maxes motor ;;
              modify (fun d =>
                set_calibration
                  (dict_set (side_prefix s ++ motor)
                            (mkMotorCalibration (motor_id m) 0 ho rmin rmax)
                            (calibration d)) d)).

Definition calibrate : M DualScropionLeaderConfig unit :=
  bus_disable_torque w Right ;;
  bus_disable_torque w Left ;;
  set_operating_mode Right ;;
  set_operating_mode Left ;;
  modify (set_calibration []) ;;
  calibrate_arm Right ;;
  calibrate_arm Left ;;
  d <- get ;;
  let right_calibration := for_side Right (calibration d) in
  let left_calibration := for_side Left (calibration d) in
  bus_write_calibration w Right right_calibration ;;
  bus_write_calibration w Left left_calibration ;;
  _save_calibration w.

Definition configure : M DualScropionLeaderConfig unit :=
  bus_disable_torque w Right ;;
  bus_disable_torque w Left ;;
  bus_configure_motors w Right ;;
  bus_configure_motors w Left ;;
  set_operating_mode Right ;;
  set_operating_mode Left.

Definition connect (do_calibrate : bool) : M DualScropionLeaderConfig unit :=
  d <- get ;;
  if is_connected d then raise DeviceAlreadyConnectedError
  else
    bus_connect w Right ;;
    bus_connect w Left ;;
    d <- get ;;
    (if negb (is_calibrated d) && do_calibrate then calibrate else ret tt) ;;
    configure.

Definition get_action : M DualScropionLeaderConfig (dict Z) :=
  action_right <- bus_sync_read w Right "Present_Position" ;;
  action_left <- bus_sync_read w Left "Present_Position" ;;
  let action := side_positions Right action_right in
  let action := dict_update action (side_positions Left action_left) in
  ret action.

Definition send_feedback (feedback : dict Z) : M DualScropionLeaderConfig unit :=
  raise NotImplementedError.

(** Line 263 builds the exception and drops it: there is no [raise]. *)
Definition disconnect : M DualScropionLeaderConfig unit :=
  d <- get ;;
  (if negb (is_connected d) then discard DeviceNotConnectedError else ret tt) ;;
  bus_disconnect w Right None ;;
  bus_disconnect w Left None.

End Methods.

End Leader.

(** ** Reading a run *)

(** The events a run starting in [d] appended, given its final state [d']. *)
Definition new_events {C} (d d' : Device C) : list event :=
  skipn (List.length (trace d)) (trace d').

Definition is_bus_event (p : side -> bus_call -> bool) (e : event) : bool :=
  match e with Bus s c => p s c | _ => false end.


Definition is_sync_read (e : event) : bool :=
  is_bus_event (fun _ c => match c with SyncRead _ => true | _ => false end) e.

Definition is_bus_disconnect (e : event) : bool :=
  is_bus_event (fun _ c => match c with BusDisconnect _ => true | _ => false end) e.

(** A world in which no collaborator call raises. *)
Definition quiet (w : World) : Prop :=
  (forall s c, bus_raises w s c = false) /\
  (forall cam, cam_raises w cam = false) /\
  (forall s, operator_interrupts w s = false) /\
  save_raises w = false.

(** The unified key space as the spec words it: sides times the eight joint
    slots, each key suffixed [.pos]. *)
Definition joint_slots : list string :=
  ["joint0"; "joint1"; "joint2"; "joint3"; "joint4"; "joint5"; "joint6"; "gripper"].

Definition unified_keys : list string :=
  flat_map (fun s => map (fun j => s ++ "_" ++ j ++ ".pos") joint_slots) ["right"; "left"].

(** ** Concrete devices and worlds *)

Module Scenario.

(** Every joint of an arm at position 0. *)
Definition zeros : dict Z := map (fun j => (j, 0%Z)) joint_slots.

(** Nothing raises; every read-like call answers [zeros]. *)
Definition calm : World :=
  mkWorld (fun _ _ => false) (fun _ => false) (fun _ => false) false
          (fun _ _ => zeros) (fun _ => zeros) (fun _ => zeros) (fun _ => zeros)
          (fun _ => 0%Z).

(** The left port cannot be opened. *)
Definition left_unplugged : World :=
  mkWorld (fun s c => match s, c with Left, BusConnect => true | _, _ => false end)
          (fun _ => false) (fun _ => false) false
          (fun _ _ => zeros) (fun _ => zeros) (fun _ => zeros) (fun _ => zeros)
          (fun _ => 0%Z).

(** The operator interrupts at the prompt for the left arm. *)
Definition operator_leaves : World :=
  mkWorld (fun _ _ => false) (fun _ => false)
          (fun s => match s with Left => true | Right => false end) false
          (fun _ _ => zeros) (fun _ => zeros) (fun _ => zeros) (fun _ => zeros)
          (fun _ => 0%Z).

Definition follower_config (max_target : option Z) : Follower.DualScorpionFollowerConfig :=
  Follower.mkConfig "/dev/ttyACM0" "/dev/ttyACM1" false
                    [("front", Follower.mkCameraConfig 480 640)] max_target true.

Definition leader_config : Leader.DualScropionLeaderConfig :=
  Leader.mkConfig "/dev/ttyACM2" "/dev/ttyACM3" false.

Definition follower_fresh (max_target : option Z) : Follower.t :=
  Follower.init (follower_config max_target) [].

Definition leader_fresh : Leader.t := Leader.init leader_config [].

(** The devices after [connect(calibrate=False)] in the calm world. *)
Definition follower_connected (max_target : option Z) : Follower.t :=
  snd (Follower.connect calm false (follower_fresh max_target)).

Definition leader_connected : Leader.t :=
  snd (Leader.connect calm false leader_fresh).





(** A calibration loaded from an earlier run, with a stray record. *)
Definition old_calibration : dict MotorCalibration :=
  [ ("right_joint0", mkMotorCalibration 1 0 7 (-5) 5);
    ("left_wrist", mkMotorCalibration 9 0 1 2 3) ].


End Scenario.

(** ** Predicates on computations, used to state and prove the properties *)

(** [m] never raises the exception [e]. *)
Definition never_raises {C A} (e : exn) (m : M C A) : Prop :=
  forall d, fst (m d) <> Raise e.


(** [m1] and [m2] leave the device the same and raise the same errors; the
    values they return may differ. *)
Definition same_effect {C A} (m1 m2 : M C A) : Prop :=
  forall d, snd (m1 d) = snd (m2 d) /\
            (forall e, fst (m1 d) = Raise e <-> fst (m2 d) = Raise e).

(** Every run of [m] relates its initial and final device by [R]. *)
Definition respects {C A} (R : Device C -> Device C -> Prop) (m : M C A) : Prop :=
  forall d, R d (snd (m d)).

(** The trace only grows, and by events satisfying [p]. *)
Definition grows {C} (p : event -> bool) (d d' : Device C) : Prop :=
  exists es, trace d' = (trace d ++ es)%list /\ forallb p es = true.

(** Neither bus's motor table nor the calibration it holds has changed. *)
Definition buses_untouched {C} (d d' : Device C) : Prop :=
  forall s, motors (bus s d') = motors (bus s d) /\
            bus_calibration (bus s d') = bus_calibration (bus s d).

(** A relation on devices that every step outside [write_calibration] keeps,
    as long as the events logged satisfy [p]. *)
Class Stable {C} (p : event -> bool) (R : Device C -> Device C -> Prop) : Prop :=
  { stable_refl : forall d, R d d;
    stable_trans : forall a b c, R a b -> R b c -> R a c;
    stable_log : forall e d, p e = true -> R d (log e d);
    stable_flag : forall s b d,
        R d (set_bus s (mkBus (motors (bus s d)) b (bus_calibration (bus s d))) d);
    stable_calibration : forall c d, R d (set_calibration c d);
    stable_cameras : forall cs d, R d (set_cameras cs d) }.


(** The trace grows by events satisfying [p] and the buses keep what they hold. *)
Definition steady {C} (p : event -> bool) (d d' : Device C) : Prop :=
  grows p d d' /\ buses_untouched d d'.

Definition any_event (_ : event) : bool := true.



(** A reply carries a value for each of the eight joint slots. *)
Definition covers (reply : dict Z) : bool :=
  forallb (fun j => match dict_get j reply with Some _ => true | None => false end)
          joint_slots.

(** [reply[j]], with 0 standing in where the key is missing. *)
Definition reply_at (reply : dict Z) (j : string) : Z :=
  match dict_get j reply with Some z => z | None => 0%Z end.

(** The record set a complete calibration run produces for one arm, keyed by
    [key_of] applied to the joint slot: built from this run's replies only. *)
Definition fresh_records (w : World) (s : side) (key_of : string -> string)
    : dict MotorCalibration :=
  map (fun jm => (key_of (fst jm),
                  mkMotorCalibration (motor_id (snd jm)) 0
                    (reply_at (homing_reply w s) (fst jm))
                    (reply_at (range_mins_reply w s) (fst jm))
                    (reply_at (range_maxes_reply w s) (fst jm))))
      (arm_motors RANGE_M100_100).

(** Factory gains of the motors, as the follower's comments give them
    ("Default is 32" for P; "default value 0 and 32" for I and D). *)
Definition factory_P : Z := 32.
Definition factory_I : Z := 0.
Definition factory_D : Z := 32.

Definition is_pid_register (register : string) : bool :=
  String.eqb register "P_Coefficient" || String.eqb register "I_Coefficient"
  || String.eqb register "D_Coefficient".

Definition is_pid_write (e : event) : bool :=
  is_bus_event (fun _ c => match c with Write r _ _ => is_pid_register r | _ => false end) e.

(** A write that lowers P below, or raises D above, the factory value. *)
Definition lowers_P (e : event) : bool :=
  is_bus_event (fun _ c => match c with
                           | Write r _ (VInt z) => String.eqb r "P_Coefficient" && (z <? factory_P)%Z
                           | _ => false
                           end) e.

Definition raises_D (e : event) : bool :=
  is_bus_event (fun _ c => match c with
                           | Write r _ (VInt z) => String.eqb r "D_Coefficient" && (factory_D <? z)%Z
                           | _ => false
                           end) e.

(** [key.startswith("right_") or key.startswith("left_")] *)
Definition has_side_prefix (key : string) : bool :=
  Str.startswith key "right_" || Str.startswith key "left_".

(** A position key of an action map that carries neither side prefix. *)
Definition stray (key : string) : bool :=
  Str.endswith key ".pos"
  && negb (Str.startswith (Str.removesuffix key ".pos") "right_")
  && negb (Str.startswith (Str.removesuffix key ".pos") "left_").

(** Line 311 of the follower: the position entries of an action map, keyed
    without their [.pos] suffix. *)
Definition goal_pos_of (action : dict Z) : dict Z :=
  dict_comp (fun key => Str.endswith key ".pos")
            (fun key => Str.removesuffix key ".pos") action.

(** The action map without its stray keys. *)
Definition without_stray (action : dict Z) : dict Z :=
  filter (fun kv => negb (stray (fst kv))) action.

(** The device after logging [es], in order. *)
Definition log_all {C} (es : list event) (d : Device C) : Device C :=
  fold_left (fun d e => log e d) es d.

(** Started in [d], [m] returns normally, having done nothing but log [es]. *)
Definition runs_ok {C} (m : M C unit) (d : Device C) (es : list event) : Prop :=
  m d = (Ok tt, log_all es d).

(** Started in [d], [m] returns normally and leaves [d']. *)
Definition steps {C} (m : M C unit) (d d' : Device C) : Prop := m d = (Ok tt, d').

(** The writes [configure] makes for one motor, in the follower and in the
    leader. *)
Definition follower_motor_writes (s : side) (motor : string) : list event :=
  [ Bus s (Write "Operating_Mode" motor (VMode POSITION));
    Bus s (Write "P_Coefficient" motor (VInt 16));
    Bus s (Write "I_Coefficient" motor (VInt 0));
    Bus s (Write "D_Coefficient" motor (VInt 32)) ].

Definition leader_motor_writes (s : side) (motor : string) : list event :=
  [ Bus s (Write "Operating_Mode" motor (VMode POSITION)) ].

(** The two sources' [calibrate] methods are the same text.  [Shared] is that
    text with the configuration class left open; [follower_calibrate_shared]
    and [leader_calibrate_shared] show each coordinator's method is it. *)
Module Shared.
Section Methods.
Context {C : Type}.
Variable w : World.

Definition set_operating_mode (s : side) : M C unit :=
  d <- get ;;
  for_each (dict_keys (motors (bus s d)))
           (fun motor => bus_write w s "Operating_Mode" motor (VMode POSITION)).

Definition record_motor (s : side) (homing_offsets range_mins range_maxes : dict Z)
    (mm : string * Motor) : M C unit :=
  let motor := fst mm in
  let m := snd mm in
  ho <- subscript homing_offsets motor ;;
  rmin <- subscript range_mins motor ;;
  rmax <- subscript range_maxes motor ;;
  modify (fun d =>
    set_calibration
      (dict_set (side_prefix s ++ motor)
                (mkMotorCalibration (motor_id m) 0 ho rmin rmax)
                (calibration d)) d).

Definition calibrate_arm (s : side) : M C unit :=
  input w s ;;
  homing_offsets <- bus_set_half_turn_homings w s ;;
  ranges <- bus_record_ranges_of_motion w s ;;
  let range_mins := fst ranges in
  let range_maxes := snd ranges in
  d <- get ;;
  for_each (motors (bus s d)) (record_motor s homing_offsets range_mins range_maxes).

Definition write_and_save : M C unit :=
  d <- get ;;
  let right_calibration := for_side Right (calibration d) in
  let left_calibration := for_side Left (calibration d) in
  bus_write_calibration w Right right_calibration ;;
  bus_write_calibration w Left left_calibration ;;
  _save_calibration w.

Definition calibrate : M C unit :=
  bus_disable_torque w Right ;;
  bus_disable_torque w Left ;;
  set_operating_mode Right ;;
  set_operating_mode Left ;;
  modify (set_calibration []) ;;
  calibrate_arm Right ;;
  calibrate_arm Left ;;
  write_and_save.
End Methods.
End Shared.

(** The records one arm's loop adds, keyed with the side prefix. *)
Definition arm_records (s : side) (homing_offsets range_mins range_maxes : dict Z)
    (ms : dict Motor) : dict MotorCalibration :=
  map (fun jm => (side_prefix s ++ fst jm,
                  mkMotorCalibration (motor_id (snd jm)) 0
                    (reply_at homing_offsets (fst jm))
                    (reply_at range_mins (fst jm))
                    (reply_at range_maxes (fst jm)))) ms.

(** ** Further predicates on keys and events *)

(** No key of a bus reply carries the side's own prefix: the driver keys its
    replies by local motor names. *)
Definition local_names (s : side) (reply : dict Z) : bool :=
  forallb (fun k => negb (Str.startswith k (side_prefix s))) (dict_keys reply).

(** Removing the prefix [p] from [m] changes nothing: [p] does not occur in
    the motor name [m]. *)
Definition free_of (p m : string) : bool := String.eqb (Str.replace m p "") m.

(** An event that is not a goal write, or is one with an empty goal map. *)
Definition writes_no_goal (e : event) : bool :=
  match e with
  | Bus _ (SyncWrite _ values) => match values with [] => true | _ :: _ => false end
  | _ => true
  end.

Definition is_enable_torque (e : event) : bool :=
  is_bus_event (fun _ c => match c with EnableTorque => true | _ => false end) e.

Definition not_enable_torque (e : event) : bool := negb (is_enable_torque e).

(** The steps only [calibrate] takes: the operator prompts, homing, range
    recording, writing the records to a bus and saving them. *)
Definition is_calibration_step (e : event) : bool :=
  match e with
  | Input _ => true
  | SaveCalibration _ => true
  | Bus _ SetHalfTurnHomings => true
  | Bus _ RecordRangesOfMotion => true
  | Bus _ (WriteCalibration _) => true
  | _ => false
  end.

Definition not_calibration_step (e : event) : bool := negb (is_calibration_step e).

(** The unified view of one bus's reading: [{f"{side}_{motor}.pos": val}]. *)
Definition unified (s : side) (reading : dict Z) : dict Z :=
  map (fun kv => (side_prefix s ++ fst kv ++ ".pos", snd kv)) reading.

(** One bus's map under its side prefix: [{f"{side}_{motor}": val}], the way
    [calibrate] keys its records and [send_action] its goal positions. *)
Definition prefixed {V} (s : side) (d : dict V) : dict V :=
  map (fun kv => (side_prefix s ++ fst kv, snd kv)) d.

Definition other_side (s : side) : side :=
  match s with Right => Left | Left => Right end.

(** The camera table after [connect()] (or [disconnect()]) was called on the
    cameras named [cams], in order. *)
Definition set_all_cameras (connected : bool) (cams : list string) (cs : dict Camera)
    : dict Camera :=
  fold_left (fun acc cam => dict_set cam (mkCamera connected) acc) cams cs.

(** The events of a follower's and of a leader's [configure] when every call
    goes through. *)
Definition follower_configure_events {C} (d : Device C) : list event :=
  ([Bus Right DisableTorque; Bus Left DisableTorque;
    Bus Right ConfigureMotors; Bus Left ConfigureMotors]
   ++ flat_map (follower_motor_writes Right) (dict_keys (motors (right_bus d)))
   ++ flat_map (follower_motor_writes Left) (dict_keys (motors (left_bus d)))
   ++ [Bus Left EnableTorque; Bus Right EnableTorque])%list.

Definition leader_configure_events {C} (d : Device C) : list event :=
  ([Bus Right DisableTorque; Bus Left DisableTorque;
    Bus Right ConfigureMotors; Bus Left ConfigureMotors]
   ++ flat_map (leader_motor_writes Right) (dict_keys (motors (right_bus d)))
   ++ flat_map (leader_motor_writes Left) (dict_keys (motors (left_bus d))))%list.


(** * Properties *)

(** ** Strings *)

Lemma strip_suffix_eq (suf s : string) :
  Str.strip_suffix suf s =
  if String.eqb s suf then Some EmptyString
  else match s with
       | EmptyString => None
       | String c s' => option_map (String c) (Str.strip_suffix suf s')
       end.
Proof. destruct s; reflexivity. Qed.

Lemma strip_suffix_sound (suf s p : string) :
  Str.strip_suffix suf s = Some p -> s = p ++ suf.
Proof.
  revert p; induction s as [|c s IH]; intros p; rewrite strip_suffix_eq;
    match goal with |- context [String.eqb ?a ?b] => destruct (String.eqb a b) eqn:E end;
    try discriminate.
  - intros H; injection H as <-. apply String.eqb_eq in E. exact E.
  - intros H; injection H as <-. apply String.eqb_eq in E. exact E.
  - destruct (Str.strip_suffix suf s) as [q|]; simpl; [|discriminate].
    intros H; injection H as <-. simpl. f_equal. apply IH. reflexivity.
Qed.

Lemma endswith_removesuffix (k suf : string) :
  Str.endswith k suf = true -> Str.removesuffix k suf ++ suf = k.
Proof.
  unfold Str.endswith, Str.removesuffix.
  destruct (Str.strip_suffix suf k) as [p|] eqn:E; [|discriminate].
  intros _. symmetry. apply strip_suffix_sound. exact E.
Qed.

(** ** Dictionaries *)

Section DictFacts.
Variable V : Type.
Implicit Types (d : dict V) (k : string) (v : V).

Lemma dict_get_In_keys k d :
  dict_get k d <> None <-> In k (dict_keys d).
Proof.
  induction d as [|[k' v'] d IH]; simpl.
  - split; [congruence | tauto].
  - destruct (String.eqb k k') eqn:E.
    + apply String.eqb_eq in E. subst. split; [auto | congruence].
    + apply String.eqb_neq in E. rewrite IH. split; [auto | intros [H|H]; congruence].
Qed.

Lemma dict_set_fresh k v d :
  ~ In k (dict_keys d) -> dict_set k v d = (d ++ [(k, v)])%list.
Proof.
  induction d as [|[k' v'] d IH]; simpl; intros H; [reflexivity|].
  destruct (String.eqb k k') eqn:E.
  - apply String.eqb_eq in E. subst. tauto.
  - f_equal. apply IH. tauto.
Qed.

Lemma dict_keys_set k v d :
  dict_keys (dict_set k v d) =
  if in_dec string_dec k (dict_keys d) then dict_keys d else (dict_keys d ++ [k])%list.
Proof.
  induction d as [|[k' v'] d IH]; simpl; [reflexivity|].
  destruct (String.eqb k k') eqn:E.
  - apply String.eqb_eq in E. subst.
    destruct (string_dec k' k'); [reflexivity | congruence].
  - apply String.eqb_neq in E. simpl. rewrite IH.
    destruct (string_dec k' k); [congruence|].
    destruct (in_dec string_dec k (dict_keys d)); reflexivity.
Qed.

Lemma In_keys_set k' k v d :
  In k' (dict_keys (dict_set k v d)) <-> k' = k \/ In k' (dict_keys d).
Proof.
  rewrite dict_keys_set.
  destruct (in_dec string_dec k (dict_keys d)) as [i|n].
  - split; [auto | intros [->|H]; assumption].
  - rewrite in_app_iff. simpl. intuition congruence.
Qed.

Lemma NoDup_keys_set k v d :
  NoDup (dict_keys d) -> NoDup (dict_keys (dict_set k v d)).
Proof.
  intros H. rewrite dict_keys_set.
  destruct (in_dec string_dec k (dict_keys d)) as [i|n]; [assumption|].
  apply NoDup_app; [assumption | repeat constructor; simpl; tauto |].
  intros x Hx [<-|[]]. contradiction.
Qed.

Lemma In_keys_update k d items :
  In k (dict_keys (dict_update d items)) <->
  In k (dict_keys d) \/ In k (map fst items).
Proof.
  unfold dict_update. revert d.
  induction items as [|[k' v'] items IH]; intros d; simpl; [tauto|].
  rewrite IH, In_keys_set. intuition congruence.
Qed.

Lemma NoDup_keys_update d items :
  NoDup (dict_keys d) -> NoDup (dict_keys (dict_update d items)).
Proof.
  unfold dict_update. revert d.
  induction items as [|[k' v'] items IH]; intros d H; simpl; [assumption|].
  apply IH, NoDup_keys_set, H.
Qed.

(** Updating never moves the keys already there. *)
Lemma keys_update_prefix d items :
  exists more, dict_keys (dict_update d items) = (dict_keys d ++ more)%list.
Proof.
  unfold dict_update. revert d.
  induction items as [|[k' v'] items IH]; intros d; simpl.
  - exists []. symmetry. apply app_nil_r.
  - destruct (IH (dict_set k' v' d)) as [more E]. rewrite E, dict_keys_set.
    destruct (in_dec string_dec k' (dict_keys d)).
    + exists more. reflexivity.
    + exists (k' :: more). rewrite <- app_assoc. reflexivity.
Qed.

Lemma dict_update_fresh d items :
  NoDup (dict_keys (d ++ items)%list) -> dict_update d items = (d ++ items)%list.
Proof.
  unfold dict_update, dict_keys. revert d.
  induction items as [|[k' v'] items IH]; intros d H; simpl.
  - symmetry. apply app_nil_r.
  - assert (Hk : ~ In k' (map fst d)).
    { rewrite map_app in H. simpl in H. apply NoDup_remove_2 in H.
      rewrite in_app_iff in H. tauto. }
    rewrite dict_set_fresh by exact Hk.
    rewrite IH; rewrite <- app_assoc; [reflexivity | exact H].
Qed.

Lemma dict_of_items_fresh (items : list (string * V)) :
  NoDup (map fst items) -> dict_of_items items = items.
Proof. intros H. apply (dict_update_fresh []). exact H. Qed.

Lemma In_keys_of_items k (items : list (string * V)) :
  In k (dict_keys (dict_of_items items)) <-> In k (map fst items).
Proof. unfold dict_of_items. rewrite In_keys_update. simpl. tauto. Qed.

Lemma NoDup_keys_of_items (items : list (string * V)) :
  NoDup (dict_keys (dict_of_items items)).
Proof. apply NoDup_keys_update. constructor. Qed.

(** Filtering on keys commutes with assignment, update and construction. *)
Lemma filter_dict_set (p : string -> bool) k v d :
  filter (fun kv => p (fst kv)) (dict_set k v d) =
  if p k then dict_set k v (filter (fun kv => p (fst kv)) d)
  else filter (fun kv => p (fst kv)) d.
Proof.
  induction d as [|[k' v'] d IH]; simpl.
  - destruct (p k); reflexivity.
  - destruct (String.eqb k k') eqn:E; simpl.
    + apply String.eqb_eq in E. subst k'.
      destruct (p k); simpl; [rewrite String.eqb_refl|]; reflexivity.
    + rewrite IH. destruct (p k'), (p k); simpl; try rewrite E; reflexivity.
Qed.

Lemma filter_dict_update (p : string -> bool) d items :
  filter (fun kv => p (fst kv)) (dict_update d items) =
  dict_update (filter (fun kv => p (fst kv)) d) (filter (fun kv => p (fst kv)) items).
Proof.
  unfold dict_update. revert d.
  induction items as [|[k' v'] items IH]; intros d; simpl; [reflexivity|].
  rewrite IH, filter_dict_set. destruct (p k'); reflexivity.
Qed.

Lemma filter_dict_of_items (p : string -> bool) (items : list (string * V)) :
  filter (fun kv => p (fst kv)) (dict_of_items items) =
  dict_of_items (filter (fun kv => p (fst kv)) items).
Proof. apply (filter_dict_update p []). Qed.

Lemma dict_get_filter (p : string -> bool) k d :
  p k = true -> dict_get k (filter (fun kv => p (fst kv)) d) = dict_get k d.
Proof.
  intros Hp. induction d as [|[k' v'] d IH]; simpl; [reflexivity|].
  destruct (p k') eqn:E; simpl; destruct (String.eqb k k') eqn:Ek; try assumption.
  - reflexivity.
  - apply String.eqb_eq in Ek. congruence.
Qed.

End DictFacts.

(** ** Runs and traces *)

Unset Implicit Arguments.

Lemma new_events_app {C} (d d' : Device C) (es : list event) :
  trace d' = (trace d ++ es)%list -> new_events d d' = es.
Proof.
  unfold new_events. intros ->.
  rewrite skipn_app, skipn_all, Nat.sub_diag. reflexivity.
Qed.

Lemma new_events_log {C} (d : Device C) (e : event) :
  new_events d (log e d) = [e].
Proof. apply new_events_app. reflexivity. Qed.

(** ** Guards of the follower *)

Lemma follower_disconnect_guard (w : World) (d : Follower.t) :
  Follower.is_connected d = false ->
  Follower.disconnect w d = (Raise DeviceNotConnectedError, d).
Proof. intros H. unfold Follower.disconnect, bind, get. rewrite H. reflexivity. Qed.

Lemma follower_get_observation_guard (w : World) (d : Follower.t) :
  Follower.is_connected d = false ->
  Follower.get_observation w d = (Raise DeviceNotConnectedError, d).
Proof. intros H. unfold Follower.get_observation, bind, get. rewrite H. reflexivity. Qed.

Lemma follower_send_action_guard (w : World) (d : Follower.t) (action : dict Z) :
  Follower.is_connected d = false ->
  Follower.send_action w action d = (Raise DeviceNotConnectedError, d).
Proof. intros H. unfold Follower.send_action, bind, get. rewrite H. reflexivity. Qed.

Lemma follower_connect_guard (w : World) (d : Follower.t) (c : bool) :
  Follower.is_connected d = true ->
  Follower.connect w c d = (Raise DeviceAlreadyConnectedError, d).
Proof. intros H. unfold Follower.connect, bind, get. rewrite H. reflexivity. Qed.

Lemma leader_connect_guard (w : World) (d : Leader.t) (c : bool) :
  Leader.is_connected d = true ->
  Leader.connect w c d = (Raise DeviceAlreadyConnectedError, d).
Proof. intros H. unfold Leader.connect, bind, get. rewrite H. reflexivity. Qed.

(** ** Composition lemmas for the method monad *)

Section NeverRaises.
Context {C : Type}.
Variable e : exn.

Lemma nr_ret {A} (a : A) : never_raises (C:=C) e (ret a).
Proof. intros d. discriminate. Qed.

Lemma nr_get : never_raises (C:=C) e get.
Proof. intros d. discriminate. Qed.

Lemma nr_modify (f : Device C -> Device C) : never_raises e (modify f).
Proof. intros d. discriminate. Qed.

Lemma nr_raise {A} (e' : exn) : e' <> e -> never_raises (C:=C) (A:=A) e (raise e').
Proof. intros H d. simpl. congruence. Qed.

Lemma nr_bind {A B} (m : M C A) (k : A -> M C B) :
  never_raises e m -> (forall a, never_raises e (k a)) -> never_raises e (bind m k).
Proof.
  intros Hm Hk d. unfold bind. specialize (Hm d).
  destruct (m d) as [[a|e'] d']; simpl in *.
  - apply Hk.
  - intros E. apply Hm. congruence.
Qed.

Lemma nr_for_each {X} (xs : list X) (body : X -> M C unit) :
  (forall x, never_raises e (body x)) -> never_raises e (for_each xs body).
Proof.
  intros H. induction xs as [|x xs IH]; simpl.
  - apply nr_ret.
  - apply nr_bind; [apply H | intros _; exact IH].
Qed.

Lemma nr_try_finally {A} (body : M C A) (cleanup : M C unit) :
  never_raises e body -> never_raises e cleanup -> never_raises e (try_finally body cleanup).
Proof.
  intros Hb Hc d. unfold try_finally. specialize (Hb d).
  destruct (body d) as [r d']. specialize (Hc d').
  destruct (cleanup d') as [[u|e'] d'']; simpl in *; [assumption|].
  intros E. apply Hc. congruence.
Qed.

Lemma nr_subscript {V} (dv : dict V) (k : string) :
  (forall k', KeyError k' <> e) -> never_raises (C:=C) e (subscript dv k).
Proof.
  intros H. unfold subscript. destruct (dict_get k dv); [apply nr_ret | apply nr_raise, H].
Qed.

Lemma nr_call (w : World) (s : side) (c : bus_call) :
  (forall s' c', BusTransportError s' c' <> e) -> never_raises (C:=C) e (call w s c).
Proof.
  intros H. unfold call. apply nr_bind; [apply nr_modify | intros _].
  destruct (bus_raises w s c); [apply nr_raise, H | apply nr_ret].
Qed.

End NeverRaises.

Section Respects.
Context {C : Type} {p : event -> bool} {R : Device C -> Device C -> Prop}.
Context {HR : Stable p R}.

Lemma respects_ret {A} (a : A) : respects R (ret a).
Proof. intros d. apply stable_refl. Qed.

Lemma respects_raise {A} (e : exn) : respects (A:=A) R (raise e).
Proof. intros d. apply stable_refl. Qed.

Lemma respects_get : respects R get.
Proof. intros d. apply stable_refl. Qed.

Lemma respects_modify (f : Device C -> Device C) :
  (forall d, R d (f d)) -> respects R (modify f).
Proof. intros H d. apply H. Qed.

Lemma respects_bind {A B} (m : M C A) (k : A -> M C B) :
  respects R m -> (forall a, respects R (k a)) -> respects R (bind m k).
Proof.
  intros Hm Hk d. unfold bind. specialize (Hm d).
  destruct (m d) as [[a|e'] d']; simpl in *.
  - eapply stable_trans; [exact Hm | apply Hk].
  - exact Hm.
Qed.

Lemma respects_for_each {X} (xs : list X) (body : X -> M C unit) :
  (forall x, respects R (body x)) -> respects R (for_each xs body).
Proof.
  intros H. induction xs as [|x xs IH]; simpl.
  - apply respects_ret.
  - apply respects_bind; [apply H | intros _; exact IH].
Qed.

Lemma respects_map_m {X Y} (f : X -> M C Y) (xs : list X) :
  (forall x, respects R (f x)) -> respects R (map_m f xs).
Proof.
  intros H. induction xs as [|x xs IH]; simpl.
  - apply respects_ret.
  - apply respects_bind; [apply H | intros y].
    apply respects_bind; [exact IH | intros ys; apply respects_ret].
Qed.

Lemma respects_try_finally {A} (body : M C A) (cleanup : M C unit) :
  respects R body -> respects R cleanup -> respects R (try_finally body cleanup).
Proof.
  intros Hb Hc d. unfold try_finally. specialize (Hb d).
  destruct (body d) as [r d']. specialize (Hc d').
  destruct (cleanup d') as [[u|e'] d'']; simpl in *; eapply stable_trans; eassumption.
Qed.

Lemma respects_subscript {V} (dv : dict V) (k : string) : respects R (subscript dv k).
Proof.
  unfold subscript. destruct (dict_get k dv); [apply respects_ret | apply respects_raise].
Qed.

Lemma respects_log_then {A} (e : event) (m : M C A) :
  p e = true -> respects R m -> respects R (bind (modify (log e)) (fun _ => m)).
Proof.
  intros He Hm. apply respects_bind; [|intros _; exact Hm].
  apply respects_modify. intros d. apply stable_log, He.
Qed.

Lemma respects_call (w : World) (s : side) (c : bus_call) :
  p (Bus s c) = true -> respects R (call w s c).
Proof.
  intros H. unfold call. apply respects_log_then; [exact H|].
  destruct (bus_raises w s c); [apply respects_raise | apply respects_ret].
Qed.

Lemma respects_bus_connect (w : World) (s : side) :
  p (Bus s BusConnect) = true -> respects R (bus_connect w s).
Proof.
  intros H. unfold bus_connect.
  apply respects_bind; [apply respects_get | intros d0].
  apply respects_log_then; [exact H|].
  destruct (bus_raises w s BusConnect); [apply respects_raise|].
  apply respects_modify. intros d. apply stable_flag.
Qed.

Lemma respects_bus_disconnect (w : World) (s : side) (o : option bool) :
  p (Bus s (BusDisconnect o)) = true -> respects R (bus_disconnect w s o).
Proof.
  intros H. unfold bus_disconnect.
  apply respects_bind; [apply respects_call, H | intros _].
  apply respects_modify. intros d. apply stable_flag.
Qed.

Lemma respects_bus_reply {A} (w : World) (s : side) (c : bus_call) (a : A) :
  p (Bus s c) = true -> respects R (bind (call w s c) (fun _ => ret a)).
Proof.
  intros H. apply respects_bind; [apply respects_call, H | intros _; apply respects_ret].
Qed.

Lemma respects_cam_connect (w : World) (cam : string) :
  p (CamConnect cam) = true -> respects R (cam_connect w cam).
Proof.
  intros H. unfold cam_connect. apply respects_log_then; [exact H|].
  destruct (cam_raises w cam); [apply respects_raise|].
  apply respects_modify. intros d. apply stable_cameras.
Qed.

Lemma respects_cam_disconnect (w : World) (cam : string) :
  p (CamDisconnect cam) = true -> respects R (cam_disconnect w cam).
Proof.
  intros H. unfold cam_disconnect. apply respects_log_then; [exact H|].
  destruct (cam_raises w cam); [apply respects_raise|].
  apply respects_modify. intros d. apply stable_cameras.
Qed.

Lemma respects_input (w : World) (s : side) :
  p (Input s) = true -> respects R (input w s).
Proof.
  intros H. unfold input. apply respects_log_then; [exact H|].
  destruct (operator_interrupts w s); [apply respects_raise | apply respects_ret].
Qed.

Lemma respects_save_calibration (w : World) :
  (forall c, p (SaveCalibration c) = true) -> respects R (_save_calibration w).
Proof.
  intros H. unfold _save_calibration. apply respects_bind; [apply respects_get | intros d].
  apply respects_log_then; [apply H|].
  destruct (save_raises w); [apply respects_raise | apply respects_ret].
Qed.

End Respects.




(** ** The two relations on devices *)

Lemma grows_refl {C} (p : event -> bool) (d : Device C) : grows p d d.
Proof. exists []. split; [symmetry; apply app_nil_r | reflexivity]. Qed.

Lemma grows_trans {C} (p : event -> bool) (a b c : Device C) :
  grows p a b -> grows p b c -> grows p a c.
Proof.
  intros [es1 [E1 F1]] [es2 [E2 F2]]. exists (es1 ++ es2)%list. split.
  - rewrite E2, E1, app_assoc. reflexivity.
  - rewrite forallb_app, F1, F2. reflexivity.
Qed.

Lemma grows_log {C} (p : event -> bool) (e : event) (d : Device C) :
  p e = true -> grows p d (log e d).
Proof. intros H. exists [e]. simpl. rewrite H. auto. Qed.

Lemma grows_same_trace {C} (p : event -> bool) (d d' : Device C) :
  trace d' = trace d -> grows p d d'.
Proof. intros E. exists []. rewrite E, app_nil_r. auto. Qed.

Lemma buses_untouched_refl {C} (d : Device C) : buses_untouched d d.
Proof. intros s. auto. Qed.

Lemma buses_untouched_trans {C} (a b c : Device C) :
  buses_untouched a b -> buses_untouched b c -> buses_untouched a c.
Proof.
  intros H1 H2 s. destruct (H1 s) as [M1 C1], (H2 s) as [M2 C2].
  split; congruence.
Qed.


#[export] Instance grows_stable {C} (p : event -> bool) : Stable (C:=C) p (grows p).
Proof.
  constructor.
  - apply grows_refl.
  - apply grows_trans.
  - intros e d H. apply grows_log, H.
  - intros s b d. apply grows_same_trace. destruct s; reflexivity.
  - intros c d. apply grows_same_trace. reflexivity.
  - intros cs d. apply grows_same_trace. reflexivity.
Qed.

#[export] Instance steady_stable {C} (p : event -> bool) : Stable (C:=C) p (steady p).
Proof.
  constructor.
  - intros d. split; [apply grows_refl | apply buses_untouched_refl].
  - intros a b c [G1 U1] [G2 U2].
    split; [eapply grows_trans | eapply buses_untouched_trans]; eassumption.
  - intros e d H. split; [apply grows_log, H | intros s; destruct s; auto].
  - intros s b d. split; [apply grows_same_trace; destruct s; reflexivity|].
    intros s'; destruct s, s'; auto.
  - intros c d. split; [apply grows_same_trace; reflexivity | intros s; destruct s; auto].
  - intros cs d. split; [apply grows_same_trace; reflexivity | intros s; destruct s; auto].
Qed.

(** [write_calibration] replaces what a bus holds, but the trace still grows. *)
Lemma grows_bus_write_calibration {C} (w : World) (s : side) (c : dict MotorCalibration) :
  respects (C:=C) (grows any_event) (bus_write_calibration w s c).
Proof.
  unfold bus_write_calibration.
  apply respects_bind; [apply respects_call; reflexivity | intros _].
  apply respects_modify. intros d. apply grows_same_trace. destruct s; reflexivity.
Qed.

(** ** Tactics walking a method body *)

Ltac unfold_bus_calls :=
  unfold torque_disabled in *;
  unfold bus_write, bus_disable_torque, bus_enable_torque, bus_configure_motors,
    bus_sync_read, bus_sync_write, bus_set_half_turn_homings,
    bus_record_ranges_of_motion in *.

Ltac respects_step :=
  lazymatch goal with
  | |- respects _ (bind _ _) => apply respects_bind; [| intro]
  | |- respects _ (ret _) => apply respects_ret
  | |- respects _ (raise _) => apply respects_raise
  | |- respects _ get => apply respects_get
  | |- respects _ (for_each _ _) => apply respects_for_each; intro
  | |- respects _ (map_m _ _) => apply respects_map_m; intro
  | |- respects _ (try_finally _ _) => apply respects_try_finally
  | |- respects _ (subscript _ _) => apply respects_subscript
  | |- respects _ (call _ _ _) => apply respects_call; reflexivity
  | |- respects _ (bus_connect _ _) => apply respects_bus_connect; reflexivity
  | |- respects _ (bus_disconnect _ _ _) => apply respects_bus_disconnect; reflexivity
  | |- respects _ (cam_connect _ _) => apply respects_cam_connect; reflexivity
  | |- respects _ (cam_disconnect _ _) => apply respects_cam_disconnect; reflexivity
  | |- respects _ (input _ _) => apply respects_input; reflexivity
  | |- respects _ (_save_calibration _) =>
      apply respects_save_calibration; intro; reflexivity
  | |- respects _ (bus_write_calibration _ _ _) => apply grows_bus_write_calibration
  | |- respects _ (modify _) => apply respects_modify; intro; apply stable_calibration
  | |- respects _ (if ?b then _ else _) => destruct b
  end.

Ltac respects_walk := unfold_bus_calls; cbv zeta; repeat respects_step.

Ltac nr_step :=
  lazymatch goal with
  | |- never_raises _ (bind _ _) => apply nr_bind; [| intro]
  | |- never_raises _ (ret _) => apply nr_ret
  | |- never_raises _ (raise _) => apply nr_raise; discriminate
  | |- never_raises _ get => apply nr_get
  | |- never_raises _ (modify _) => apply nr_modify
  | |- never_raises _ (for_each _ _) => apply nr_for_each; intro
  | |- never_raises _ (try_finally _ _) => apply nr_try_finally
  | |- never_raises _ (subscript _ _) => apply nr_subscript; intro; discriminate
  | |- never_raises _ (call _ _ _) => apply nr_call; intros; discriminate
  | |- never_raises _ (if ?b then _ else _) => destruct b
  end.

Ltac nr_walk :=
  unfold_bus_calls;
  unfold bus_connect, bus_disconnect, bus_write_calibration, cam_connect,
    cam_disconnect, cam_async_read, input, _save_calibration;
  cbv zeta; repeat nr_step.

(** ** What the shared steps of both coordinators keep *)

Lemma bind_assoc {C A B D} (m : M C A) (f : A -> M C B) (g : B -> M C D) (d : Device C) :
  bind (bind m f) g d = bind m (fun a => bind (f a) g) d.
Proof. unfold bind. destruct (m d) as [[a|e] d']; reflexivity. Qed.

(** A bus call followed by anything that lets the trace grow: the call is the
    first new event. *)
Lemma call_is_first_event {C A} (w : World) (s : side) (c : bus_call)
    (m : M C A) (d : Device C) :
  respects (grows any_event) m ->
  exists rest, new_events d (snd (bind (call w s c) (fun _ => m) d)) = Bus s c :: rest.
Proof.
  intros Hm. unfold call, bind, modify.
  destruct (bus_raises w s c); simpl.
  - exists []. apply new_events_log.
  - destruct (Hm (log (Bus s c) d)) as [es [E _]].
    exists es. apply new_events_app. rewrite E. simpl.
    rewrite <- app_assoc. reflexivity.
Qed.

Lemma follower_calibrate_grows (w : World) :
  respects (grows any_event) (Follower.calibrate w).
Proof.
  unfold Follower.calibrate, Follower.set_operating_mode, Follower.calibrate_arm.
  respects_walk.
Qed.

Lemma follower_configure_grows (w : World) :
  respects (grows any_event) (Follower.configure w).
Proof.
  unfold Follower.configure, Follower.configure_arm. respects_walk.
Qed.

Lemma leader_calibrate_grows (w : World) :
  respects (grows any_event) (Leader.calibrate w).
Proof.
  unfold Leader.calibrate, Leader.set_operating_mode, Leader.calibrate_arm.
  respects_walk.
Qed.

Lemma leader_configure_grows (w : World) :
  respects (grows any_event) (Leader.configure w).
Proof.
  unfold Leader.configure, Leader.set_operating_mode. respects_walk.
Qed.

Lemma follower_calibrate_own_errors (w : World) :
  never_raises DeviceAlreadyConnectedError (Follower.calibrate w).
Proof.
  unfold Follower.calibrate, Follower.set_operating_mode, Follower.calibrate_arm.
  nr_walk.
Qed.

Lemma follower_configure_own_errors (w : World) :
  never_raises DeviceAlreadyConnectedError (Follower.configure w).
Proof.
  unfold Follower.configure, Follower.configure_arm. nr_walk.
Qed.

Lemma leader_calibrate_own_errors (w : World) :
  never_raises DeviceAlreadyConnectedError (Leader.calibrate w).
Proof.
  unfold Leader.calibrate, Leader.set_operating_mode, Leader.calibrate_arm.
  nr_walk.
Qed.

Lemma leader_configure_own_errors (w : World) :
  never_raises DeviceAlreadyConnectedError (Leader.configure w).
Proof.
  unfold Leader.configure, Leader.set_operating_mode. nr_walk.
Qed.

(** ** The model on concrete inputs *)

Example replace_strips_every_occurrence :
  Str.replace "right_right_joint0" "right_" "" = "joint0".
Proof. reflexivity. Qed.

Example removesuffix_pos :
  Str.removesuffix "right_joint0.pos" ".pos" = "right_joint0" /\
  Str.removesuffix "right_joint0" ".pos" = "right_joint0" /\
  Str.endswith "pos" ".pos" = false.
Proof. repeat split. Qed.

(** The clamp's boundary cases, as section 8 of the spec lists them. *)
Example clamp_goal_boundaries :
  clamp_goal 10 0 3 = 3%Z /\ clamp_goal (-10) 0 3 = (-3)%Z /\
  clamp_goal 50 0 10 = 10%Z /\ clamp_goal 7 5 3 = 7%Z.
Proof. repeat split. Qed.

Example unified_keys_count : List.length unified_keys = 16%nat.
Proof. reflexivity. Qed.

(** [connect()] on a fresh follower in the calm world: calibration runs, and
    the device ends up connected and calibrated. *)
Example follower_connect_calm :
  let r := Follower.connect Scenario.calm true (Scenario.follower_fresh None) in
  fst r = Ok tt /\
  Follower.is_connected (snd r) = true /\
  Follower.is_calibrated (snd r) = true /\
  List.length (calibration (snd r)) = 16%nat.
Proof. vm_compute. repeat split. Qed.

(** A connected follower's observation: sixteen positions and one frame. *)
Example follower_observation_keys :
  match fst (Follower.get_observation Scenario.calm (Scenario.follower_connected None)) with
  | Ok obs => dict_keys obs = (unified_keys ++ ["front"])%list
  | Raise _ => False
  end.
Proof. vm_compute. reflexivity. Qed.

(** A connected leader's action. *)
Example leader_action_keys :
  match fst (Leader.get_action Scenario.calm Scenario.leader_connected) with
  | Ok action => dict_keys action = unified_keys
  | Raise _ => False
  end.
Proof. vm_compute. reflexivity. Qed.

(** After a run cut short at the left prompt the device's own record set
    holds the right arm's eight records and none of the left arm's. *)
Example interrupted_run_leaves_right_records :
  dict_keys (calibration
    (snd (Follower.calibrate Scenario.operator_leaves
            (Follower.init (Scenario.follower_config None) Scenario.old_calibration))))
  = map (String.append "right_") joint_slots.
Proof. vm_compute. reflexivity. Qed.

(** The loaded calibration is split by prefix when the buses are built. *)
Example init_splits_loaded_calibration :
  dict_keys (bus_calibration
    (right_bus (Follower.init (Scenario.follower_config None) Scenario.old_calibration)))
  = ["joint0"] /\
  dict_keys (bus_calibration
    (left_bus (Follower.init (Scenario.follower_config None) Scenario.old_calibration)))
  = ["wrist"].
Proof. split; reflexivity. Qed.

(** ** C1: [send_action] with a maximum relative target *)

(** C1.  With a maximum relative target configured, a connected follower asked
    for [{right_joint0.pos: goal}] reads the present positions of both buses
    and then subscripts the right bus's reading with the still-prefixed key
    [right_joint0]: since that reading is keyed by the bus's local motor names,
    the call raises [KeyError] and neither writes a goal nor returns the
    clamped action. *)
Theorem C1_send_action_clamp_raises_key_error
    (w : World) (d : Follower.t) (goal max_target : Z) :
  Follower.is_connected d = true ->
  Follower.max_relative_target (config d) = Some max_target ->
  bus_raises w Right (SyncRead "Present_Position") = false ->
  bus_raises w Left (SyncRead "Present_Position") = false ->
  dict_get "right_joint0" (sync_read_reply w Right "Present_Position") = None ->
  Follower.send_action w [("right_joint0.pos", goal)] d =
    (Raise (KeyError "right_joint0"),
     log (Bus Left (SyncRead "Present_Position"))
         (log (Bus Right (SyncRead "Present_Position")) d)).
Proof.
  intros Hconn Hmax HR HL Hkey.
  unfold Follower.send_action, bind, get. rewrite Hconn, Hmax. simpl negb. cbv iota.
  unfold bus_sync_read, call, bind, modify. rewrite HR, HL.
  unfold ret, Follower.goal_present_items.
  change (dict_comp (fun key => Str.endswith key ".pos")
                    (fun key => Str.removesuffix key ".pos")
                    [("right_joint0.pos", goal)])
    with [("right_joint0", goal)].
  simpl. unfold subscript, bind. simpl. rewrite Hkey. reflexivity.
Qed.

(** The claim's own numbers: request 50, every joint at 0, maximum step 10. *)
Lemma C1_witness :
  Follower.send_action Scenario.calm [("right_joint0.pos", 50%Z)]
                       (Scenario.follower_connected (Some 10%Z)) =
    (Raise (KeyError "right_joint0"),
     log (Bus Left (SyncRead "Present_Position"))
         (log (Bus Right (SyncRead "Present_Position"))
              (Scenario.follower_connected (Some 10%Z)))).
Proof.
  apply (C1_send_action_clamp_raises_key_error Scenario.calm
           (Scenario.follower_connected (Some 10%Z)) 50 10); reflexivity.
Defined.

(** Closes a goal [new_events d d' = es] once [d'] is a stack of [log]s. *)
Ltac trace_done :=
  apply new_events_app; simpl; rewrite <- ?app_assoc; reflexivity.

(** ** C2: [disconnect] on a device that is not connected *)

(** C2.  The leader's [disconnect], called on a device that is not connected,
    does not raise [DeviceNotConnectedError]: its guard builds the exception
    without raising it, and the first thing the call does is ask the right bus
    to disconnect.  (The follower's guard does raise; see
    [follower_disconnect_guard].) *)
Theorem C2_leader_disconnect_unguarded (w : World) (d : Leader.t) :
  Leader.is_connected d = false ->
  fst (Leader.disconnect w d) <> Raise DeviceNotConnectedError /\
  exists rest,
    new_events d (snd (Leader.disconnect w d)) = Bus Right (BusDisconnect None) :: rest.
Proof.
  intros H.
  unfold Leader.disconnect, bind, get, discard, ret. rewrite H. simpl negb. cbv iota.
  unfold bus_disconnect, call, bind, modify, ret, raise.
  destruct (bus_raises w Right (BusDisconnect None)); simpl.
  - split; [discriminate | exists []; trace_done].
  - destruct (bus_raises w Left (BusDisconnect None)); simpl.
    + split; [discriminate | eexists; trace_done].
    + split; [discriminate | eexists; trace_done].
Qed.

Lemma C2_witness :
  fst (Leader.disconnect Scenario.calm Scenario.leader_fresh)
    <> Raise DeviceNotConnectedError /\
  exists rest,
    new_events Scenario.leader_fresh
               (snd (Leader.disconnect Scenario.calm Scenario.leader_fresh))
    = Bus Right (BusDisconnect None) :: rest.
Proof.
  apply (C2_leader_disconnect_unguarded Scenario.calm Scenario.leader_fresh).
  reflexivity.
Defined.

(** ** C7: the unified read on a device that is not connected *)

(** C7.  The leader's [get_action] has no connection guard: on a device that
    is not connected it does not raise [DeviceNotConnectedError] itself and
    goes straight to a synchronized read on the right bus.  (The follower's
    [get_observation] is guarded; see [follower_get_observation_guard].) *)
Theorem C7_leader_get_action_unguarded (w : World) (d : Leader.t) :
  Leader.is_connected d = false ->
  fst (Leader.get_action w d) <> Raise DeviceNotConnectedError /\
  exists rest,
    new_events d (snd (Leader.get_action w d))
    = Bus Right (SyncRead "Present_Position") :: rest.
Proof.
  intros _.
  unfold Leader.get_action, bus_sync_read, call, bind, modify, ret, raise.
  destruct (bus_raises w Right (SyncRead "Present_Position")); simpl.
  - split; [discriminate | exists []; trace_done].
  - destruct (bus_raises w Left (SyncRead "Present_Position")); simpl.
    + split; [discriminate | eexists; trace_done].
    + split; [discriminate | eexists; trace_done].
Qed.

Lemma C7_witness :
  fst (Leader.get_action Scenario.calm Scenario.leader_fresh)
    <> Raise DeviceNotConnectedError /\
  exists rest,
    new_events Scenario.leader_fresh
               (snd (Leader.get_action Scenario.calm Scenario.leader_fresh))
    = Bus Right (SyncRead "Present_Position") :: rest.
Proof.
  apply (C7_leader_get_action_unguarded Scenario.calm Scenario.leader_fresh).
  reflexivity.
Defined.

(** ** C5 and C9: [connect] *)

Lemma bind_run {C A B} (m : M C A) (k : A -> M C B) (d : Device C) :
  bind m k d = match m d with
               | (Ok a, d') => k a d'
               | (Raise e, d') => (Raise e, d')
               end.
Proof. reflexivity. Qed.

Lemma bind_ret {C A B} (a : A) (k : A -> M C B) (d : Device C) :
  bind (ret a) k d = k a d.
Proof. reflexivity. Qed.

Lemma call_run {C} (w : World) (s : side) (c : bus_call) (d : Device C) :
  call w s c d = if bus_raises w s c
                 then (Raise (BusTransportError s c), log (Bus s c) d)
                 else (Ok tt, log (Bus s c) d).
Proof. unfold call, bind, modify. simpl. destruct (bus_raises w s c); reflexivity. Qed.

Lemma bus_connect_run {C} (w : World) (s : side) (d : Device C) :
  bus_connect w s d =
  if bus_raises w s BusConnect
  then (Raise (connect_failure s (bus s d)), log (Bus s BusConnect) d)
  else (Ok tt, set_bus s (mkBus (motors (bus s (log (Bus s BusConnect) d))) true
                                (bus_calibration (bus s (log (Bus s BusConnect) d))))
                       (log (Bus s BusConnect) d)).
Proof.
  unfold bus_connect, bind, get, modify, raise.
  destruct (bus_raises w s BusConnect); reflexivity.
Qed.

(** What both coordinators do once the guard of [connect] has let them
    through: the right bus, then the left bus, then [rest]. *)
Lemma connect_sequence {C A} (w : World) (rest : M C A) (d : Device C) :
  respects (grows any_event) rest ->
  let r := (bus_connect w Right ;; bus_connect w Left ;; rest) d in
  (exists more, trace (snd r) = (trace d ++ Bus Right BusConnect :: more)%list) /\
  (bus_raises w Right BusConnect = true ->
   r = (Raise (connect_failure Right (right_bus d)), log (Bus Right BusConnect) d)) /\
  (bus_raises w Right BusConnect = false ->
   exists more,
     trace (snd r) = (trace d ++ Bus Right BusConnect :: Bus Left BusConnect :: more)%list) /\
  (bus_raises w Right BusConnect = false ->
   bus_raises w Left BusConnect = true ->
   r = (Raise (connect_failure Left (left_bus d)),
        log (Bus Left BusConnect)
            (set_bus Right (mkBus (motors (right_bus d)) true (bus_calibration (right_bus d)))
                     (log (Bus Right BusConnect) d)))).
Proof.
  intros Hg r. subst r.
  rewrite bind_run, bus_connect_run.
  destruct (bus_raises w Right BusConnect) eqn:ER.
  - simpl. split; [exists []; reflexivity|].
    split; [intros _; reflexivity|]. split; intros; discriminate.
  - rewrite bind_run, bus_connect_run.
    destruct (bus_raises w Left BusConnect) eqn:EL.
    + simpl.
      split; [eexists; rewrite <- app_assoc; reflexivity|].
      split; [intros; discriminate|].
      split; [intros _; exists []; rewrite <- app_assoc; reflexivity|].
      intros _ _. reflexivity.
    + match goal with |- context [rest ?x] => set (d2 := x) end.
      assert (T2 : trace d2 = (trace d ++ [Bus Right BusConnect; Bus Left BusConnect])%list).
      { unfold d2. simpl. rewrite <- app_assoc. reflexivity. }
      destruct (Hg d2) as [es [E _]].
      split; [eexists; rewrite E, T2, <- app_assoc; reflexivity|].
      split; [intros; discriminate|].
      split; [intros _; eexists; rewrite E, T2, <- app_assoc; reflexivity|].
      intros _ Habs. discriminate.
Qed.

Lemma follower_connect_rest (w : World) (c : bool) :
  let rest : M _ unit :=
    (d <- get ;;
     (if negb (Follower.is_calibrated d) && c then Follower.calibrate w else ret tt) ;;
     d <- get ;;
     for_each (dict_keys (cameras d)) (cam_connect w) ;;
     Follower.configure w) in
  respects (grows any_event) rest.
Proof.
  cbv zeta.
  repeat first [ apply follower_calibrate_grows | apply follower_configure_grows
               | respects_step ].
Qed.

Lemma leader_connect_rest (w : World) (c : bool) :
  let rest : M _ unit :=
    (d <- get ;;
     (if negb (Leader.is_calibrated d) && c then Leader.calibrate w else ret tt) ;;
     Leader.configure w) in
  respects (grows any_event) rest.
Proof.
  cbv zeta.
  repeat first [ apply leader_calibrate_grows | apply leader_configure_grows
               | respects_step ].
Qed.

Lemma follower_connect_open (w : World) (c : bool) (d : Follower.t) :
  Follower.is_connected d = false ->
  let r := Follower.connect w c d in
  (exists more, trace (snd r) = (trace d ++ Bus Right BusConnect :: more)%list) /\
  (bus_raises w Right BusConnect = true ->
   r = (Raise (connect_failure Right (right_bus d)), log (Bus Right BusConnect) d)) /\
  (bus_raises w Right BusConnect = false ->
   exists more,
     trace (snd r) = (trace d ++ Bus Right BusConnect :: Bus Left BusConnect :: more)%list) /\
  (bus_raises w Right BusConnect = false ->
   bus_raises w Left BusConnect = true ->
   r = (Raise (connect_failure Left (left_bus d)),
        log (Bus Left BusConnect)
            (set_bus Right (mkBus (motors (right_bus d)) true (bus_calibration (right_bus d)))
                     (log (Bus Right BusConnect) d)))).
Proof.
  intros H r. subst r.
  pose proof (follower_connect_rest w c) as Hg.
  assert (E : exists rest : M _ unit,
             respects (grows any_event) rest /\
             Follower.connect w c d = (bus_connect w Right ;; bus_connect w Left ;; rest) d).
  { eexists. split; [exact Hg|].
    unfold Follower.connect. rewrite bind_run. unfold get at 1. cbv iota beta.
    rewrite H. reflexivity. }
  destruct E as (rest & Hg' & ->).
  apply connect_sequence; assumption.
Qed.

Lemma leader_connect_open (w : World) (c : bool) (d : Leader.t) :
  Leader.is_connected d = false ->
  let r := Leader.connect w c d in
  (exists more, trace (snd r) = (trace d ++ Bus Right BusConnect :: more)%list) /\
  (bus_raises w Right BusConnect = true ->
   r = (Raise (connect_failure Right (right_bus d)), log (Bus Right BusConnect) d)) /\
  (bus_raises w Right BusConnect = false ->
   exists more,
     trace (snd r) = (trace d ++ Bus Right BusConnect :: Bus Left BusConnect :: more)%list) /\
  (bus_raises w Right BusConnect = false ->
   bus_raises w Left BusConnect = true ->
   r = (Raise (connect_failure Left (left_bus d)),
        log (Bus Left BusConnect)
            (set_bus Right (mkBus (motors (right_bus d)) true (bus_calibration (right_bus d)))
                     (log (Bus Right BusConnect) d)))).
Proof.
  intros H r. subst r.
  pose proof (leader_connect_rest w c) as Hg.
  assert (E : exists rest : M _ unit,
             respects (grows any_event) rest /\
             Leader.connect w c d = (bus_connect w Right ;; bus_connect w Left ;; rest) d).
  { eexists. split; [exact Hg|].
    unfold Leader.connect. rewrite bind_run. unfold get at 1. cbv iota beta.
    rewrite H. reflexivity. }
  destruct E as (rest & Hg' & ->).
  apply connect_sequence; assumption.
Qed.

(** C5.  For both coordinators: [connect] on a connected device raises
    [DeviceAlreadyConnectedError] and touches nothing; on a device that is not
    connected it asks the right bus to connect first and, when that succeeds,
    the left bus next; and when the left bus, not connected before, then
    fails, that failure is what [connect] raises, nothing was asked of the
    right bus after its connect (no rollback), the right bus is connected and
    the device reports [is_connected = false]. *)
Theorem C5_connect_guard_order_no_rollback
    (w : World) (c : bool) (f f' : Follower.t) (l l' : Leader.t) :
  Follower.is_connected f = true ->
  Leader.is_connected l = true ->
  Follower.is_connected f' = false ->
  Leader.is_connected l' = false ->
  bus_raises w Right BusConnect = false ->
  (Follower.connect w c f = (Raise DeviceAlreadyConnectedError, f) /\
   Leader.connect w c l = (Raise DeviceAlreadyConnectedError, l)) /\
  ((exists more, new_events f' (snd (Follower.connect w c f'))
                 = Bus Right BusConnect :: Bus Left BusConnect :: more) /\
   (exists more, new_events l' (snd (Leader.connect w c l'))
                 = Bus Right BusConnect :: Bus Left BusConnect :: more)) /\
  (bus_raises w Left BusConnect = true ->
   bus_is_connected (left_bus f') = false ->
   bus_is_connected (left_bus l') = false ->
   (fst (Follower.connect w c f') = Raise (BusTransportError Left BusConnect) /\
    new_events f' (snd (Follower.connect w c f'))
      = [Bus Right BusConnect; Bus Left BusConnect] /\
    bus_is_connected (right_bus (snd (Follower.connect w c f'))) = true /\
    Follower.is_connected (snd (Follower.connect w c f')) = false) /\
   (fst (Leader.connect w c l') = Raise (BusTransportError Left BusConnect) /\
    new_events l' (snd (Leader.connect w c l'))
      = [Bus Right BusConnect; Bus Left BusConnect] /\
    bus_is_connected (right_bus (snd (Leader.connect w c l'))) = true /\
    Leader.is_connected (snd (Leader.connect w c l')) = false)).
Proof.
  intros Hf Hl Hf' Hl' HR.
  destruct (follower_connect_open w c f' Hf') as (_ & _ & Fo & Ff).
  destruct (leader_connect_open w c l' Hl') as (_ & _ & Lo & Lf).
  unfold connect_failure in Ff, Lf.
  split; [split; [apply follower_connect_guard, Hf | apply leader_connect_guard, Hl]|].
  split.
  - destruct (Fo HR) as [mf Ef], (Lo HR) as [ml El].
    split; eexists; apply new_events_app; eassumption.
  - intros HL Hlf Hll. rewrite (Ff HR HL), (Lf HR HL), Hlf, Hll. simpl fst. simpl snd.
    split; (split; [reflexivity|]; split; [trace_done|]; split; [reflexivity|]).
    + unfold Follower.is_connected. simpl. rewrite Hlf. reflexivity.
    + unfold Leader.is_connected. simpl. rewrite Hll. reflexivity.
Qed.

Lemma C5_witness :
  (Follower.connect Scenario.left_unplugged false (Scenario.follower_connected None)
     = (Raise DeviceAlreadyConnectedError, Scenario.follower_connected None) /\
   Leader.connect Scenario.left_unplugged false Scenario.leader_connected
     = (Raise DeviceAlreadyConnectedError, Scenario.leader_connected)) /\
  (fst (Follower.connect Scenario.left_unplugged false (Scenario.follower_fresh None))
     = Raise (BusTransportError Left BusConnect) /\
   bus_is_connected
     (right_bus (snd (Follower.connect Scenario.left_unplugged false
                                       (Scenario.follower_fresh None)))) = true /\
   Follower.is_connected
     (snd (Follower.connect Scenario.left_unplugged false (Scenario.follower_fresh None)))
     = false).
Proof.
  destruct (C5_connect_guard_order_no_rollback
              Scenario.left_unplugged false
              (Scenario.follower_connected None) (Scenario.follower_fresh None)
              Scenario.leader_connected Scenario.leader_fresh)
    as (G & _ & F); try reflexivity.
  split; [exact G|].
  destruct F as ((F1 & _ & F3 & F4) & _); try reflexivity.
  repeat split; assumption.
Defined.




(** ** C6: the feature key sets *)

Lemma cameras_ft_items_ok (cfg : dict Follower.CameraConfig) (cams : list string) :
  (forall cam, In cam cams -> In cam (dict_keys cfg)) ->
  exists items, Follower.cameras_ft_items cfg cams = Ok items /\ map fst items = cams.
Proof.
  induction cams as [|cam cams IH]; intros H; simpl.
  - exists []. auto.
  - assert (Hc : dict_get cam cfg <> None).
    { apply dict_get_In_keys, H. left. reflexivity. }
    destruct (dict_get cam cfg) as [cc|]; [|congruence].
    destruct IH as [items [E K]]; [intros; apply H; right; assumption|].
    rewrite E. eexists. split; [reflexivity|]. simpl. rewrite K. reflexivity.
Qed.

Lemma make_cameras_keys (cs : dict Follower.CameraConfig) (cam : string) :
  In cam (dict_keys (Follower.make_cameras_from_configs cs)) <-> In cam (dict_keys cs).
Proof.
  unfold Follower.make_cameras_from_configs. rewrite In_keys_of_items.
  unfold dict_keys. rewrite map_map. simpl. tauto.
Qed.

Lemma follower_motor_keys (cfg : Follower.DualScorpionFollowerConfig)
    (loaded : dict MotorCalibration) :
  dict_keys (Follower._motors_ft (Follower.init cfg loaded)) = unified_keys.
Proof. reflexivity. Qed.

(** C6.  Whatever the configuration and the loaded calibration, the action
    features of the follower and of the leader, and the motor part of the
    follower's observation features, have exactly the sixteen keys
    [{right, left} x {joint0 .. joint6, gripper}] suffixed [.pos]; the
    observation features are those sixteen keys followed by the configured
    camera names that are not among them, each key once, the camera's key
    being its own unprefixed name. *)
Theorem C6_feature_keys
    (cfg : Follower.DualScorpionFollowerConfig) (loaded : dict MotorCalibration)
    (lcfg : Leader.DualScropionLeaderConfig) (lloaded : dict MotorCalibration) :
  dict_keys (Follower.action_features (Follower.init cfg loaded)) = unified_keys /\
  dict_keys (Leader.action_features (Leader.init lcfg lloaded)) = unified_keys /\
  dict_keys (Follower._motors_ft (Follower.init cfg loaded)) = unified_keys /\
  exists obs cams,
    Follower.observation_features (Follower.init cfg loaded) = Ok obs /\
    dict_keys obs = (unified_keys ++ cams)%list /\
    NoDup (dict_keys obs) /\
    (forall k, In k (dict_keys obs) <->
               In k unified_keys \/ In k (dict_keys (Follower.cfg_cameras cfg))) /\
    (forall cam, In cam (dict_keys (Follower.cfg_cameras cfg)) ->
                 count_occ string_dec (dict_keys obs) cam = 1%nat).
Proof.
  split; [reflexivity|]. split; [reflexivity|]. split; [reflexivity|].
  unfold Follower.observation_features, Follower._cameras_ft.
  destruct (cameras_ft_items_ok (Follower.cfg_cameras (config (Follower.init cfg loaded)))
              (dict_keys (cameras (Follower.init cfg loaded)))) as [items [E K]].
  { intros cam H. apply make_cameras_keys. exact H. }
  rewrite E.
  set (mft := dict_update [] (Follower._motors_ft (Follower.init cfg loaded))).
  assert (Hm : dict_keys mft = unified_keys) by reflexivity.
  destruct (keys_update_prefix mft (dict_of_items items)) as [cams Hc].
  assert (Hn : NoDup (dict_keys (dict_update mft (dict_of_items items)))).
  { apply NoDup_keys_update. unfold mft. apply NoDup_keys_update. constructor. }
  assert (Hk : forall k, In k (dict_keys (dict_update mft (dict_of_items items))) <->
                         In k unified_keys \/ In k (dict_keys (Follower.cfg_cameras cfg))).
  { intros k. rewrite In_keys_update, Hm.
    change (map fst (dict_of_items items)) with (dict_keys (dict_of_items items)).
    rewrite In_keys_of_items, K.
    change (cameras (Follower.init cfg loaded))
      with (Follower.make_cameras_from_configs (Follower.cfg_cameras cfg)).
    rewrite make_cameras_keys. tauto. }
  exists (dict_update mft (dict_of_items items)), cams.
  split; [reflexivity|]. split; [rewrite Hc, Hm; reflexivity|].
  split; [exact Hn|]. split; [exact Hk|].
  intros cam Hcam. apply NoDup_count_occ'; [exact Hn|]. apply Hk. right. exact Hcam.
Qed.

(** ** [send_action]: the key arithmetic *)

Lemma filter_filter_and {A} (p q : A -> bool) (l : list A) :
  filter q (filter p l) = filter (fun x => p x && q x) l.
Proof.
  induction l as [|x l IH]; simpl; [reflexivity|].
  destruct (p x); simpl; [destruct (q x)|]; rewrite ?IH; reflexivity.
Qed.

Lemma keys_filter {V} (p : string -> bool) (d : dict V) :
  dict_keys (filter (fun kv => p (fst kv)) d) = filter p (dict_keys d).
Proof. unfold dict_keys. symmetry. apply filter_map_swap. Qed.

(** The goal positions [send_action] extracts from a well-formed action map. *)
Lemma goal_pos_fresh (action : dict Z) :
  NoDup (dict_keys action) ->
  dict_comp (fun key => Str.endswith key ".pos")
            (fun key => Str.removesuffix key ".pos") action
  = map (fun kv => (Str.removesuffix (fst kv) ".pos", snd kv))
        (filter (fun kv => Str.endswith (fst kv) ".pos") action).
Proof.
  intros Hnd. unfold dict_comp. apply dict_of_items_fresh.
  rewrite map_map. simpl.
  rewrite <- (map_map fst (fun k => Str.removesuffix k ".pos")).
  apply NoDup_map_NoDup_ForallPairs.
  - intros x y Hx Hy E.
    change (map fst ?l) with (dict_keys l) in Hx, Hy.
    rewrite (keys_filter (fun k => Str.endswith k ".pos")) in Hx, Hy.
    apply filter_In in Hx, Hy. destruct Hx as [_ Hx], Hy as [_ Hy].
    rewrite <- (endswith_removesuffix x ".pos" Hx),
            <- (endswith_removesuffix y ".pos" Hy), E.
    reflexivity.
  - change (map fst ?l) with (dict_keys l).
    rewrite (keys_filter (fun k => Str.endswith k ".pos")).
    apply NoDup_filter, Hnd.
Qed.

(** Without clamping, what [send_action] returns is the request restricted to
    its position keys. *)
Lemma applied_is_request (action : dict Z) :
  NoDup (dict_keys action) ->
  dict_comp (fun _ => true) (fun motor => motor ++ ".pos")
            (dict_comp (fun key => Str.endswith key ".pos")
                       (fun key => Str.removesuffix key ".pos") action)
  = filter (fun kv => Str.endswith (fst kv) ".pos") action.
Proof.
  intros Hnd. rewrite (goal_pos_fresh action Hnd). unfold dict_comp.
  rewrite filter_true, map_map. simpl.
  assert (E : map (fun x : string * Z => (Str.removesuffix (fst x) ".pos" ++ ".pos", snd x))
                  (filter (fun kv => Str.endswith (fst kv) ".pos") action)
              = filter (fun kv => Str.endswith (fst kv) ".pos") action).
  { rewrite <- (map_id (filter _ action)) at 2. apply map_ext_in.
    intros [k v] Hin. apply filter_In in Hin. destruct Hin as [_ Hk]. simpl in *.
    rewrite (endswith_removesuffix k ".pos" Hk). reflexivity. }
  rewrite E. apply dict_of_items_fresh.
  change (map fst ?l) with (dict_keys l).
  rewrite (keys_filter (fun k => Str.endswith k ".pos")).
  apply NoDup_filter, Hnd.
Qed.

(** Dropping the stray keys from the request drops from the goal positions
    exactly the keys without a side prefix. *)
Lemma goal_pos_without_stray (action : dict Z) :
  dict_comp (fun key => Str.endswith key ".pos")
            (fun key => Str.removesuffix key ".pos") (without_stray action)
  = filter (fun kv => has_side_prefix (fst kv))
           (dict_comp (fun key => Str.endswith key ".pos")
                      (fun key => Str.removesuffix key ".pos") action).
Proof.
  unfold dict_comp, without_stray.
  rewrite (filter_dict_of_items has_side_prefix).
  f_equal.
  rewrite (filter_map_swap (fun kv : string * Z => has_side_prefix (fst kv))).
  f_equal. rewrite !filter_filter_and. apply filter_ext.
  intros [k v]. unfold stray, has_side_prefix. simpl.
  destruct (Str.endswith k ".pos"); simpl; [|reflexivity].
  destruct (Str.startswith (Str.removesuffix k ".pos") "right_"),
           (Str.startswith (Str.removesuffix k ".pos") "left_"); reflexivity.
Qed.

Lemma side_filter_ignores_stray {V} (s : side) (d : dict V) :
  filter (fun kv => Str.startswith (fst kv) (side_prefix s))
         (filter (fun kv => has_side_prefix (fst kv)) d)
  = filter (fun kv => Str.startswith (fst kv) (side_prefix s)) d.
Proof.
  rewrite filter_filter_and. apply filter_ext. intros [k v]. simpl.
  unfold has_side_prefix.
  destruct s; simpl;
    destruct (Str.startswith k "right_"), (Str.startswith k "left_"); reflexivity.
Qed.

Lemma for_side_ignores_stray {V} (s : side) (d : dict V) :
  for_side s (filter (fun kv => has_side_prefix (fst kv)) d) = for_side s d.
Proof. unfold for_side, dict_comp. rewrite side_filter_ignores_stray. reflexivity. Qed.

(** [send_action] on a connected follower without a maximum relative target,
    when both bus writes go through. *)
Lemma send_action_unclamped (w : World) (d : Follower.t) (action : dict Z) :
  Follower.is_connected d = true ->
  Follower.max_relative_target (config d) = None ->
  (forall s values, bus_raises w s (SyncWrite "Goal_Position" values) = false) ->
  Follower.send_action w action d =
    (Ok (dict_comp (fun _ => true) (fun motor => motor ++ ".pos") (goal_pos_of action)),
     log (Bus Left (SyncWrite "Goal_Position" (for_side Left (goal_pos_of action))))
         (log (Bus Right (SyncWrite "Goal_Position" (for_side Right (goal_pos_of action)))) d)).
Proof.
  intros Hc Hmax Hw.
  unfold Follower.send_action. rewrite bind_run. unfold get at 1. cbv iota beta.
  rewrite Hc, Hmax. cbn [negb].
  rewrite bind_ret. cbv beta.
  unfold bus_sync_write. rewrite bind_run, call_run, Hw.
  rewrite bind_run, call_run, Hw. reflexivity.
Qed.

(** C10.  On a connected follower with no maximum relative target, given a
    well-formed action map and bus writes that go through, [send_action]
    returns an applied action holding, for every key of the request ending in
    [.pos], the requested value, the keys with neither side prefix included;
    and the two bus writes are exactly those of the request without these
    keys, which therefore reach no bus. *)
Theorem C10_unclamped_action_echoed (w : World) (d : Follower.t) (action : dict Z) :
  Follower.is_connected d = true ->
  Follower.max_relative_target (config d) = None ->
  NoDup (dict_keys action) ->
  (forall s values, bus_raises w s (SyncWrite "Goal_Position" values) = false) ->
  exists applied,
    fst (Follower.send_action w action d) = Ok applied /\
    (forall k v, Str.endswith k ".pos" = true ->
                 dict_get k action = Some v -> dict_get k applied = Some v) /\
    new_events d (snd (Follower.send_action w action d)) =
      [ Bus Right (SyncWrite "Goal_Position"
                             (for_side Right (goal_pos_of (without_stray action))));
        Bus Left (SyncWrite "Goal_Position"
                            (for_side Left (goal_pos_of (without_stray action)))) ].
Proof.
  intros Hc Hmax Hnd Hw.
  rewrite (send_action_unclamped w d action Hc Hmax Hw).
  eexists. split; [reflexivity|]. split.
  - intros k v Hk Hget. unfold goal_pos_of.
    rewrite (applied_is_request action Hnd).
    rewrite (dict_get_filter (fun k => Str.endswith k ".pos") k action Hk). exact Hget.
  - unfold goal_pos_of. rewrite goal_pos_without_stray, !for_side_ignores_stray.
    trace_done.
Qed.

Lemma C10_witness :
  exists applied,
    fst (Follower.send_action Scenario.calm
           [("right_joint0.pos", 50%Z); ("elbow.pos", 3%Z); ("note", 1%Z)]
           (Scenario.follower_connected None)) = Ok applied /\
    dict_get "right_joint0.pos" applied = Some 50%Z /\
    dict_get "elbow.pos" applied = Some 3%Z.
Proof.
  destruct (C10_unclamped_action_echoed Scenario.calm (Scenario.follower_connected None)
              [("right_joint0.pos", 50%Z); ("elbow.pos", 3%Z); ("note", 1%Z)])
    as (applied & E & H & _).
  - reflexivity.
  - reflexivity.
  - repeat constructor; simpl; intuition discriminate.
  - reflexivity.
  - exists applied. split; [exact E|].
    split; apply H; reflexivity.
Defined.

(** ** C3: position keys with neither side prefix *)

Lemma same_effect_ret {C A} (a b : A) : same_effect (C:=C) (ret a) (ret b).
Proof. intros d. split; [reflexivity|]. intros e. split; discriminate. Qed.

Lemma same_effect_bind {C A B} (m : M C A) (k1 k2 : A -> M C B) :
  (forall a, same_effect (k1 a) (k2 a)) -> same_effect (bind m k1) (bind m k2).
Proof.
  intros H d. unfold bind. destruct (m d) as [[a|e'] d'].
  - apply H.
  - split; [reflexivity | tauto].
Qed.

(** The claim fails on the code: on a connected follower without clamping, the
    request [{elbow.pos: 3}] is answered normally, with [elbow.pos] echoed back
    and both buses written an empty goal map; no error is reported. *)
Lemma C3_counterexample :
  Follower.send_action Scenario.calm [("elbow.pos", 3%Z)] (Scenario.follower_connected None)
  = (Ok [("elbow.pos", 3%Z)],
     log (Bus Left (SyncWrite "Goal_Position" []))
         (log (Bus Right (SyncWrite "Goal_Position" []))
              (Scenario.follower_connected None))).
Proof. vm_compute. reflexivity. Qed.

(** C3, as the code has it.  A position key with neither side prefix is not
    reported: [send_action] leaves the device, and with it the trace of bus
    calls and their arguments, exactly as the same request without such keys
    would, and raises an error exactly when that request would, and the same
    one. *)
Theorem C3_stray_keys_silently_dropped (w : World) (d : Follower.t) (action : dict Z) :
  snd (Follower.send_action w action d)
    = snd (Follower.send_action w (without_stray action) d) /\
  (forall e, fst (Follower.send_action w action d) = Raise e <->
             fst (Follower.send_action w (without_stray action) d) = Raise e).
Proof.
  unfold Follower.send_action. rewrite !(bind_run get). unfold get. cbv iota beta.
  destruct (Follower.is_connected d); cbn [negb]; [|split; [reflexivity | tauto]].
  rewrite goal_pos_without_stray.
  destruct (Follower.max_relative_target (config d)) as [max_target|].
  - unfold Follower.goal_present_items. rewrite !side_filter_ignores_stray.
    split; [reflexivity | tauto].
  - rewrite !bind_ret. cbv beta.
    rewrite !for_side_ignores_stray.
    apply same_effect_bind. intros _.
    apply same_effect_bind. intros _.
    apply same_effect_ret.
Qed.

(** ** C8: [configure] *)

Lemma log_all_app {C} (es1 es2 : list event) (d : Device C) :
  log_all (es1 ++ es2) d = log_all es2 (log_all es1 d).
Proof. unfold log_all. apply fold_left_app. Qed.

Lemma trace_log_all {C} (es : list event) (d : Device C) :
  trace (log_all es d) = (trace d ++ es)%list.
Proof.
  revert d. induction es as [|e es IH]; intros d; simpl.
  - symmetry. apply app_nil_r.
  - rewrite IH. simpl. rewrite <- app_assoc. reflexivity.
Qed.

Lemma bus_log_all {C} (s : side) (es : list event) (d : Device C) :
  bus s (log_all es d) = bus s d.
Proof.
  revert d. induction es as [|e es IH]; intros d; simpl; [reflexivity|].
  rewrite IH. destruct s; reflexivity.
Qed.

Section RunsOk.
Context {C : Type}.
Variable w : World.
Hypothesis bus_quiet : forall s c, bus_raises w s c = false.

Lemma call_ok (s : side) (c : bus_call) (d : Device C) :
  runs_ok (call w s c) d [Bus s c].
Proof. unfold runs_ok. rewrite call_run, bus_quiet. reflexivity. Qed.

Lemma ret_ok (d : Device C) : runs_ok (ret tt) d [].
Proof. reflexivity. Qed.

Lemma bind_ok (m : M C unit) (k : unit -> M C unit) (d : Device C) (es1 es2 : list event) :
  runs_ok m d es1 -> runs_ok (k tt) (log_all es1 d) es2 ->
  runs_ok (bind m k) d (es1 ++ es2).
Proof.
  unfold runs_ok. intros H1 H2. rewrite bind_run, H1, H2, log_all_app. reflexivity.
Qed.

Lemma get_ok (k : Device C -> M C unit) (d : Device C) (es : list event) :
  runs_ok (k d) d es -> runs_ok (bind get k) d es.
Proof. unfold runs_ok. intros H. rewrite bind_run. exact H. Qed.

Lemma for_each_ok {X} (xs : list X) (body : X -> M C unit) (f : X -> list event)
    (d : Device C) :
  (forall x d', runs_ok (body x) d' (f x)) ->
  runs_ok (for_each xs body) d (flat_map f xs).
Proof.
  intros H. revert d. induction xs as [|x xs IH]; intros d; simpl.
  - apply ret_ok.
  - apply bind_ok; [apply H | apply IH].
Qed.

Lemma try_finally_ok (body cleanup : M C unit) (d : Device C) (es1 es2 : list event) :
  runs_ok body d es1 -> runs_ok cleanup (log_all es1 d) es2 ->
  runs_ok (try_finally body cleanup) d (es1 ++ es2).
Proof.
  unfold runs_ok, try_finally. intros H1 H2. rewrite H1, H2, log_all_app. reflexivity.
Qed.

Lemma runs_ok_events (m : M C unit) (d : Device C) (es : list event) :
  runs_ok m d es -> fst (m d) = Ok tt /\ new_events d (snd (m d)) = es.
Proof.
  unfold runs_ok. intros ->. split; [reflexivity|].
  apply new_events_app, trace_log_all.
Qed.

End RunsOk.

Ltac runs_ok_step :=
  lazymatch goal with
  | |- runs_ok (bind get _) _ _ => apply get_ok; cbv beta
  | |- runs_ok (bind _ _) _ _ => eapply bind_ok
  | |- runs_ok (call _ _ _) _ _ => apply call_ok; assumption
  | |- runs_ok (try_finally _ _) _ _ => eapply try_finally_ok
  | |- runs_ok (for_each _ _) _ _ => eapply for_each_ok; intros ? ?; cbv beta
  | |- runs_ok (ret tt) _ _ => apply ret_ok
  end.

Lemma follower_configure_ok (w : World) (d : Follower.t) :
  (forall s c, bus_raises w s c = false) ->
  runs_ok (Follower.configure w) d
    ([Bus Right DisableTorque; Bus Left DisableTorque;
      Bus Right ConfigureMotors; Bus Left ConfigureMotors]
     ++ flat_map (follower_motor_writes Right) (dict_keys (motors (right_bus d)))
     ++ flat_map (follower_motor_writes Left) (dict_keys (motors (left_bus d)))
     ++ [Bus Left EnableTorque; Bus Right EnableTorque]).
Proof.
  intros Hq.
  assert (H : exists es,
             runs_ok (Follower.configure w) d es /\
             es = ([Bus Right DisableTorque; Bus Left DisableTorque;
                    Bus Right ConfigureMotors; Bus Left ConfigureMotors]
                   ++ flat_map (follower_motor_writes Right) (dict_keys (motors (right_bus d)))
                   ++ flat_map (follower_motor_writes Left) (dict_keys (motors (left_bus d)))
                   ++ [Bus Left EnableTorque; Bus Right EnableTorque])%list).
  { eexists. split.
    - unfold Follower.configure, Follower.configure_arm. unfold_bus_calls.
      repeat runs_ok_step.
    - rewrite !bus_log_all. simpl. rewrite <- ?app_assoc. simpl.
      unfold follower_motor_writes. reflexivity. }
  destruct H as (es & H & ->). exact H.
Qed.

Lemma leader_configure_ok (w : World) (d : Leader.t) :
  (forall s c, bus_raises w s c = false) ->
  runs_ok (Leader.configure w) d
    ([Bus Right DisableTorque; Bus Left DisableTorque;
      Bus Right ConfigureMotors; Bus Left ConfigureMotors]
     ++ flat_map (leader_motor_writes Right) (dict_keys (motors (right_bus d)))
     ++ flat_map (leader_motor_writes Left) (dict_keys (motors (left_bus d)))).
Proof.
  intros Hq.
  assert (H : exists es,
             runs_ok (Leader.configure w) d es /\
             es = ([Bus Right DisableTorque; Bus Left DisableTorque;
                    Bus Right ConfigureMotors; Bus Left ConfigureMotors]
                   ++ flat_map (leader_motor_writes Right) (dict_keys (motors (right_bus d)))
                   ++ flat_map (leader_motor_writes Left) (dict_keys (motors (left_bus d))))%list).
  { eexists. split.
    - unfold Leader.configure, Leader.set_operating_mode. unfold_bus_calls.
      repeat runs_ok_step.
    - rewrite !bus_log_all. simpl. rewrite <- ?app_assoc. simpl.
      unfold leader_motor_writes. rewrite ?app_nil_r. reflexivity. }
  destruct H as (es & H & ->). exact H.
Qed.

Lemma in_follower_configure_events (s : side) (mr ml : list string) (e : event) (motor : string) :
  In motor (match s with Right => mr | Left => ml end) ->
  In e (follower_motor_writes s motor) ->
  In e ([Bus Right DisableTorque; Bus Left DisableTorque;
         Bus Right ConfigureMotors; Bus Left ConfigureMotors]
        ++ flat_map (follower_motor_writes Right) mr
        ++ flat_map (follower_motor_writes Left) ml
        ++ [Bus Left EnableTorque; Bus Right EnableTorque])%list.
Proof.
  intros Hm He. rewrite !in_app_iff, !in_flat_map. right.
  destruct s; [left | right; left]; exists motor; auto.
Qed.

Lemma in_leader_configure_events (s : side) (mr ml : list string) (e : event) (motor : string) :
  In motor (match s with Right => mr | Left => ml end) ->
  In e (leader_motor_writes s motor) ->
  In e ([Bus Right DisableTorque; Bus Left DisableTorque;
         Bus Right ConfigureMotors; Bus Left ConfigureMotors]
        ++ flat_map (leader_motor_writes Right) mr
        ++ flat_map (leader_motor_writes Left) ml)%list.
Proof.
  intros Hm He. rewrite !in_app_iff, !in_flat_map. right.
  destruct s; [left | right]; exists motor; auto.
Qed.

(** The claim fails on the code: in a world where every call succeeds, the
    follower's [configure] makes no write that raises D above the factory
    value, and the leader's [configure] writes no PID gain at all. *)
Lemma C8_counterexample :
  (fst (Follower.configure Scenario.calm (Scenario.follower_connected None)) = Ok tt /\
   existsb raises_D
     (new_events (Scenario.follower_connected None)
        (snd (Follower.configure Scenario.calm (Scenario.follower_connected None)))) = false) /\
  (fst (Leader.configure Scenario.calm Scenario.leader_connected) = Ok tt /\
   existsb is_pid_write
     (new_events Scenario.leader_connected
        (snd (Leader.configure Scenario.calm Scenario.leader_connected))) = false).
Proof. vm_compute. repeat split. Qed.

(** C8, as the code has it.  When the bus calls succeed, [configure] sets the
    operating mode of every motor of both buses to POSITION in both
    coordinators.  The follower also writes to every motor P_Coefficient 16,
    below the factory 32, and I_Coefficient 0 and D_Coefficient 32, the
    factory values: no write raises D.  The leader writes no PID gain. *)
Theorem C8_configure_defaults (w : World) (f : Follower.t) (l : Leader.t) :
  (forall s c, bus_raises w s c = false) ->
  (fst (Follower.configure w f) = Ok tt /\
   (forall s motor, In motor (dict_keys (motors (bus s f))) ->
      In (Bus s (Write "Operating_Mode" motor (VMode POSITION)))
         (new_events f (snd (Follower.configure w f))) /\
      In (Bus s (Write "P_Coefficient" motor (VInt 16)))
         (new_events f (snd (Follower.configure w f))) /\
      In (Bus s (Write "I_Coefficient" motor (VInt 0)))
         (new_events f (snd (Follower.configure w f))) /\
      In (Bus s (Write "D_Coefficient" motor (VInt 32)))
         (new_events f (snd (Follower.configure w f)))) /\
   (16 < factory_P /\ 0 = factory_I /\ 32 = factory_D)%Z /\
   (forall e, In e (new_events f (snd (Follower.configure w f))) -> raises_D e = false)) /\
  (fst (Leader.configure w l) = Ok tt /\
   (forall s motor, In motor (dict_keys (motors (bus s l))) ->
      In (Bus s (Write "Operating_Mode" motor (VMode POSITION)))
         (new_events l (snd (Leader.configure w l)))) /\
   (forall e, In e (new_events l (snd (Leader.configure w l))) -> is_pid_write e = false)).
Proof.
  intros Hq.
  destruct (runs_ok_events _ _ _ (follower_configure_ok w f Hq)) as [Ff Fe].
  destruct (runs_ok_events _ _ _ (leader_configure_ok w l Hq)) as [Lf Le].
  rewrite Fe, Le. split; (split; [assumption|]).
  - split; [|split; [repeat split; reflexivity|]].
    + intros s motor Hm.
      repeat split;
        (apply (in_follower_configure_events s _ _ _ motor);
         [destruct s; exact Hm | simpl; tauto]).
    + intros e. rewrite !in_app_iff, !in_flat_map.
      intros [H|[[m [_ H]]|[[m [_ H]]|H]]]; simpl in H;
        repeat (destruct H as [<-|H]; [reflexivity|]); contradiction.
  - split.
    + intros s motor Hm.
      apply (in_leader_configure_events s _ _ _ motor);
        [destruct s; exact Hm | simpl; tauto].
    + intros e. rewrite !in_app_iff, !in_flat_map.
      intros [H|[[m [_ H]]|[m [_ H]]]]; simpl in H;
        repeat (destruct H as [<-|H]; [reflexivity|]); contradiction.
Qed.

Lemma C8_witness :
  In (Bus Left (Write "D_Coefficient" "gripper" (VInt 32)))
     (new_events (Scenario.follower_connected None)
        (snd (Follower.configure Scenario.calm (Scenario.follower_connected None)))) /\
  In (Bus Right (Write "Operating_Mode" "joint0" (VMode POSITION)))
     (new_events Scenario.leader_connected
        (snd (Leader.configure Scenario.calm Scenario.leader_connected))).
Proof.
  destruct (C8_configure_defaults Scenario.calm (Scenario.follower_connected None)
              Scenario.leader_connected) as ((_ & F & _) & (_ & L & _)).
  - reflexivity.
  - split.
    + apply (F Left "gripper"). simpl. tauto.
    + apply (L Right "joint0"). simpl. tauto.
Defined.

(** ** C4: calibration *)

Lemma follower_calibrate_shared (w : World) :
  Follower.calibrate w = Shared.calibrate w.
Proof. reflexivity. Qed.

Lemma leader_calibrate_shared (w : World) :
  Leader.calibrate w = Shared.calibrate w.
Proof. reflexivity. Qed.

(** *** A run cut short on the left arm *)




Lemma input_run {C} (w : World) (s : side) (d : Device C) :
  input w s d = if operator_interrupts w s
                then (Raise KeyboardInterrupt, log (Input s) d)
                else (Ok tt, log (Input s) d).
Proof. unfold input, bind, modify. simpl. destruct (operator_interrupts w s); reflexivity. Qed.







(** *** A complete run *)

Lemma steps_bind {C} (m : M C unit) (k : unit -> M C unit) (d d1 d2 : Device C) :
  steps m d d1 -> steps (k tt) d1 d2 -> steps (bind m k) d d2.
Proof. unfold steps. intros H1 H2. rewrite bind_run, H1. exact H2. Qed.

Lemma covers_get (reply : dict Z) (j : string) :
  covers reply = true -> In j joint_slots -> dict_get j reply = Some (reply_at reply j).
Proof.
  unfold covers, reply_at. intros H Hj.
  rewrite forallb_forall in H. specialize (H j Hj).
  destruct (dict_get j reply); [reflexivity | discriminate].
Qed.

Section CompleteRun.
Context {C : Type}.
Variable w : World.
Hypothesis Hquiet : quiet w.

Lemma call_steps (s : side) (c : bus_call) (d : Device C) :
  steps (call w s c) d (log (Bus s c) d).
Proof.
  unfold steps. rewrite call_run. destruct Hquiet as [Hb _]. rewrite Hb. reflexivity.
Qed.

Lemma set_operating_mode_steps (s : side) (d : Device C) :
  steps (Shared.set_operating_mode w s) d
        (log_all (flat_map (leader_motor_writes s) (dict_keys (motors (bus s d)))) d).
Proof.
  destruct Hquiet as [Hb _].
  unfold Shared.set_operating_mode. unfold_bus_calls.
  change (steps ?m ?d (log_all ?es ?d)) with (runs_ok m d es).
  apply get_ok. cbv beta.
  assert (E : forall motor,
             leader_motor_writes s motor
             = ([Bus s (Write "Operating_Mode" motor (VMode POSITION))] ++ [])%list)
    by reflexivity.
  rewrite (flat_map_ext _ _ E).
  apply for_each_ok. intros motor d'. apply call_ok, Hb.
Qed.

Lemma record_loop_steps (s : side) (h mn mx : dict Z) (ms : dict Motor) (d : Device C) :
  (forall j, In j (dict_keys ms) ->
             dict_get j h = Some (reply_at h j) /\
             dict_get j mn = Some (reply_at mn j) /\
             dict_get j mx = Some (reply_at mx j)) ->
  steps (for_each ms (Shared.record_motor s h mn mx)) d
        (set_calibration (dict_update (calibration d) (arm_records s h mn mx ms)) d).
Proof.
  revert d. induction ms as [|[j m] ms IH]; intros d H.
  - unfold steps. simpl. destruct d; reflexivity.
  - destruct (H j (or_introl eq_refl)) as (Eh & Emn & Emx).
    simpl for_each. eapply steps_bind.
    + unfold steps, Shared.record_motor, subscript. cbv zeta. simpl fst. simpl snd.
      rewrite bind_run, Eh. unfold ret at 1. cbv iota beta.
      rewrite bind_run, Emn. unfold ret at 1. cbv iota beta.
      rewrite bind_run, Emx. unfold ret at 1. cbv iota beta.
      reflexivity.
    + specialize (IH (set_calibration
                        (dict_set (side_prefix s ++ j)
                           (mkMotorCalibration (motor_id m) 0 (reply_at h j)
                              (reply_at mn j) (reply_at mx j)) (calibration d)) d)).
      unfold steps in *. rewrite IH; [reflexivity|].
      intros j' Hj'. apply H. right. exact Hj'.
Qed.

Lemma calibrate_arm_steps (s : side) (nm : MotorNormMode) (d : Device C) :
  motors (bus s d) = arm_motors nm ->
  covers (homing_reply w s) = true ->
  covers (range_mins_reply w s) = true ->
  covers (range_maxes_reply w s) = true ->
  steps (Shared.calibrate_arm w s) d
        (set_calibration
           (dict_update (calibration d)
              (arm_records s (homing_reply w s) (range_mins_reply w s)
                           (range_maxes_reply w s) (arm_motors nm)))
           (log_all [Input s; Bus s SetHalfTurnHomings; Bus s RecordRangesOfMotion] d)).
Proof.
  intros Hm Hh Hmn Hmx. destruct Hquiet as (Hb & _ & Ho & _).
  unfold steps, Shared.calibrate_arm.
  rewrite bind_run, input_run, Ho.
  unfold bus_set_half_turn_homings, bus_record_ranges_of_motion.
  rewrite bind_run, bind_run, call_run, Hb. unfold ret at 1. cbv iota beta.
  rewrite bind_run, bind_run, call_run, Hb. unfold ret at 1. cbv iota beta zeta.
  simpl fst. simpl snd.
  rewrite bind_run. unfold get at 1. cbv iota beta.
  match goal with |- for_each (motors (bus s ?x)) _ _ = _ =>
    replace (motors (bus s x)) with (arm_motors nm)
      by (rewrite <- Hm; destruct s; reflexivity)
  end.
  rewrite record_loop_steps; [reflexivity|].
  intros j Hj. change (dict_keys (arm_motors nm)) with joint_slots in Hj.
  repeat split; apply covers_get; assumption.
Qed.

End CompleteRun.

Lemma bus_set_calibration {C} (s : side) (c : dict MotorCalibration) (d : Device C) :
  bus s (set_calibration c d) = bus s d.
Proof. destruct s; reflexivity. Qed.

Lemma bus_log {C} (s : side) (e : event) (d : Device C) : bus s (log e d) = bus s d.
Proof. destruct s; reflexivity. Qed.

Lemma steps_get {C} (k : Device C -> M C unit) (d d' : Device C) :
  steps (k d) d d' -> steps (bind get k) d d'.
Proof. unfold steps. intros H. rewrite bind_run. exact H. Qed.

Lemma bus_write_calibration_steps {C} (w : World) (s : side)
    (c : dict MotorCalibration) (d : Device C) :
  quiet w ->
  steps (bus_write_calibration w s c) d
        (set_bus s (mkBus (motors (bus s d)) (bus_is_connected (bus s d)) c)
                 (log (Bus s (WriteCalibration c)) d)).
Proof.
  intros [Hb _]. unfold steps, bus_write_calibration.
  rewrite bind_run, call_run, Hb. unfold modify. rewrite !bus_log. reflexivity.
Qed.

Lemma save_calibration_steps {C} (w : World) (d : Device C) :
  quiet w -> steps (_save_calibration w) d (log (SaveCalibration (calibration d)) d).
Proof.
  intros (_ & _ & _ & Hs). unfold steps, _save_calibration.
  rewrite bind_run. unfold get at 1. cbv iota beta.
  rewrite bind_run. unfold modify at 1. cbv iota beta. rewrite Hs. reflexivity.
Qed.

(** A complete run, whatever the device held before: the record set it leaves
    in the device and on the buses is built from this run's replies alone. *)
Lemma calibrate_complete {C} (w : World) (d : Device C) (nmR nmL : MotorNormMode) :
  quiet w ->
  motors (bus Right d) = arm_motors nmR ->
  motors (bus Left d) = arm_motors nmL ->
  covers (homing_reply w Right) = true ->
  covers (range_mins_reply w Right) = true ->
  covers (range_maxes_reply w Right) = true ->
  covers (homing_reply w Left) = true ->
  covers (range_mins_reply w Left) = true ->
  covers (range_maxes_reply w Left) = true ->
  exists d',
    Shared.calibrate w d = (Ok tt, d') /\
    calibration d' = (fresh_records w Right (String.append "right_")
                      ++ fresh_records w Left (String.append "left_"))%list /\
    bus_calibration (bus Right d') = fresh_records w Right (fun j => j) /\
    bus_calibration (bus Left d') = fresh_records w Left (fun j => j).
Proof.
  intros Hq HmR HmL HhR HmnR HmxR HhL HmnL HmxL.
  assert (S : exists d', steps (Shared.calibrate w) d d' /\
                         calibration d' =
                           dict_update
                             (dict_update []
                                (arm_records Right (homing_reply w Right)
                                   (range_mins_reply w Right) (range_maxes_reply w Right)
                                   (arm_motors nmR)))
                             (arm_records Left (homing_reply w Left)
                                (range_mins_reply w Left) (range_maxes_reply w Left)
                                (arm_motors nmL)) /\
                         bus_calibration (bus Right d') = for_side Right (calibration d') /\
                         bus_calibration (bus Left d') = for_side Left (calibration d')).
  { eexists. split.
    - unfold Shared.calibrate. unfold_bus_calls.
      eapply steps_bind; [apply call_steps, Hq|].
      eapply steps_bind; [apply call_steps, Hq|].
      eapply steps_bind; [apply set_operating_mode_steps, Hq|].
      eapply steps_bind; [apply set_operating_mode_steps, Hq|].
      eapply steps_bind; [unfold steps, modify; reflexivity|].
      eapply steps_bind.
      { apply (calibrate_arm_steps w Hq Right nmR); try assumption.
        rewrite bus_set_calibration, !bus_log_all, !bus_log. exact HmR. }
      eapply steps_bind.
      { apply (calibrate_arm_steps w Hq Left nmL); try assumption.
        rewrite bus_set_calibration, bus_log_all, bus_set_calibration,
          !bus_log_all, !bus_log.
        exact HmL. }
      unfold Shared.write_and_save. apply steps_get. cbv beta zeta.
      eapply steps_bind; [apply bus_write_calibration_steps, Hq|].
      eapply steps_bind; [apply bus_write_calibration_steps, Hq|].
      apply save_calibration_steps, Hq.
    - split; [reflexivity|]. split; reflexivity. }
  destruct S as (d' & Hs & Hc & HR & HL).
  exists d'. split; [exact Hs|].
  rewrite HR, HL, Hc. repeat split; reflexivity.
Qed.





(** * Further properties of the two coordinators *)

(** ** More on strings and dictionaries *)

Lemma length_append (a b : string) :
  String.length (a ++ b) = (String.length a + String.length b)%nat.
Proof. induction a as [|c a IH]; simpl; [reflexivity | rewrite IH; reflexivity]. Qed.

Lemma strip_suffix_complete (suf p : string) :
  Str.strip_suffix suf (p ++ suf) = Some p.
Proof.
  induction p as [|c p IH]; rewrite strip_suffix_eq.
  - simpl. rewrite String.eqb_refl. reflexivity.
  - destruct (String.eqb (String c p ++ suf) suf) eqn:E.
    + apply String.eqb_eq in E. apply (f_equal String.length) in E.
      rewrite length_append in E. simpl in E. lia.
    + simpl. rewrite IH. reflexivity.
Qed.

Lemma endswith_append (p suf : string) : Str.endswith (p ++ suf) suf = true.
Proof. unfold Str.endswith. rewrite strip_suffix_complete. reflexivity. Qed.

Lemma removesuffix_append (p suf : string) : Str.removesuffix (p ++ suf) suf = p.
Proof. unfold Str.removesuffix. rewrite strip_suffix_complete. reflexivity. Qed.

Lemma append_inj_l (p a b : string) : p ++ a = p ++ b -> a = b.
Proof. induction p as [|c p IH]; simpl; intros H; [exact H | injection H as H; auto]. Qed.

Lemma append_inj_r (a b suf : string) : a ++ suf = b ++ suf -> a = b.
Proof.
  intros H. rewrite <- (removesuffix_append a suf), <- (removesuffix_append b suf), H.
  reflexivity.
Qed.

Lemma prefix_append (p m : string) : String.prefix p (p ++ m) = true.
Proof.
  induction p as [|c p IH]; simpl; [destruct m; reflexivity|].
  destruct (ascii_dec c c); [exact IH | congruence].
Qed.

Lemma replace_from_skip (old new a m : string) :
  Str.replace_from old new (String.length a) (a ++ m) = Str.replace_from old new 0 m.
Proof. induction a as [|c a IH]; simpl; [reflexivity | exact IH]. Qed.

(** Removing a side's prefix from a key that starts with it removes that
    occurrence, and then whatever occurrences the rest of the key has. *)
Lemma replace_side_prefix (s : side) (m : string) :
  Str.replace (side_prefix s ++ m) (side_prefix s) "" = Str.replace m (side_prefix s) "".
Proof.
  unfold Str.replace.
  assert (H : forall c p, Str.replace_from (String c p) "" 0 (String c p ++ m)
                          = Str.replace_from (String c p) "" 0 m).
  { intros c p.
    change (Str.replace_from (String c p) "" 0 (String c p ++ m))
      with (if String.prefix (String c p) (String c p ++ m)
            then "" ++ Str.replace_from (String c p) "" (String.length (String c p) - 1) (p ++ m)
            else String c (Str.replace_from (String c p) "" 0 (p ++ m))).
    rewrite prefix_append.
    replace (String.length (String c p) - 1)%nat with (String.length p) by (simpl; lia).
    apply replace_from_skip. }
  destruct s; apply H.
Qed.

Lemma startswith_own_prefix (s : side) (m : string) :
  Str.startswith (side_prefix s ++ m) (side_prefix s) = true.
Proof. apply prefix_append. Qed.

Lemma startswith_other_prefix (s s' : side) (m : string) :
  s <> s' -> Str.startswith (side_prefix s ++ m) (side_prefix s') = false.
Proof. destruct s, s'; intros H; try congruence; reflexivity. Qed.

Section MoreDictFacts.
Variable V : Type.
Implicit Types (d : dict V) (k : string) (v : V).

Lemma dict_get_set k k' v d :
  dict_get k (dict_set k' v d) = if String.eqb k k' then Some v else dict_get k d.
Proof.
  induction d as [|[k0 v0] d IH]; simpl.
  - destruct (String.eqb k k'); reflexivity.
  - destruct (String.eqb k' k0) eqn:E; simpl.
    + apply String.eqb_eq in E. subst k0.
      destruct (String.eqb k k'); reflexivity.
    + rewrite IH. destruct (String.eqb k k0) eqn:E0; [|reflexivity].
      apply String.eqb_eq in E0. subst k0.
      rewrite String.eqb_sym, E. reflexivity.
Qed.

Lemma dict_get_not_in k d : ~ In k (dict_keys d) -> dict_get k d = None.
Proof.
  intros H. destruct (dict_get k d) eqn:E; [|reflexivity].
  exfalso. apply H, dict_get_In_keys. congruence.
Qed.

(** Looking a key up after an update with well-formed items: the items win. *)
Lemma dict_get_update k d (items : list (string * V)) :
  NoDup (map fst items) ->
  dict_get k (dict_update d items) =
  match dict_get k items with Some v => Some v | None => dict_get k d end.
Proof.
  unfold dict_update. revert d.
  induction items as [|[k' v'] items IH]; intros d Hnd; simpl; [reflexivity|].
  inversion Hnd as [|? ? Hk Hnd']; subst.
  rewrite (IH _ Hnd'), dict_get_set.
  destruct (String.eqb k k') eqn:E; [|reflexivity].
  apply String.eqb_eq in E. subst k'.
  rewrite (dict_get_not_in k items Hk). reflexivity.
Qed.

Lemma dict_get_of_items k (items : list (string * V)) :
  NoDup (map fst items) -> dict_get k (dict_of_items items) = dict_get k items.
Proof.
  intros H. unfold dict_of_items. rewrite (dict_get_update k [] items H).
  destruct (dict_get k items); reflexivity.
Qed.

(** Renaming keys by an injective function commutes with lookup. *)
Lemma dict_get_rename (f : string -> string) k d :
  (forall a b, f a = f b -> a = b) ->
  dict_get (f k) (map (fun kv => (f (fst kv), snd kv)) d) = dict_get k d.
Proof.
  intros Hf. induction d as [|[k0 v0] d IH]; simpl; [reflexivity|].
  destruct (String.eqb k k0) eqn:E.
  - apply String.eqb_eq in E. subst. rewrite String.eqb_refl. reflexivity.
  - destruct (String.eqb (f k) (f k0)) eqn:E'; [|exact IH].
    apply String.eqb_eq, Hf in E'. subst. rewrite String.eqb_refl in E. discriminate.
Qed.

Lemma dict_get_rename_miss (f : string -> string) k d :
  (forall a, f a <> k) ->
  dict_get k (map (fun kv => (f (fst kv), snd kv)) d) = None.
Proof.
  intros Hf. induction d as [|[k0 v0] d IH]; simpl; [reflexivity|].
  destruct (String.eqb k (f k0)) eqn:E; [|exact IH].
  apply String.eqb_eq in E. exfalso. apply (Hf k0). congruence.
Qed.

Lemma NoDup_rename (f : string -> string) d :
  (forall a b, f a = f b -> a = b) ->
  NoDup (dict_keys d) ->
  NoDup (map fst (map (fun kv : string * V => (f (fst kv), snd kv)) d)).
Proof.
  intros Hf H. rewrite map_map. simpl. rewrite <- (map_map fst f).
  apply NoDup_map_NoDup_ForallPairs; [intros x y _ _; apply Hf | exact H].
Qed.

End MoreDictFacts.

(** The keys after an update depend only on the keys before and the keys of
    the items, not on the values. *)
Lemma keys_update_congr {V W} (d1 : dict V) (d2 : dict W)
    (i1 : list (string * V)) (i2 : list (string * W)) :
  dict_keys d1 = dict_keys d2 -> map fst i1 = map fst i2 ->
  dict_keys (dict_update d1 i1) = dict_keys (dict_update d2 i2).
Proof.
  unfold dict_update. revert d1 d2 i2.
  induction i1 as [|[k v] i1 IH]; intros d1 d2 [|[k' v'] i2] Hd Hi; simpl in *;
    try discriminate; [exact Hd|].
  injection Hi as -> Hi. apply IH; [|exact Hi].
  rewrite !dict_keys_set, Hd. reflexivity.
Qed.

(** ** Reading: [get_action] and [get_observation] *)

Lemma unified_key_inj (s : side) (a b : string) :
  side_prefix s ++ a ++ ".pos" = side_prefix s ++ b ++ ".pos" -> a = b.
Proof. intros H. apply append_inj_l in H. apply append_inj_r in H. exact H. Qed.

Lemma unified_key_sides (s s' : side) (a b : string) :
  s <> s' -> side_prefix s ++ a ++ ".pos" <> side_prefix s' ++ b ++ ".pos".
Proof. destruct s, s'; intros H; try congruence; simpl; discriminate. Qed.

Lemma keys_unified (s : side) (reading : dict Z) :
  dict_keys (unified s reading)
  = map (fun m => side_prefix s ++ m ++ ".pos") (dict_keys reading).
Proof. unfold unified, dict_keys. rewrite !map_map. reflexivity. Qed.

Lemma NoDup_unified (s : side) (reading : dict Z) :
  NoDup (dict_keys reading) -> NoDup (dict_keys (unified s reading)).
Proof.
  intros H. apply (NoDup_rename _ (fun m => side_prefix s ++ m ++ ".pos"));
    [apply unified_key_inj | exact H].
Qed.

(** A well-formed reading is renamed key by key. *)
Lemma side_positions_unified (s : side) (reading : dict Z) :
  NoDup (dict_keys reading) -> side_positions s reading = unified s reading.
Proof.
  intros H. unfold side_positions, dict_comp. rewrite filter_true.
  apply dict_of_items_fresh. apply (NoDup_unified s reading H).
Qed.

Lemma NoDup_both_unified (right_reading left_reading : dict Z) :
  NoDup (dict_keys right_reading) -> NoDup (dict_keys left_reading) ->
  NoDup (dict_keys (unified Right right_reading ++ unified Left left_reading)%list).
Proof.
  intros HR HL. unfold dict_keys. rewrite map_app. apply NoDup_app.
  - apply (NoDup_unified Right _ HR).
  - apply (NoDup_unified Left _ HL).
  - intros k Hr Hl.
    change (map fst ?l) with (dict_keys l) in Hr, Hl.
    rewrite keys_unified in Hr, Hl.
    apply in_map_iff in Hr, Hl. destruct Hr as (a & <- & _), Hl as (b & E & _).
    revert E. apply not_eq_sym, (unified_key_sides Right Left). discriminate.
Qed.

Lemma merged_unified (right_reading left_reading : dict Z) :
  NoDup (dict_keys right_reading) -> NoDup (dict_keys left_reading) ->
  dict_update (side_positions Right right_reading) (side_positions Left left_reading)
  = (unified Right right_reading ++ unified Left left_reading)%list.
Proof.
  intros HR HL. rewrite !side_positions_unified by assumption.
  apply dict_update_fresh, NoDup_both_unified; assumption.
Qed.

Lemma dict_get_app {V} (k : string) (a b : dict V) :
  dict_get k (a ++ b)%list
  = match dict_get k a with Some v => Some v | None => dict_get k b end.
Proof.
  induction a as [|[k0 v0] a IH]; simpl; [reflexivity|].
  destruct (String.eqb k k0); [reflexivity | exact IH].
Qed.

Lemma dict_get_merged (s : side) (m : string) (right_reading left_reading : dict Z) :
  dict_get (side_prefix s ++ m ++ ".pos")
           (unified Right right_reading ++ unified Left left_reading)%list
  = dict_get m (match s with Right => right_reading | Left => left_reading end).
Proof.
  rewrite dict_get_app. unfold unified. destruct s.
  - rewrite (dict_get_rename _ (fun m => side_prefix Right ++ m ++ ".pos") m right_reading
               (unified_key_inj Right)).
    destruct (dict_get m right_reading); [reflexivity|].
    apply (dict_get_rename_miss _ (fun m => side_prefix Left ++ m ++ ".pos")).
    intros a. apply (unified_key_sides Left Right). discriminate.
  - rewrite (dict_get_rename_miss _ (fun m => side_prefix Right ++ m ++ ".pos")
               (side_prefix Left ++ m ++ ".pos") right_reading).
    + apply (dict_get_rename _ (fun m => side_prefix Left ++ m ++ ".pos") m left_reading
               (unified_key_inj Left)).
    + intros a. apply (unified_key_sides Right Left). discriminate.
Qed.

Lemma bus_sync_read_run {C} (w : World) (s : side) (register : string) (d : Device C) :
  bus_sync_read w s register d =
  if bus_raises w s (SyncRead register)
  then (Raise (BusTransportError s (SyncRead register)), log (Bus s (SyncRead register)) d)
  else (Ok (sync_read_reply w s register), log (Bus s (SyncRead register)) d).
Proof.
  unfold bus_sync_read. rewrite bind_run, call_run.
  destruct (bus_raises w s (SyncRead register)); reflexivity.
Qed.

Lemma leader_get_action_run (w : World) (d : Leader.t) :
  bus_raises w Right (SyncRead "Present_Position") = false ->
  bus_raises w Left (SyncRead "Present_Position") = false ->
  Leader.get_action w d =
    (Ok (dict_update (side_positions Right (sync_read_reply w Right "Present_Position"))
                     (side_positions Left (sync_read_reply w Left "Present_Position"))),
     log (Bus Left (SyncRead "Present_Position"))
         (log (Bus Right (SyncRead "Present_Position")) d)).
Proof.
  intros HR HL. unfold Leader.get_action.
  rewrite bind_run, bus_sync_read_run, HR.
  rewrite bind_run, bus_sync_read_run, HL. reflexivity.
Qed.

(** X1.  When both reads go through and the replies are well-formed, the
    leader's [get_action] reads the right bus, then the left bus, and nothing
    else, and returns the right reply followed by the left reply, each motor
    [m] of side [s] under the key [{s}_{m}.pos]: looking a unified key up in
    the action is looking the motor up in that side's reply. *)
Theorem leader_get_action_merges (w : World) (d : Leader.t) :
  bus_raises w Right (SyncRead "Present_Position") = false ->
  bus_raises w Left (SyncRead "Present_Position") = false ->
  NoDup (dict_keys (sync_read_reply w Right "Present_Position")) ->
  NoDup (dict_keys (sync_read_reply w Left "Present_Position")) ->
  exists action,
    fst (Leader.get_action w d) = Ok action /\
    action = (unified Right (sync_read_reply w Right "Present_Position")
              ++ unified Left (sync_read_reply w Left "Present_Position"))%list /\
    (forall s m, dict_get (side_prefix s ++ m ++ ".pos") action
                 = dict_get m (sync_read_reply w s "Present_Position")) /\
    new_events d (snd (Leader.get_action w d))
      = [Bus Right (SyncRead "Present_Position"); Bus Left (SyncRead "Present_Position")].
Proof.
  intros HR HL NR NL. rewrite (leader_get_action_run w d HR HL).
  rewrite (merged_unified _ _ NR NL).
  eexists. split; [reflexivity|]. split; [reflexivity|]. split.
  - intros s m. rewrite dict_get_merged. destruct s; reflexivity.
  - trace_done.
Qed.

Lemma leader_get_action_merges_witness :
  exists action,
    fst (Leader.get_action Scenario.calm Scenario.leader_connected) = Ok action /\
    dict_get "left_gripper.pos" action = Some 0%Z.
Proof.
  destruct (leader_get_action_merges Scenario.calm Scenario.leader_connected)
    as (action & E & _ & H & _).
  - reflexivity.
  - reflexivity.
  - repeat constructor; simpl; intuition discriminate.
  - repeat constructor; simpl; intuition discriminate.
  - exists action. split; [exact E|]. apply (H Left "gripper").
Defined.

Lemma dict_get_tabulate {V} (g : string -> V) (k : string) (ks : list string) :
  dict_get k (map (fun x => (x, g x)) ks) = if in_dec string_dec k ks then Some (g k) else None.
Proof.
  induction ks as [|x ks IH]; simpl; [reflexivity|].
  destruct (String.eqb k x) eqn:E.
  - apply String.eqb_eq in E. subst x.
    destruct (string_dec k k); [reflexivity | congruence].
  - apply String.eqb_neq in E. rewrite IH.
    destruct (string_dec x k); [congruence|].
    destruct (in_dec string_dec k ks); reflexivity.
Qed.

Lemma dict_get_map_values {V W} (g : V -> W) (k : string) (d : dict V) :
  dict_get k (map (fun kv => (fst kv, g (snd kv))) d) = option_map g (dict_get k d).
Proof.
  induction d as [|[k0 v0] d IH]; simpl; [reflexivity|].
  destruct (String.eqb k k0); [reflexivity | exact IH].
Qed.

Lemma frames_run (w : World) (cams : list string) (d : Follower.t) :
  (forall cam, cam_raises w cam = false) ->
  map_m (fun cam_key => f <- cam_async_read w cam_key ;; ret (cam_key, Follower.Frame f))
        cams d
  = (Ok (map (fun cam => (cam, Follower.Frame (frame_reply w cam))) cams),
     log_all (map CamAsyncRead cams) d).
Proof.
  intros Hc. revert d. induction cams as [|cam cams IH]; intros d; [reflexivity|].
  simpl map_m. rewrite bind_run. unfold cam_async_read at 1.
  rewrite bind_run, bind_run. unfold modify at 1. cbv iota beta. rewrite Hc.
  unfold ret at 1 2. cbv iota beta.
  rewrite bind_run, IH. reflexivity.
Qed.

Lemma follower_get_observation_run (w : World) (d : Follower.t) :
  Follower.is_connected d = true ->
  bus_raises w Right (SyncRead "Present_Position") = false ->
  bus_raises w Left (SyncRead "Present_Position") = false ->
  (forall cam, cam_raises w cam = false) ->
  Follower.get_observation w d =
    (Ok (dict_update
           (map (fun kv => (fst kv, Follower.Position (snd kv)))
              (dict_update
                 (dict_update []
                    (side_positions Right (sync_read_reply w Right "Present_Position")))
                 (side_positions Left (sync_read_reply w Left "Present_Position"))))
           (map (fun cam => (cam, Follower.Frame (frame_reply w cam)))
                (dict_keys (cameras d)))),
     log_all (map CamAsyncRead (dict_keys (cameras d)))
       (log (Bus Left (SyncRead "Present_Position"))
            (log (Bus Right (SyncRead "Present_Position")) d))).
Proof.
  intros Hc HR HL Hcam. unfold Follower.get_observation.
  rewrite bind_run. unfold get at 1. cbv iota beta. rewrite Hc. cbn [negb].
  rewrite bind_run, bus_sync_read_run, HR.
  rewrite bind_run, bus_sync_read_run, HL.
  cbv zeta. rewrite bind_run. unfold get at 1. cbv iota beta.
  rewrite bind_run, (frames_run w _ _ Hcam). reflexivity.
Qed.

(** X2.  On a connected follower, when the reads go through and the replies
    and the camera table are well-formed, [get_observation] reads the right
    bus, the left bus and then each camera once, in that order; the
    observation holds every camera's frame under the camera's own name, and
    under each unified key [{s}_{m}.pos] that is not also a camera name the
    position the bus of side [s] reported for motor [m]. *)
Theorem follower_get_observation_merges (w : World) (d : Follower.t) :
  Follower.is_connected d = true ->
  bus_raises w Right (SyncRead "Present_Position") = false ->
  bus_raises w Left (SyncRead "Present_Position") = false ->
  (forall cam, cam_raises w cam = false) ->
  NoDup (dict_keys (sync_read_reply w Right "Present_Position")) ->
  NoDup (dict_keys (sync_read_reply w Left "Present_Position")) ->
  NoDup (dict_keys (cameras d)) ->
  exists obs,
    fst (Follower.get_observation w d) = Ok obs /\
    (forall cam, In cam (dict_keys (cameras d)) ->
       dict_get cam obs = Some (Follower.Frame (frame_reply w cam))) /\
    (forall s m, ~ In (side_prefix s ++ m ++ ".pos") (dict_keys (cameras d)) ->
       dict_get (side_prefix s ++ m ++ ".pos") obs
       = option_map Follower.Position
                    (dict_get m (sync_read_reply w s "Present_Position"))) /\
    new_events d (snd (Follower.get_observation w d))
      = ([Bus Right (SyncRead "Present_Position"); Bus Left (SyncRead "Present_Position")]
         ++ map CamAsyncRead (dict_keys (cameras d)))%list.
Proof.
  intros Hc HR HL Hcam NR NL NC.
  rewrite (follower_get_observation_run w d Hc HR HL Hcam).
  assert (Hframes : NoDup (map fst (map (fun cam => (cam, Follower.Frame (frame_reply w cam)))
                                        (dict_keys (cameras d))))).
  { rewrite map_map. simpl. rewrite map_id. exact NC. }
  eexists. split; [reflexivity|]. split; [|split].
  - intros cam Hin. rewrite (dict_get_update _ _ _ _ Hframes), dict_get_tabulate.
    destruct (in_dec string_dec cam (dict_keys (cameras d))); [reflexivity | contradiction].
  - intros s m Hnot. rewrite (dict_get_update _ _ _ _ Hframes), dict_get_tabulate.
    destruct (in_dec string_dec _ (dict_keys (cameras d))); [contradiction|].
    rewrite dict_get_map_values. f_equal.
    rewrite (side_positions_unified Right _ NR).
    rewrite (dict_update_fresh [] _ (NoDup_unified Right _ NR)). simpl app.
    rewrite <- (side_positions_unified Right _ NR).
    rewrite (merged_unified _ _ NR NL), dict_get_merged. destruct s; reflexivity.
  - apply new_events_app. simpl snd. rewrite trace_log_all. simpl.
    rewrite <- !app_assoc. reflexivity.
Qed.

Lemma follower_get_observation_merges_witness :
  exists obs,
    fst (Follower.get_observation Scenario.calm (Scenario.follower_connected None)) = Ok obs /\
    dict_get "front" obs = Some (Follower.Frame 0) /\
    dict_get "right_joint3.pos" obs = Some (Follower.Position 0).
Proof.
  destruct (follower_get_observation_merges Scenario.calm (Scenario.follower_connected None))
    as (obs & E & Hcam & Hpos & _).
  - reflexivity.
  - reflexivity.
  - reflexivity.
  - reflexivity.
  - repeat constructor; simpl; intuition discriminate.
  - repeat constructor; simpl; intuition discriminate.
  - repeat constructor; simpl; intuition discriminate.
  - exists obs. split; [exact E|]. split.
    + apply Hcam. simpl. tauto.
    + apply (Hpos Right "joint3"). simpl. intuition discriminate.
Defined.

Lemma dict_update_nil_id {V} (d : dict V) :
  NoDup (dict_keys d) -> dict_update [] d = d.
Proof. intros H. apply (dict_update_fresh [] d H). Qed.

Lemma keys_map_values {V W} (g : V -> W) (d : dict V) :
  dict_keys (map (fun kv => (fst kv, g (snd kv))) d) = dict_keys d.
Proof. unfold dict_keys. rewrite map_map. reflexivity. Qed.

(** The keys of the merged readings are those of the motor features as soon
    as each reply is keyed like its bus's motor table. *)
Lemma merged_keys_are_motor_keys (rb lb : MotorsBus) (right_reading left_reading : dict Z) :
  dict_keys right_reading = dict_keys (motors rb) ->
  dict_keys left_reading = dict_keys (motors lb) ->
  dict_keys (dict_update (dict_update [] (side_positions Right right_reading))
                         (side_positions Left left_reading))
  = dict_keys (dict_update (dict_update [] (dict_of_items (side_motors_ft Right rb)))
                           (dict_of_items (side_motors_ft Left lb))).
Proof.
  intros HR HL.
  assert (K : forall s (reading : dict Z) (b : MotorsBus),
             dict_keys reading = dict_keys (motors b) ->
             dict_keys (side_positions s reading)
             = dict_keys (dict_of_items (side_motors_ft s b))).
  { intros s reading b H. unfold side_positions, dict_comp, dict_of_items, side_motors_ft.
    apply keys_update_congr; [reflexivity|].
    rewrite filter_true, !map_map. simpl.
    rewrite <- (map_map fst (fun m => side_prefix s ++ m ++ ".pos")).
    change (map fst reading) with (dict_keys reading). rewrite H. reflexivity. }
  apply keys_update_congr.
  - apply keys_update_congr; [reflexivity | apply K, HR].
  - apply K, HL.
Qed.

(** X3.  What is read has the declared schema.  When every call goes through,
    each bus keys its reply like its motor table and the camera table is
    well-formed and configured, the keys of the follower's observation are, in
    order, the keys of [observation_features], and the keys of the leader's
    action are the keys of [action_features]. *)
Theorem reads_match_features (w : World) (f : Follower.t) (l : Leader.t) :
  Follower.is_connected f = true ->
  bus_raises w Right (SyncRead "Present_Position") = false ->
  bus_raises w Left (SyncRead "Present_Position") = false ->
  (forall cam, cam_raises w cam = false) ->
  NoDup (dict_keys (cameras f)) ->
  (forall cam, In cam (dict_keys (cameras f)) ->
               In cam (dict_keys (Follower.cfg_cameras (config f)))) ->
  (forall s, dict_keys (sync_read_reply w s "Present_Position") = dict_keys (motors (bus s f))) ->
  (forall s, dict_keys (sync_read_reply w s "Present_Position") = dict_keys (motors (bus s l))) ->
  (exists obs ft,
     fst (Follower.get_observation w f) = Ok obs /\
     Follower.observation_features f = Ok ft /\
     dict_keys obs = dict_keys ft) /\
  (exists action,
     fst (Leader.get_action w l) = Ok action /\
     dict_keys action = dict_keys (Leader.action_features l)).
Proof.
  intros Hc HR HL Hcam NC Hcfg Kf Kl. split.
  - rewrite (follower_get_observation_run w f Hc HR HL Hcam).
    unfold Follower.observation_features, Follower._cameras_ft.
    destruct (cameras_ft_items_ok _ _ Hcfg) as [items [E K]]. rewrite E.
    eexists. eexists. split; [reflexivity|]. split; [reflexivity|].
    apply keys_update_congr.
    + rewrite keys_map_values.
      rewrite (dict_update_nil_id (Follower._motors_ft f))
        by (unfold Follower._motors_ft; apply NoDup_keys_update, NoDup_keys_update; constructor).
      apply (merged_keys_are_motor_keys (right_bus f) (left_bus f));
        [apply (Kf Right) | apply (Kf Left)].
    + rewrite map_map. simpl. rewrite map_id.
      rewrite dict_of_items_fresh by (rewrite K; exact NC). symmetry. exact K.
  - rewrite (leader_get_action_run w l HR HL).
    eexists. split; [reflexivity|].
    unfold Leader.action_features. cbv zeta.
    rewrite <- (merged_keys_are_motor_keys (right_bus l) (left_bus l) _ _ (Kl Right) (Kl Left)).
    apply keys_update_congr; [|reflexivity].
    symmetry. f_equal. apply dict_update_nil_id.
    unfold side_positions, dict_comp. apply NoDup_keys_of_items.
Qed.

Lemma reads_match_features_witness :
  (exists obs ft,
     fst (Follower.get_observation Scenario.calm (Scenario.follower_connected None)) = Ok obs /\
     Follower.observation_features (Scenario.follower_connected None) = Ok ft /\
     dict_keys obs = dict_keys ft) /\
  (exists action,
     fst (Leader.get_action Scenario.calm Scenario.leader_connected) = Ok action /\
     dict_keys action = dict_keys (Leader.action_features Scenario.leader_connected)).
Proof.
  apply (reads_match_features Scenario.calm (Scenario.follower_connected None)
           Scenario.leader_connected); try reflexivity.
  - repeat constructor; simpl; intuition discriminate.
  - simpl. tauto.
  - intros s; destruct s; reflexivity.
  - intros s; destruct s; reflexivity.
Defined.

(** ** Writing: [send_action] *)

Lemma new_events_same {C} (d : Device C) : new_events d d = [].
Proof. apply new_events_app. symmetry. apply app_nil_r. Qed.

Ltac events_of st d :=
  lazymatch st with
  | d => constr:(@nil event)
  | log ?e ?st' => let es := events_of st' d in constr:((es ++ [e])%list)
  end.

(** Closes the facts about one finished run of the clamped [send_action]:
    its events, read off the final device, hold no non-empty goal write, and
    a returned action is empty. *)
Ltac run_moves_nothing :=
  unfold raise, ret;
  lazymatch goal with
  | |- exists evs out, (?o, ?st) = (out, log_all evs ?d) /\ _ =>
      let es := events_of st d in
      exists es, o; split; [reflexivity|]; split; [reflexivity|];
      intros applied H; first [discriminate H | injection H as <-; reflexivity]
  end.

(** With replies keyed by local names, building the (goal, present) pairs of
    one side either finds no key of that side or fails on the first one. *)
Lemma goal_present_items_cases (s : side) (present_pos goal_pos : dict Z)
    (d : Follower.t) :
  local_names s present_pos = true ->
  (exists k, Follower.goal_present_items s present_pos goal_pos d = (Raise (KeyError k), d))
  \/ Follower.goal_present_items s present_pos goal_pos d = (Ok [], d).
Proof.
  intros Hloc. unfold Follower.goal_present_items.
  destruct (filter (fun kg : string * Z => Str.startswith (fst kg) (side_prefix s)) goal_pos)
    as [|[k g] rest] eqn:F.
  - right. reflexivity.
  - left. exists k.
    assert (Hk : Str.startswith k (side_prefix s) = true).
    { assert (Hin : In (k, g) ((k, g) :: rest)) by (left; reflexivity).
      rewrite <- F in Hin. apply filter_In in Hin. apply Hin. }
    assert (Hget : dict_get k present_pos = None).
    { apply dict_get_not_in. intros Hin.
      unfold local_names in Hloc. rewrite forallb_forall in Hloc.
      specialize (Hloc k Hin). rewrite Hk in Hloc. discriminate. }
    simpl map_m. rewrite bind_run, bind_run. unfold subscript. simpl fst.
    rewrite Hget. reflexivity.
Qed.

Lemma clamped_send_action_run
    (w : World) (d : Follower.t) (action : dict Z) (max_target : Z) :
  Follower.max_relative_target (config d) = Some max_target ->
  local_names Right (sync_read_reply w Right "Present_Position") = true ->
  local_names Left (sync_read_reply w Left "Present_Position") = true ->
  exists evs out,
    Follower.send_action w action d = (out, log_all evs d) /\
    forallb writes_no_goal evs = true /\
    (forall applied, out = Ok applied -> applied = []).
Proof.
  intros Hmax HlR HlL.
  unfold Follower.send_action. rewrite bind_run. unfold get at 1. cbv iota beta.
  destruct (Follower.is_connected d); cbn [negb]; [|run_moves_nothing].
  rewrite Hmax. rewrite bind_run.
  rewrite bind_run, bus_sync_read_run.
  destruct (bus_raises w Right (SyncRead "Present_Position")); [run_moves_nothing|].
  rewrite bind_run, bus_sync_read_run.
  destruct (bus_raises w Left (SyncRead "Present_Position")); [run_moves_nothing|].
  rewrite bind_run.
  destruct (goal_present_items_cases Right _ (goal_pos_of action)
              (log (Bus Left (SyncRead "Present_Position"))
                   (log (Bus Right (SyncRead "Present_Position")) d)) HlR) as [[k E]|E];
    unfold goal_pos_of in E; rewrite E; [run_moves_nothing|].
  rewrite bind_run.
  destruct (goal_present_items_cases Left _ (goal_pos_of action)
              (log (Bus Left (SyncRead "Present_Position"))
                   (log (Bus Right (SyncRead "Present_Position")) d)) HlL) as [[k E']|E'];
    unfold goal_pos_of in E'; rewrite E'; [run_moves_nothing|].
  unfold ret at 1. cbv iota beta.
  change (ensure_safe_goal_position (dict_update (dict_of_items []) (dict_of_items []))
                                    max_target) with (@nil (string * Z)).
  change (for_side Right (@nil (string * Z))) with (@nil (string * Z)).
  change (for_side Left (@nil (string * Z))) with (@nil (string * Z)).
  unfold bus_sync_write. rewrite bind_run, call_run.
  destruct (bus_raises w Right (SyncWrite "Goal_Position" [])); [run_moves_nothing|].
  rewrite bind_run, call_run.
  destruct (bus_raises w Left (SyncWrite "Goal_Position" [])); run_moves_nothing.
Qed.

(** X4.  With a maximum relative target configured and bus replies keyed by
    local motor names, [send_action] never commands a motor, whatever the
    action and whatever fails: every goal map it writes to a bus is empty, and
    if it returns at all the action it returns is empty. *)
Theorem clamped_send_action_moves_nothing
    (w : World) (d : Follower.t) (action : dict Z) (max_target : Z) :
  Follower.max_relative_target (config d) = Some max_target ->
  local_names Right (sync_read_reply w Right "Present_Position") = true ->
  local_names Left (sync_read_reply w Left "Present_Position") = true ->
  forallb writes_no_goal (new_events d (snd (Follower.send_action w action d))) = true /\
  (forall applied, fst (Follower.send_action w action d) = Ok applied -> applied = []).
Proof.
  intros Hmax HlR HlL.
  destruct (clamped_send_action_run w d action max_target Hmax HlR HlL)
    as (evs & out & E & Hev & Hout).
  rewrite E. simpl fst. simpl snd. split; [|exact Hout].
  rewrite (new_events_app d (log_all evs d) evs (trace_log_all evs d)). exact Hev.
Qed.

Lemma clamped_send_action_moves_nothing_witness :
  forallb writes_no_goal
    (new_events (Scenario.follower_connected (Some 10%Z))
       (snd (Follower.send_action Scenario.calm
               [("left_gripper.pos", 40%Z); ("right_joint1.pos", 5%Z)]
               (Scenario.follower_connected (Some 10%Z))))) = true.
Proof.
  apply (clamped_send_action_moves_nothing Scenario.calm
           (Scenario.follower_connected (Some 10%Z))
           [("left_gripper.pos", 40%Z); ("right_joint1.pos", 5%Z)] 10);
    reflexivity.
Defined.

(** ** The namespace: prefixing a bus's map and splitting it off again *)

Lemma append_assoc (a b c : string) : (a ++ b) ++ c = a ++ (b ++ c).
Proof. induction a as [|x a IH]; simpl; [reflexivity | rewrite IH; reflexivity]. Qed.

Lemma filter_prefixed_own {V} (s : side) (d : dict V) :
  filter (fun kv => Str.startswith (fst kv) (side_prefix s)) (prefixed s d) = prefixed s d.
Proof.
  apply forallb_filter_id. apply forallb_forall. intros kv Hin.
  apply in_map_iff in Hin. destruct Hin as ([m v] & <- & _). simpl.
  apply startswith_own_prefix.
Qed.

Lemma filter_prefixed_other {V} (s : side) (d : dict V) :
  filter (fun kv => Str.startswith (fst kv) (side_prefix s)) (prefixed (other_side s) d) = [].
Proof.
  induction d as [|[m v] d IH]; simpl; [reflexivity|].
  rewrite (startswith_other_prefix (other_side s) s m) by (destruct s; discriminate).
  exact IH.
Qed.

Lemma for_side_own_prefixed {V} (s : side) (d : dict V) :
  NoDup (dict_keys d) ->
  forallb (free_of (side_prefix s)) (dict_keys d) = true ->
  for_side s (prefixed s d) = d.
Proof.
  intros Hnd Hfree.
  unfold for_side, dict_comp. rewrite filter_prefixed_own.
  assert (E : map (fun kv : string * V =>
                     (Str.replace (fst kv) (side_prefix s) "", snd kv)) (prefixed s d) = d).
  { unfold prefixed. rewrite map_map. simpl.
    rewrite <- (map_id d) at 2. apply map_ext_in. intros [m v] Hin. simpl.
    rewrite replace_side_prefix. f_equal.
    rewrite forallb_forall in Hfree. apply String.eqb_eq, Hfree.
    apply (in_map fst) in Hin. exact Hin. }
  rewrite E. apply dict_of_items_fresh, Hnd.
Qed.

(** X5.  Splitting off what was merged.  For a well-formed map whose keys do
    not contain the side's prefix, prefixing every key with [{side}_] and
    then taking that side's part (keep the keys that start with the prefix,
    remove the prefix) gives the map back; taking the other side's part gives
    the empty map. *)
Theorem for_side_prefixed {V} (s : side) (d : dict V) :
  NoDup (dict_keys d) ->
  forallb (free_of (side_prefix s)) (dict_keys d) = true ->
  for_side s (prefixed s d) = d /\ for_side (other_side s) (prefixed s d) = [].
Proof.
  intros Hnd Hfree. split.
  - apply for_side_own_prefixed; assumption.
  - unfold for_side, dict_comp.
    assert (E : prefixed s d = prefixed (other_side (other_side s)) d)
      by (destruct s; reflexivity).
    rewrite E, filter_prefixed_other. reflexivity.
Qed.

Lemma for_side_prefixed_witness :
  for_side Right (prefixed Right Scenario.zeros) = Scenario.zeros /\
  for_side Left (prefixed Right Scenario.zeros) = [].
Proof.
  apply (for_side_prefixed Right Scenario.zeros).
  - repeat constructor; simpl; intuition discriminate.
  - reflexivity.
Defined.

Lemma for_side_both_prefixed {V} (s : side) (right_map left_map : dict V) :
  NoDup (dict_keys right_map) -> NoDup (dict_keys left_map) ->
  forallb (free_of (side_prefix Right)) (dict_keys right_map) = true ->
  forallb (free_of (side_prefix Left)) (dict_keys left_map) = true ->
  for_side s (prefixed Right right_map ++ prefixed Left left_map)%list
  = match s with Right => right_map | Left => left_map end.
Proof.
  intros NR NL FR FL.
  pose proof (for_side_own_prefixed Right right_map NR FR) as RR.
  pose proof (for_side_own_prefixed Left left_map NL FL) as LL.
  unfold for_side, dict_comp in *. rewrite filter_app. destruct s.
  - change (prefixed Left left_map) with (prefixed (other_side Right) left_map).
    rewrite (filter_prefixed_other Right left_map), app_nil_r. exact RR.
  - change (prefixed Right right_map) with (prefixed (other_side Left) right_map).
    rewrite (filter_prefixed_other Left right_map). exact LL.
Qed.

Lemma goal_pos_of_unified (right_reading left_reading : dict Z) :
  NoDup (dict_keys right_reading) -> NoDup (dict_keys left_reading) ->
  goal_pos_of (unified Right right_reading ++ unified Left left_reading)%list
  = (prefixed Right right_reading ++ prefixed Left left_reading)%list.
Proof.
  intros NR NL. unfold goal_pos_of.
  rewrite (goal_pos_fresh _ (NoDup_both_unified _ _ NR NL)).
  rewrite forallb_filter_id.
  - rewrite map_app. unfold unified, prefixed. rewrite !map_map.
    f_equal; apply map_ext; intros [m v]; cbn [fst snd];
      rewrite <- append_assoc, removesuffix_append; reflexivity.
  - apply forallb_forall. intros kv Hin. apply in_app_or in Hin.
    destruct Hin as [Hin|Hin]; apply in_map_iff in Hin;
      destruct Hin as ([m v] & <- & _); cbn [fst snd];
      rewrite <- append_assoc; apply endswith_append.
Qed.

(** X6.  Teleoperation.  When the leader's reads and the follower's writes go
    through, the replies are well-formed and keyed by names that do not
    contain a side prefix, and no maximum relative target is set, feeding the
    action returned by the leader's [get_action] to the follower's
    [send_action] writes to the follower's right bus exactly what the leader's
    right bus reported, to its left bus what the leader's left bus reported,
    in that order, and returns the action unchanged. *)
Theorem teleoperation_step (wl wf : World) (l : Leader.t) (f : Follower.t) :
  bus_raises wl Right (SyncRead "Present_Position") = false ->
  bus_raises wl Left (SyncRead "Present_Position") = false ->
  NoDup (dict_keys (sync_read_reply wl Right "Present_Position")) ->
  NoDup (dict_keys (sync_read_reply wl Left "Present_Position")) ->
  forallb (free_of (side_prefix Right))
          (dict_keys (sync_read_reply wl Right "Present_Position")) = true ->
  forallb (free_of (side_prefix Left))
          (dict_keys (sync_read_reply wl Left "Present_Position")) = true ->
  Follower.is_connected f = true ->
  Follower.max_relative_target (config f) = None ->
  (forall s values, bus_raises wf s (SyncWrite "Goal_Position" values) = false) ->
  exists action,
    fst (Leader.get_action wl l) = Ok action /\
    Follower.send_action wf action f =
      (Ok action,
       log (Bus Left (SyncWrite "Goal_Position" (sync_read_reply wl Left "Present_Position")))
           (log (Bus Right (SyncWrite "Goal_Position"
                                      (sync_read_reply wl Right "Present_Position"))) f)).
Proof.
  intros HR HL NR NL FR FL Hc Hmax Hw.
  rewrite (leader_get_action_run wl l HR HL), (merged_unified _ _ NR NL).
  eexists. split; [reflexivity|].
  rewrite (send_action_unclamped wf f _ Hc Hmax Hw).
  rewrite (goal_pos_of_unified _ _ NR NL).
  rewrite (for_side_both_prefixed Right _ _ NR NL FR FL),
          (for_side_both_prefixed Left _ _ NR NL FR FL).
  rewrite <- (goal_pos_of_unified _ _ NR NL). unfold goal_pos_of.
  rewrite (applied_is_request _ (NoDup_both_unified _ _ NR NL)).
  rewrite forallb_filter_id; [reflexivity|].
  apply forallb_forall. intros kv Hin. apply in_app_or in Hin.
  destruct Hin as [Hin|Hin]; apply in_map_iff in Hin;
    destruct Hin as ([m v] & <- & _); cbn [fst snd];
    rewrite <- append_assoc; apply endswith_append.
Qed.

Lemma teleoperation_step_witness :
  exists action,
    fst (Leader.get_action Scenario.calm Scenario.leader_connected) = Ok action /\
    Follower.send_action Scenario.calm action (Scenario.follower_connected None) =
      (Ok action,
       log (Bus Left (SyncWrite "Goal_Position" Scenario.zeros))
           (log (Bus Right (SyncWrite "Goal_Position" Scenario.zeros))
                (Scenario.follower_connected None))).
Proof.
  apply (teleoperation_step Scenario.calm Scenario.calm Scenario.leader_connected
           (Scenario.follower_connected None)); try reflexivity.
  - repeat constructor; simpl; intuition discriminate.
  - repeat constructor; simpl; intuition discriminate.
Defined.

(** X7.  Without a maximum relative target a connected follower's
    [send_action] reads nothing and writes the right bus first.  If that
    write fails the left bus is never written; if the left write fails the
    right bus has already been written and nothing undoes it; either failure
    is raised as it is. *)
Theorem unclamped_send_action_partial_failure
    (w : World) (d : Follower.t) (action : dict Z) :
  Follower.is_connected d = true ->
  Follower.max_relative_target (config d) = None ->
  (bus_raises w Right (SyncWrite "Goal_Position" (for_side Right (goal_pos_of action))) = true ->
   Follower.send_action w action d =
     (Raise (BusTransportError Right
               (SyncWrite "Goal_Position" (for_side Right (goal_pos_of action)))),
      log (Bus Right (SyncWrite "Goal_Position" (for_side Right (goal_pos_of action)))) d)) /\
  (bus_raises w Right (SyncWrite "Goal_Position" (for_side Right (goal_pos_of action))) = false ->
   bus_raises w Left (SyncWrite "Goal_Position" (for_side Left (goal_pos_of action))) = true ->
   Follower.send_action w action d =
     (Raise (BusTransportError Left
               (SyncWrite "Goal_Position" (for_side Left (goal_pos_of action)))),
      log (Bus Left (SyncWrite "Goal_Position" (for_side Left (goal_pos_of action))))
          (log (Bus Right (SyncWrite "Goal_Position" (for_side Right (goal_pos_of action)))) d))).
Proof.
  intros Hc Hmax.
  assert (E : Follower.send_action w action d =
              (bus_sync_write w Right "Goal_Position" (for_side Right (goal_pos_of action)) ;;
               bus_sync_write w Left "Goal_Position" (for_side Left (goal_pos_of action)) ;;
               ret (dict_comp (fun _ => true) (fun motor => motor ++ ".pos")
                              (goal_pos_of action))) d).
  { unfold Follower.send_action. rewrite bind_run. unfold get at 1. cbv iota beta.
    rewrite Hc, Hmax. cbn [negb]. rewrite bind_ret. reflexivity. }
  rewrite E. unfold bus_sync_write. split.
  - intros HR. rewrite bind_run, call_run, HR. reflexivity.
  - intros HR HL. rewrite bind_run, call_run, HR. rewrite bind_run, call_run, HL. reflexivity.
Qed.

Lemma unclamped_send_action_partial_failure_witness :
  Follower.send_action
    (mkWorld (fun s c => match s, c with Left, SyncWrite _ _ => true | _, _ => false end)
             (fun _ => false) (fun _ => false) false
             (fun _ _ => Scenario.zeros) (fun _ => Scenario.zeros)
             (fun _ => Scenario.zeros) (fun _ => Scenario.zeros) (fun _ => 0%Z))
    [("right_joint0.pos", 50%Z)] (Scenario.follower_connected None)
  = (Raise (BusTransportError Left (SyncWrite "Goal_Position" [])),
     log (Bus Left (SyncWrite "Goal_Position" []))
         (log (Bus Right (SyncWrite "Goal_Position" [("joint0", 50%Z)]))
              (Scenario.follower_connected None))).
Proof.
  apply (unclamped_send_action_partial_failure
           (mkWorld (fun s c => match s, c with Left, SyncWrite _ _ => true | _, _ => false end)
                    (fun _ => false) (fun _ => false) false
                    (fun _ _ => Scenario.zeros) (fun _ => Scenario.zeros)
                    (fun _ => Scenario.zeros) (fun _ => Scenario.zeros) (fun _ => 0%Z))
           (Scenario.follower_connected None) [("right_joint0.pos", 50%Z)]);
    reflexivity.
Defined.

(** ** The life cycle: [connect] and [disconnect] when every call goes through *)

Lemma in_dict_set (k0 k : string) (c0 c : Camera) (cs : dict Camera) :
  NoDup (dict_keys cs) ->
  In (k0, c0) (dict_set k c cs) ->
  (k0 = k /\ c0 = c) \/ (k0 <> k /\ In (k0, c0) cs).
Proof.
  induction cs as [|[k1 c1] cs IH]; simpl; intros Hnd Hin.
  - destruct Hin as [E|[]]. injection E as <- <-. auto.
  - inversion Hnd as [|? ? Hk1 Hnd']; subst.
    destruct (String.eqb k k1) eqn:E.
    + apply String.eqb_eq in E. subst k1. destruct Hin as [E|Hin].
      * injection E as <- <-. auto.
      * right. split; [|auto]. intros ->. apply Hk1.
        apply (in_map fst) in Hin. exact Hin.
    + apply String.eqb_neq in E. destruct Hin as [E1|Hin].
      * injection E1 as <- <-. right. split; [congruence | auto].
      * destruct (IH Hnd' Hin) as [H|[H1 H2]]; [auto | right; auto].
Qed.

(** After the loop every camera of a well-formed table carries the flag. *)
Lemma set_all_cameras_flags (connected : bool) (cams : list string) (cs : dict Camera) :
  NoDup (dict_keys cs) ->
  (forall k c, In (k, c) cs -> In k cams \/ cam_is_connected c = connected) ->
  forall k c, In (k, c) (set_all_cameras connected cams cs) -> cam_is_connected c = connected.
Proof.
  unfold set_all_cameras. revert cs.
  induction cams as [|cam cams IH]; intros cs Hnd H k c Hin; simpl in Hin.
  - destruct (H k c Hin) as [[]|E]. exact E.
  - apply (IH (dict_set cam (mkCamera connected) cs)) with (k := k); [| |exact Hin].
    + apply NoDup_keys_set, Hnd.
    + intros k' c' Hin'. destruct (in_dict_set _ _ _ _ _ Hnd Hin') as [[-> ->]|[Hne Hold]].
      * right. reflexivity.
      * destruct (H k' c' Hold) as [[E|Hc]|Hc]; [congruence | auto | auto].
Qed.

Lemma all_cameras_connected (cs : dict Camera) :
  NoDup (dict_keys cs) ->
  forallb cam_is_connected (map snd (set_all_cameras true (dict_keys cs) cs)) = true.
Proof.
  intros Hnd. apply forallb_forall. intros c Hin.
  apply in_map_iff in Hin. destruct Hin as ([k c'] & <- & Hin). simpl.
  apply (set_all_cameras_flags true (dict_keys cs) cs Hnd) with (k := k); [|exact Hin].
  intros k0 c0 H0. left. apply (in_map fst) in H0. exact H0.
Qed.

Section QuietWorld.
Variable w : World.
Hypothesis Hquiet : quiet w.

Lemma cam_connect_loop_steps {C} (cams : list string) (d : Device C) :
  steps (for_each cams (cam_connect w)) d
        (mkDevice (config d) (calibration d) (right_bus d) (left_bus d)
                  (set_all_cameras true cams (cameras d))
                  (trace d ++ map CamConnect cams)).
Proof.
  destruct Hquiet as (_ & Hc & _).
  revert d. induction cams as [|cam cams IH]; intros d.
  - unfold steps. simpl. rewrite app_nil_r. destruct d; reflexivity.
  - simpl for_each. eapply steps_bind.
    + unfold steps, cam_connect. rewrite bind_run. unfold modify at 1. cbv iota beta.
      rewrite Hc. reflexivity.
    + unfold steps in *. rewrite IH. simpl. rewrite <- app_assoc. reflexivity.
Qed.

Lemma cam_disconnect_loop_steps {C} (cams : list string) (d : Device C) :
  steps (for_each cams (cam_disconnect w)) d
        (mkDevice (config d) (calibration d) (right_bus d) (left_bus d)
                  (set_all_cameras false cams (cameras d))
                  (trace d ++ map CamDisconnect cams)).
Proof.
  destruct Hquiet as (_ & Hc & _).
  revert d. induction cams as [|cam cams IH]; intros d.
  - unfold steps. simpl. rewrite app_nil_r. destruct d; reflexivity.
  - simpl for_each. eapply steps_bind.
    + unfold steps, cam_disconnect. rewrite bind_run. unfold modify at 1. cbv iota beta.
      rewrite Hc. reflexivity.
    + unfold steps in *. rewrite IH. simpl. rewrite <- app_assoc. reflexivity.
Qed.

Lemma bus_connect_steps {C} (s : side) (d : Device C) :
  steps (bus_connect w s) d
        (set_bus s (mkBus (motors (bus s d)) true (bus_calibration (bus s d)))
                 (log (Bus s BusConnect) d)).
Proof.
  destruct Hquiet as (Hb & _). unfold steps. rewrite bus_connect_run, Hb, !bus_log.
  reflexivity.
Qed.

Lemma bus_disconnect_steps {C} (s : side) (o : option bool) (d : Device C) :
  steps (bus_disconnect w s o) d
        (set_bus s (mkBus (motors (bus s d)) false (bus_calibration (bus s d)))
                 (log (Bus s (BusDisconnect o)) d)).
Proof.
  destruct Hquiet as (Hb & _). unfold steps, bus_disconnect.
  rewrite bind_run, call_run, Hb. unfold modify. rewrite !bus_log. reflexivity.
Qed.

End QuietWorld.

Lemma follower_disconnect_steps (w : World) (d : Follower.t) :
  quiet w -> Follower.is_connected d = true ->
  steps (Follower.disconnect w) d
    (mkDevice (config d) (calibration d)
       (mkBus (motors (right_bus d)) false (bus_calibration (right_bus d)))
       (mkBus (motors (left_bus d)) false (bus_calibration (left_bus d)))
       (set_all_cameras false (dict_keys (cameras d)) (cameras d))
       (trace d
        ++ [Bus Right (BusDisconnect (Some (Follower.disable_torque_on_disconnect (config d))));
            Bus Left (BusDisconnect (Some (Follower.disable_torque_on_disconnect (config d))))]
        ++ map CamDisconnect (dict_keys (cameras d)))).
Proof.
  intros Hq Hc. unfold steps, Follower.disconnect.
  rewrite bind_run. unfold get at 1. cbv iota beta. rewrite Hc. cbn [negb].
  rewrite bind_run, (bus_disconnect_steps w Hq Right).
  rewrite bind_run, (bus_disconnect_steps w Hq Left).
  rewrite bind_run. unfold get at 1. cbv iota beta.
  rewrite (cam_disconnect_loop_steps w Hq). simpl.
  rewrite <- !app_assoc. reflexivity.
Qed.

Lemma leader_disconnect_steps (w : World) (d : Leader.t) :
  quiet w ->
  steps (Leader.disconnect w) d
    (mkDevice (config d) (calibration d)
       (mkBus (motors (right_bus d)) false (bus_calibration (right_bus d)))
       (mkBus (motors (left_bus d)) false (bus_calibration (left_bus d)))
       (cameras d)
       (trace d ++ [Bus Right (BusDisconnect None); Bus Left (BusDisconnect None)])).
Proof.
  intros Hq. unfold steps, Leader.disconnect.
  rewrite bind_run. unfold get at 1. cbv iota beta.
  assert (E : forall b : bool,
             (if b then discard DeviceNotConnectedError else ret tt)
             = (ret tt : M Leader.DualScropionLeaderConfig unit))
    by (intros []; reflexivity).
  rewrite E, bind_ret.
  rewrite bind_run, (bus_disconnect_steps w Hq Right).
  rewrite (bus_disconnect_steps w Hq Left). simpl.
  rewrite <- !app_assoc. reflexivity.
Qed.

(** X8.  When no collaborator call raises, [disconnect] on a connected
    follower asks the right bus, then the left bus, to disconnect, passing
    [disable_torque_on_disconnect] to both, then disconnects every camera;
    afterwards neither bus is connected, the calibration on the buses is
    untouched, and a second [disconnect] raises [DeviceNotConnectedError]
    without a further call.  The leader's [disconnect] makes the two bus
    calls without an argument and leaves neither bus connected. *)
Theorem disconnect_when_calls_succeed (w : World) (f : Follower.t) (l : Leader.t) :
  quiet w ->
  Follower.is_connected f = true ->
  (fst (Follower.disconnect w f) = Ok tt /\
   new_events f (snd (Follower.disconnect w f))
     = ([Bus Right (BusDisconnect (Some (Follower.disable_torque_on_disconnect (config f))));
         Bus Left (BusDisconnect (Some (Follower.disable_torque_on_disconnect (config f))))]
        ++ map CamDisconnect (dict_keys (cameras f)))%list /\
   (forall s, bus_is_connected (bus s (snd (Follower.disconnect w f))) = false) /\
   (forall s, bus_calibration (bus s (snd (Follower.disconnect w f)))
              = bus_calibration (bus s f)) /\
   Follower.disconnect w (snd (Follower.disconnect w f))
     = (Raise DeviceNotConnectedError, snd (Follower.disconnect w f))) /\
  (fst (Leader.disconnect w l) = Ok tt /\
   new_events l (snd (Leader.disconnect w l))
     = [Bus Right (BusDisconnect None); Bus Left (BusDisconnect None)] /\
   (forall s, bus_is_connected (bus s (snd (Leader.disconnect w l))) = false)).
Proof.
  intros Hq Hc.
  rewrite (follower_disconnect_steps w f Hq Hc), (leader_disconnect_steps w l Hq).
  simpl fst. simpl snd. split.
  - split; [reflexivity|]. split; [apply new_events_app; reflexivity|].
    split; [intros s; destruct s; reflexivity|].
    split; [intros s; destruct s; reflexivity|].
    apply follower_disconnect_guard. reflexivity.
  - split; [reflexivity|]. split; [apply new_events_app; reflexivity|].
    intros s; destruct s; reflexivity.
Qed.

Lemma disconnect_when_calls_succeed_witness :
  bus_is_connected
    (bus Right (snd (Follower.disconnect Scenario.calm (Scenario.follower_connected None))))
    = false /\
  new_events Scenario.leader_connected
             (snd (Leader.disconnect Scenario.calm Scenario.leader_connected))
    = [Bus Right (BusDisconnect None); Bus Left (BusDisconnect None)].
Proof.
  destruct (disconnect_when_calls_succeed Scenario.calm (Scenario.follower_connected None)
              Scenario.leader_connected) as ((_ & _ & Hf & _) & (_ & Hl & _)).
  - repeat split.
  - reflexivity.
  - split; [exact (Hf Right) | exact Hl].
Defined.

Lemma follower_connect_steps (w : World) (c : bool) (d : Follower.t) :
  quiet w ->
  Follower.is_connected d = false ->
  negb (Follower.is_calibrated d) && c = false ->
  steps (Follower.connect w c) d
    (log_all (follower_configure_events d)
       (mkDevice (config d) (calibration d)
          (mkBus (motors (right_bus d)) true (bus_calibration (right_bus d)))
          (mkBus (motors (left_bus d)) true (bus_calibration (left_bus d)))
          (set_all_cameras true (dict_keys (cameras d)) (cameras d))
          (trace d ++ [Bus Right BusConnect; Bus Left BusConnect]
           ++ map CamConnect (dict_keys (cameras d))))).
Proof.
  intros Hq Hc Hcal. unfold steps, Follower.connect.
  rewrite bind_run. unfold get at 1. cbv iota beta. rewrite Hc.
  rewrite bind_run, (bus_connect_steps w Hq Right).
  rewrite bind_run, (bus_connect_steps w Hq Left).
  rewrite bind_run. unfold get at 1. cbv iota beta.
  match goal with
  | |- context [Follower.is_calibrated ?st] =>
      change (Follower.is_calibrated st) with (Follower.is_calibrated d)
  end.
  rewrite Hcal, bind_ret.
  rewrite bind_run. unfold get at 1. cbv iota beta.
  rewrite bind_run, (cam_connect_loop_steps w Hq).
  rewrite (follower_configure_ok w _ (proj1 Hq)).
  unfold follower_configure_events. simpl. rewrite <- !app_assoc. reflexivity.
Qed.

Lemma leader_connect_steps (w : World) (c : bool) (d : Leader.t) :
  quiet w ->
  Leader.is_connected d = false ->
  negb (Leader.is_calibrated d) && c = false ->
  steps (Leader.connect w c) d
    (log_all (leader_configure_events d)
       (mkDevice (config d) (calibration d)
          (mkBus (motors (right_bus d)) true (bus_calibration (right_bus d)))
          (mkBus (motors (left_bus d)) true (bus_calibration (left_bus d)))
          (cameras d)
          (trace d ++ [Bus Right BusConnect; Bus Left BusConnect]))).
Proof.
  intros Hq Hc Hcal. unfold steps, Leader.connect.
  rewrite bind_run. unfold get at 1. cbv iota beta. rewrite Hc.
  rewrite bind_run, (bus_connect_steps w Hq Right).
  rewrite bind_run, (bus_connect_steps w Hq Left).
  rewrite bind_run. unfold get at 1. cbv iota beta.
  match goal with
  | |- context [Leader.is_calibrated ?st] =>
      change (Leader.is_calibrated st) with (Leader.is_calibrated d)
  end.
  rewrite Hcal, bind_ret.
  rewrite (leader_configure_ok w _ (proj1 Hq)).
  unfold leader_configure_events. simpl. rewrite <- !app_assoc. reflexivity.
Qed.

Lemma cameras_log_all {C} (es : list event) (d : Device C) :
  cameras (log_all es d) = cameras d.
Proof.
  revert d. induction es as [|e es IH]; intros d; simpl; [reflexivity|].
  rewrite IH. reflexivity.
Qed.

Lemma right_bus_log_all {C} (es : list event) (d : Device C) :
  right_bus (log_all es d) = right_bus d.
Proof. exact (bus_log_all Right es d). Qed.

Lemma left_bus_log_all {C} (es : list event) (d : Device C) :
  left_bus (log_all es d) = left_bus d.
Proof. exact (bus_log_all Left es d). Qed.

Lemma calibration_log_all {C} (es : list event) (d : Device C) :
  calibration (log_all es d) = calibration d.
Proof.
  revert d. induction es as [|e es IH]; intros d; simpl; [reflexivity|].
  rewrite IH. reflexivity.
Qed.

(** X9.  When no collaborator call raises and no calibration is due (the
    device is calibrated, or [calibrate=False]), [connect] on a device that is
    not connected opens the right port, then the left port, connects the
    follower's cameras, then configures the motors; it returns normally, the
    device then reports [is_connected = true] (the follower's camera table
    being well-formed), its record set and the buses' are untouched, and a
    second [connect] raises [DeviceAlreadyConnectedError] without a call. *)
Theorem connect_when_calls_succeed (w : World) (c : bool) (f : Follower.t) (l : Leader.t) :
  quiet w ->
  Follower.is_connected f = false ->
  Leader.is_connected l = false ->
  negb (Follower.is_calibrated f) && c = false ->
  negb (Leader.is_calibrated l) && c = false ->
  NoDup (dict_keys (cameras f)) ->
  (fst (Follower.connect w c f) = Ok tt /\
   Follower.is_connected (snd (Follower.connect w c f)) = true /\
   new_events f (snd (Follower.connect w c f))
     = ([Bus Right BusConnect; Bus Left BusConnect]
        ++ map CamConnect (dict_keys (cameras f))
        ++ follower_configure_events f)%list /\
   calibration (snd (Follower.connect w c f)) = calibration f /\
   (forall s, bus_calibration (bus s (snd (Follower.connect w c f)))
              = bus_calibration (bus s f)) /\
   Follower.connect w c (snd (Follower.connect w c f))
     = (Raise DeviceAlreadyConnectedError, snd (Follower.connect w c f))) /\
  (fst (Leader.connect w c l) = Ok tt /\
   Leader.is_connected (snd (Leader.connect w c l)) = true /\
   new_events l (snd (Leader.connect w c l))
     = ([Bus Right BusConnect; Bus Left BusConnect] ++ leader_configure_events l)%list /\
   calibration (snd (Leader.connect w c l)) = calibration l /\
   (forall s, bus_calibration (bus s (snd (Leader.connect w c l)))
              = bus_calibration (bus s l)) /\
   Leader.connect w c (snd (Leader.connect w c l))
     = (Raise DeviceAlreadyConnectedError, snd (Leader.connect w c l))).
Proof.
  intros Hq Hf Hl Hcf Hcl Hnd.
  rewrite (follower_connect_steps w c f Hq Hf Hcf), (leader_connect_steps w c l Hq Hl Hcl).
  cbn [fst snd].
  assert (Fc : Follower.is_connected
                 (log_all (follower_configure_events f)
                    (mkDevice (config f) (calibration f)
                       (mkBus (motors (right_bus f)) true (bus_calibration (right_bus f)))
                       (mkBus (motors (left_bus f)) true (bus_calibration (left_bus f)))
                       (set_all_cameras true (dict_keys (cameras f)) (cameras f))
                       (trace f ++ [Bus Right BusConnect; Bus Left BusConnect]
                        ++ map CamConnect (dict_keys (cameras f))))) = true).
  { unfold Follower.is_connected.
    rewrite cameras_log_all, right_bus_log_all, left_bus_log_all. simpl.
    apply all_cameras_connected, Hnd. }
  assert (Lc : Leader.is_connected
                 (log_all (leader_configure_events l)
                    (mkDevice (config l) (calibration l)
                       (mkBus (motors (right_bus l)) true (bus_calibration (right_bus l)))
                       (mkBus (motors (left_bus l)) true (bus_calibration (left_bus l)))
                       (cameras l)
                       (trace l ++ [Bus Right BusConnect; Bus Left BusConnect]))) = true).
  { unfold Leader.is_connected.
    rewrite right_bus_log_all, left_bus_log_all. reflexivity. }
  split.
  - split; [reflexivity|]. split; [exact Fc|]. split.
    { apply new_events_app. rewrite trace_log_all. simpl. rewrite <- !app_assoc. reflexivity. }
    split; [rewrite calibration_log_all; reflexivity|].
    split; [intros s; rewrite bus_log_all; destruct s; reflexivity|].
    apply follower_connect_guard, Fc.
  - split; [reflexivity|]. split; [exact Lc|]. split.
    { apply new_events_app. rewrite trace_log_all. simpl. rewrite <- !app_assoc. reflexivity. }
    split; [rewrite calibration_log_all; reflexivity|].
    split; [intros s; rewrite bus_log_all; destruct s; reflexivity|].
    apply leader_connect_guard, Lc.
Qed.

Lemma connect_when_calls_succeed_witness :
  fst (Follower.connect Scenario.calm false (Scenario.follower_fresh None)) = Ok tt /\
  fst (Leader.connect Scenario.calm false Scenario.leader_fresh) = Ok tt.
Proof.
  destruct (connect_when_calls_succeed Scenario.calm false (Scenario.follower_fresh None)
              Scenario.leader_fresh) as ((Hf & _) & (Hl & _)).
  - repeat split.
  - reflexivity.
  - reflexivity.
  - apply andb_false_r.
  - apply andb_false_r.
  - repeat constructor; simpl; intuition discriminate.
  - split; assumption.
Defined.

(** ** A calibration run that returns *)

Lemma bind_ok_inv_grows {C A B} (m : M C A) (k : A -> M C B) (d d' : Device C) (b : B) :
  respects (grows any_event) m ->
  bind m k d = (Ok b, d') ->
  exists a d1, grows any_event d d1 /\ k a d1 = (Ok b, d').
Proof.
  intros Hm. rewrite bind_run. specialize (Hm d).
  destruct (m d) as [[a|e] d1]; simpl in Hm; intros E; [|discriminate].
  exists a, d1. auto.
Qed.

Lemma bus_write_calibration_run {C} (w : World) (s : side)
    (c : dict MotorCalibration) (d : Device C) :
  bus_write_calibration w s c d =
  if bus_raises w s (WriteCalibration c)
  then (Raise (BusTransportError s (WriteCalibration c)), log (Bus s (WriteCalibration c)) d)
  else (Ok tt,
        set_bus s (mkBus (motors (bus s d)) (bus_is_connected (bus s d)) c)
                (log (Bus s (WriteCalibration c)) d)).
Proof.
  unfold bus_write_calibration. rewrite bind_run, call_run.
  destruct (bus_raises w s (WriteCalibration c)); [reflexivity|].
  unfold modify. rewrite !bus_log. reflexivity.
Qed.

Lemma write_and_save_ok {C} (w : World) (d d' : Device C) :
  Shared.write_and_save w d = (Ok tt, d') ->
  calibration d' = calibration d /\
  (forall s, bus_calibration (bus s d') = for_side s (calibration d)) /\
  trace d' = (trace d ++ [Bus Right (WriteCalibration (for_side Right (calibration d)));
                          Bus Left (WriteCalibration (for_side Left (calibration d)));
                          SaveCalibration (calibration d)])%list.
Proof.
  unfold Shared.write_and_save. rewrite bind_run. unfold get at 1. cbv iota beta zeta.
  rewrite bind_run, bus_write_calibration_run.
  destruct (bus_raises w Right (WriteCalibration (for_side Right (calibration d))));
    [discriminate|].
  rewrite bind_run, bus_write_calibration_run.
  destruct (bus_raises w Left (WriteCalibration (for_side Left (calibration d))));
    [discriminate|].
  unfold _save_calibration. rewrite bind_run. unfold get at 1. cbv iota beta.
  rewrite bind_run. unfold modify at 1. cbv iota beta.
  destruct (save_raises w); [discriminate|].
  intros E. injection E as <-. split; [reflexivity|]. split.
  - intros s; destruct s; reflexivity.
  - simpl. rewrite <- !app_assoc. reflexivity.
Qed.

Lemma calibrate_ok {C} (w : World) (d d' : Device C) :
  Shared.calibrate w d = (Ok tt, d') ->
  (forall s, bus_calibration (bus s d') = for_side s (calibration d')) /\
  exists before,
    new_events d d'
    = (before ++ [Bus Right (WriteCalibration (for_side Right (calibration d')));
                  Bus Left (WriteCalibration (for_side Left (calibration d')));
                  SaveCalibration (calibration d')])%list.
Proof.
  unfold Shared.calibrate. intros E.
  apply bind_ok_inv_grows in E; [|respects_walk]. destruct E as (_ & d1 & G1 & E).
  apply bind_ok_inv_grows in E; [|respects_walk]. destruct E as (_ & d2 & G2 & E).
  apply bind_ok_inv_grows in E; [|unfold Shared.set_operating_mode; respects_walk].
  destruct E as (_ & d3 & G3 & E).
  apply bind_ok_inv_grows in E; [|unfold Shared.set_operating_mode; respects_walk].
  destruct E as (_ & d4 & G4 & E).
  apply bind_ok_inv_grows in E; [|respects_walk]. destruct E as (_ & d5 & G5 & E).
  apply bind_ok_inv_grows in E;
    [|unfold Shared.calibrate_arm, Shared.record_motor; respects_walk].
  destruct E as (_ & d6 & G6 & E).
  apply bind_ok_inv_grows in E;
    [|unfold Shared.calibrate_arm, Shared.record_motor; respects_walk].
  destruct E as (_ & d7 & G7 & E).
  assert (G : grows any_event d d7).
  { repeat (eapply grows_trans; [eassumption|]). apply grows_refl. }
  destruct G as (before & T & _).
  destruct (write_and_save_ok w d7 d' E) as (Hc & Hb & Ht).
  rewrite Hc. split; [exact Hb|].
  exists before. apply new_events_app. rewrite Ht, T, <- app_assoc. reflexivity.
Qed.

(** X10.  Whenever [calibrate] returns normally, the last three things it
    did were to write to the right bus and to the left bus that side's part
    of the device's record set (prefix removed) and to save the record set;
    each bus then holds exactly that part.  Hence a follower or leader
    constructed anew from the saved record set hands each bus the records
    [calibrate] wrote to it. *)
Theorem calibrate_writes_what_it_saves
    (w : World) (f : Follower.t) (l : Leader.t)
    (cfg : Follower.DualScorpionFollowerConfig) (lcfg : Leader.DualScropionLeaderConfig) :
  fst (Follower.calibrate w f) = Ok tt ->
  fst (Leader.calibrate w l) = Ok tt ->
  ((forall s, bus_calibration (bus s (snd (Follower.calibrate w f)))
              = for_side s (calibration (snd (Follower.calibrate w f)))) /\
   (exists before,
      new_events f (snd (Follower.calibrate w f))
      = (before
         ++ [Bus Right (WriteCalibration
                          (for_side Right (calibration (snd (Follower.calibrate w f)))));
             Bus Left (WriteCalibration
                         (for_side Left (calibration (snd (Follower.calibrate w f)))));
             SaveCalibration (calibration (snd (Follower.calibrate w f)))])%list) /\
   (forall s, bus_calibration
                (bus s (Follower.init cfg (calibration (snd (Follower.calibrate w f)))))
              = bus_calibration (bus s (snd (Follower.calibrate w f))))) /\
  ((forall s, bus_calibration (bus s (snd (Leader.calibrate w l)))
              = for_side s (calibration (snd (Leader.calibrate w l)))) /\
   (exists before,
      new_events l (snd (Leader.calibrate w l))
      = (before
         ++ [Bus Right (WriteCalibration
                          (for_side Right (calibration (snd (Leader.calibrate w l)))));
             Bus Left (WriteCalibration
                         (for_side Left (calibration (snd (Leader.calibrate w l)))));
             SaveCalibration (calibration (snd (Leader.calibrate w l)))])%list) /\
   (forall s, bus_calibration
                (bus s (Leader.init lcfg (calibration (snd (Leader.calibrate w l)))))
              = bus_calibration (bus s (snd (Leader.calibrate w l))))).
Proof.
  rewrite (follower_calibrate_shared w), (leader_calibrate_shared w).
  intros Hf Hl.
  destruct (Shared.calibrate w f) as [rf f'] eqn:Ef.
  destruct (Shared.calibrate w l) as [rl l'] eqn:El.
  simpl in Hf, Hl. subst rf rl. cbn [snd].
  destruct (calibrate_ok w f f' Ef) as [Fb Fe].
  destruct (calibrate_ok w l l' El) as [Lb Le].
  split.
  - split; [exact Fb|]. split; [exact Fe|].
    intros s. rewrite Fb. destruct s; reflexivity.
  - split; [exact Lb|]. split; [exact Le|].
    intros s. rewrite Lb. destruct s; reflexivity.
Qed.

Lemma calibrate_writes_what_it_saves_witness :
  bus_calibration
    (bus Right (Follower.init (Scenario.follower_config None)
                  (calibration (snd (Follower.calibrate Scenario.calm
                                       (Scenario.follower_fresh None))))))
  = bus_calibration (bus Right (snd (Follower.calibrate Scenario.calm
                                       (Scenario.follower_fresh None)))).
Proof.
  destruct (calibrate_writes_what_it_saves Scenario.calm (Scenario.follower_fresh None)
              Scenario.leader_fresh (Scenario.follower_config None) Scenario.leader_config)
    as ((_ & _ & H) & _).
  - reflexivity.
  - reflexivity.
  - exact (H Right).
Defined.

(** ** [connect] when no calibration is due *)

Lemma grows_excludes {C} (q : event -> bool) (d d' : Device C) :
  grows (fun e => negb (q e)) d d' -> existsb q (new_events d d') = false.
Proof.
  intros [es [E F]]. rewrite (new_events_app d d' es E).
  clear E. induction es as [|e es IH]; simpl in *; [reflexivity|].
  apply andb_prop in F. destruct F as [Fe Fes].
  apply negb_true_iff in Fe. rewrite Fe. apply IH, Fes.
Qed.

Lemma grows_both_connected {C} (p : event -> bool) (d : Device C) :
  p (Bus Right BusConnect) = true -> p (Bus Left BusConnect) = true ->
  grows p d
    (set_bus Left
       (mkBus (motors (bus Left (log (Bus Left BusConnect)
          (set_bus Right (mkBus (motors (bus Right (log (Bus Right BusConnect) d))) true
                                (bus_calibration (bus Right (log (Bus Right BusConnect) d))))
                   (log (Bus Right BusConnect) d))))) true
              (bus_calibration (bus Left (log (Bus Left BusConnect)
          (set_bus Right (mkBus (motors (bus Right (log (Bus Right BusConnect) d))) true
                                (bus_calibration (bus Right (log (Bus Right BusConnect) d))))
                   (log (Bus Right BusConnect) d))))))
       (log (Bus Left BusConnect)
          (set_bus Right (mkBus (motors (bus Right (log (Bus Right BusConnect) d))) true
                                (bus_calibration (bus Right (log (Bus Right BusConnect) d))))
                   (log (Bus Right BusConnect) d)))).
Proof.
  intros HR HL. exists [Bus Right BusConnect; Bus Left BusConnect]. split.
  - simpl. rewrite <- app_assoc. reflexivity.
  - simpl. rewrite HR, HL. reflexivity.
Qed.

Lemma follower_after_ports_grows (w : World) :
  respects (grows not_calibration_step)
    (d <- get ;; for_each (dict_keys (cameras d)) (cam_connect w) ;; Follower.configure w).
Proof. unfold Follower.configure, Follower.configure_arm. respects_walk. Qed.

Lemma leader_configure_no_calibration (w : World) :
  respects (grows not_calibration_step) (Leader.configure w).
Proof. unfold Leader.configure, Leader.set_operating_mode. respects_walk. Qed.

Lemma follower_connect_no_calibration (w : World) (c : bool) (d : Follower.t) :
  c = false \/ Follower.is_calibrated d = true ->
  grows not_calibration_step d (snd (Follower.connect w c d)).
Proof.
  intros H.
  assert (Hcond : negb (Follower.is_calibrated d) && c = false).
  { destruct H as [-> | ->]; [apply andb_false_r | reflexivity]. }
  unfold Follower.connect. rewrite bind_run. unfold get at 1. cbv iota beta.
  destruct (Follower.is_connected d); [apply grows_refl|].
  rewrite bind_run, bus_connect_run.
  destruct (bus_raises w Right BusConnect); [apply grows_log; reflexivity|].
  rewrite bind_run, bus_connect_run.
  destruct (bus_raises w Left BusConnect).
  { exists [Bus Right BusConnect; Bus Left BusConnect]. split; [|reflexivity].
    simpl. rewrite <- app_assoc. reflexivity. }
  rewrite bind_run. unfold get at 1. cbv iota beta.
  match goal with
  | |- context [Follower.is_calibrated ?st] =>
      change (Follower.is_calibrated st) with (Follower.is_calibrated d)
  end.
  rewrite Hcond, bind_ret.
  eapply grows_trans; [|apply follower_after_ports_grows].
  apply grows_both_connected; reflexivity.
Qed.

Lemma leader_connect_no_calibration (w : World) (c : bool) (d : Leader.t) :
  c = false \/ Leader.is_calibrated d = true ->
  grows not_calibration_step d (snd (Leader.connect w c d)).
Proof.
  intros H.
  assert (Hcond : negb (Leader.is_calibrated d) && c = false).
  { destruct H as [-> | ->]; [apply andb_false_r | reflexivity]. }
  unfold Leader.connect. rewrite bind_run. unfold get at 1. cbv iota beta.
  destruct (Leader.is_connected d); [apply grows_refl|].
  rewrite bind_run, bus_connect_run.
  destruct (bus_raises w Right BusConnect); [apply grows_log; reflexivity|].
  rewrite bind_run, bus_connect_run.
  destruct (bus_raises w Left BusConnect).
  { exists [Bus Right BusConnect; Bus Left BusConnect]. split; [|reflexivity].
    simpl. rewrite <- app_assoc. reflexivity. }
  rewrite bind_run. unfold get at 1. cbv iota beta.
  match goal with
  | |- context [Leader.is_calibrated ?st] =>
      change (Leader.is_calibrated st) with (Leader.is_calibrated d)
  end.
  rewrite Hcond, bind_ret.
  eapply grows_trans; [|apply leader_configure_no_calibration].
  apply grows_both_connected; reflexivity.
Qed.

(** X11.  [connect] calibrates only a device that is not calibrated, and only
    when asked to.  With [calibrate=False], or on a calibrated device, no run
    of [connect], whatever fails, prompts the operator, homes a motor,
    records a range, writes a calibration to a bus or saves one. *)
Theorem connect_without_calibration
    (w : World) (c : bool) (f : Follower.t) (l : Leader.t) :
  c = false \/ Follower.is_calibrated f = true ->
  c = false \/ Leader.is_calibrated l = true ->
  existsb is_calibration_step (new_events f (snd (Follower.connect w c f))) = false /\
  existsb is_calibration_step (new_events l (snd (Leader.connect w c l))) = false.
Proof.
  intros Hf Hl. split; apply grows_excludes.
  - apply (follower_connect_no_calibration w c f Hf).
  - apply (leader_connect_no_calibration w c l Hl).
Qed.

Lemma connect_without_calibration_witness :
  existsb is_calibration_step
    (new_events (Scenario.follower_fresh None)
       (snd (Follower.connect Scenario.operator_leaves false (Scenario.follower_fresh None))))
    = false /\
  existsb is_calibration_step
    (new_events Scenario.leader_fresh
       (snd (Leader.connect Scenario.operator_leaves false Scenario.leader_fresh)))
    = false.
Proof.
  apply (connect_without_calibration Scenario.operator_leaves false
           (Scenario.follower_fresh None) Scenario.leader_fresh);
    left; reflexivity.
Defined.

(** ** Torque around [configure] and [calibrate] *)

Lemma try_finally_call_state {C A} (w : World) (s : side) (c : bus_call)
    (body : M C A) (d : Device C) :
  snd (try_finally body (call w s c) d) = log (Bus s c) (snd (body d)).
Proof.
  unfold try_finally. destruct (body d) as [r d']. rewrite call_run.
  destruct (bus_raises w s c); reflexivity.
Qed.

Lemma follower_configure_shape (w : World) :
  Follower.configure w =
  (call w Right DisableTorque ;;
   try_finally
     (call w Left DisableTorque ;;
      try_finally
        (bus_configure_motors w Right ;; bus_configure_motors w Left ;;
         Follower.configure_arm w Right ;; Follower.configure_arm w Left)
        (call w Left EnableTorque))
     (call w Right EnableTorque)).
Proof. reflexivity. Qed.

Lemma follower_configure_body_grows (w : World) :
  respects (grows any_event)
    (bus_configure_motors w Right ;; bus_configure_motors w Left ;;
     Follower.configure_arm w Right ;; Follower.configure_arm w Left).
Proof. unfold Follower.configure_arm. respects_walk. Qed.

Lemma follower_configure_inner_grows (w : World) :
  respects (grows any_event)
    (call w Left DisableTorque ;;
     try_finally
       (bus_configure_motors w Right ;; bus_configure_motors w Left ;;
        Follower.configure_arm w Right ;; Follower.configure_arm w Left)
       (call w Left EnableTorque)).
Proof. unfold Follower.configure_arm. respects_walk. Qed.

(** X12.  The follower's [configure] gives torque back.  Once the right bus
    has accepted [disable_torque], the last thing [configure] does, whatever
    fails in between, is [enable_torque] on the right bus; once both buses
    have accepted it, the last two calls are [enable_torque] on the left bus
    and then on the right bus.  If the right bus refuses [disable_torque],
    nothing else is attempted. *)
Theorem follower_configure_restores_torque (w : World) (d : Follower.t) :
  (bus_raises w Right DisableTorque = true ->
   Follower.configure w d
   = (Raise (BusTransportError Right DisableTorque), log (Bus Right DisableTorque) d)) /\
  (bus_raises w Right DisableTorque = false ->
   exists between,
     new_events d (snd (Follower.configure w d))
     = ([Bus Right DisableTorque] ++ between ++ [Bus Right EnableTorque])%list) /\
  (bus_raises w Right DisableTorque = false ->
   bus_raises w Left DisableTorque = false ->
   exists between,
     new_events d (snd (Follower.configure w d))
     = ([Bus Right DisableTorque; Bus Left DisableTorque] ++ between
        ++ [Bus Left EnableTorque; Bus Right EnableTorque])%list).
Proof.
  rewrite follower_configure_shape. split; [|split].
  - intros HR. rewrite bind_run, call_run, HR. reflexivity.
  - intros HR. rewrite bind_run, call_run, HR, try_finally_call_state.
    destruct (follower_configure_inner_grows w (log (Bus Right DisableTorque) d))
      as (es & T & _).
    exists es. apply new_events_app. simpl. rewrite T. simpl.
    rewrite <- !app_assoc. reflexivity.
  - intros HR HL. rewrite bind_run, call_run, HR, try_finally_call_state.
    rewrite bind_run, call_run, HL, try_finally_call_state.
    destruct (follower_configure_body_grows w
                (log (Bus Left DisableTorque) (log (Bus Right DisableTorque) d)))
      as (es & T & _).
    exists es. apply new_events_app. simpl. rewrite T. simpl.
    rewrite <- !app_assoc. reflexivity.
Qed.

Lemma follower_configure_restores_torque_witness :
  exists between,
    new_events (Scenario.follower_connected None)
      (snd (Follower.configure
              (mkWorld (fun s c => match c with Write _ _ _ => true | _ => false end)
                       (fun _ => false) (fun _ => false) false
                       (fun _ _ => Scenario.zeros) (fun _ => Scenario.zeros)
                       (fun _ => Scenario.zeros) (fun _ => Scenario.zeros) (fun _ => 0%Z))
              (Scenario.follower_connected None)))
    = ([Bus Right DisableTorque; Bus Left DisableTorque] ++ between
       ++ [Bus Left EnableTorque; Bus Right EnableTorque])%list.
Proof.
  apply (follower_configure_restores_torque
           (mkWorld (fun s c => match c with Write _ _ _ => true | _ => false end)
                    (fun _ => false) (fun _ => false) false
                    (fun _ _ => Scenario.zeros) (fun _ => Scenario.zeros)
                    (fun _ => Scenario.zeros) (fun _ => Scenario.zeros) (fun _ => 0%Z))
           (Scenario.follower_connected None)); reflexivity.
Defined.

Lemma leader_configure_keeps_torque_off (w : World) :
  respects (grows not_enable_torque) (Leader.configure w).
Proof. unfold Leader.configure, Leader.set_operating_mode. respects_walk. Qed.

Lemma calibrate_keeps_torque_off {C} (w : World) :
  respects (C:=C) (grows not_enable_torque) (Shared.calibrate w).
Proof.
  unfold Shared.calibrate, Shared.set_operating_mode, Shared.calibrate_arm,
    Shared.record_motor, Shared.write_and_save.
  unfold_bus_calls. cbv zeta.
  repeat first
    [ lazymatch goal with
      | |- respects _ (bus_write_calibration _ _ _) =>
          unfold bus_write_calibration;
          apply respects_bind; [apply respects_call; reflexivity | intro];
          apply respects_modify; intro; apply grows_same_trace;
          match goal with |- trace (set_bus ?s _ _) = _ => destruct s; reflexivity end
      end
    | respects_step ].
Qed.

Lemma leader_configure_rest_grows (w : World) :
  respects (grows any_event)
    (bus_disable_torque w Left ;;
     bus_configure_motors w Right ;;
     bus_configure_motors w Left ;;
     Leader.set_operating_mode w Right ;;
     Leader.set_operating_mode w Left).
Proof. unfold Leader.set_operating_mode. respects_walk. Qed.

Lemma calibrate_rest_grows {C} (w : World) :
  respects (C:=C) (grows any_event)
    (bus_disable_torque w Left ;;
     Shared.set_operating_mode w Right ;;
     Shared.set_operating_mode w Left ;;
     modify (set_calibration []) ;;
     Shared.calibrate_arm w Right ;;
     Shared.calibrate_arm w Left ;;
     Shared.write_and_save w).
Proof.
  unfold Shared.set_operating_mode, Shared.calibrate_arm, Shared.record_motor,
    Shared.write_and_save.
  respects_walk.
Qed.

Lemma two_calls_first_events {C A} (w : World) (s1 s2 : side) (c1 c2 : bus_call)
    (m : M C A) (d : Device C) :
  respects (grows any_event) m ->
  bus_raises w s1 c1 = false ->
  exists rest,
    new_events d (snd ((call w s1 c1 ;; call w s2 c2 ;; m) d))
    = Bus s1 c1 :: Bus s2 c2 :: rest.
Proof.
  intros Hm H1. rewrite bind_run, call_run, H1, bind_run, call_run.
  destruct (bus_raises w s2 c2).
  - exists []. apply new_events_app. simpl. rewrite <- app_assoc. reflexivity.
  - destruct (Hm (log (Bus s2 c2) (log (Bus s1 c1) d))) as [es [E _]].
    exists es. apply new_events_app. rewrite E. simpl.
    rewrite <- !app_assoc. reflexivity.
Qed.

Lemma leader_configure_tail_grows (w : World) :
  respects (grows any_event)
    (bus_configure_motors w Right ;;
     bus_configure_motors w Left ;;
     Leader.set_operating_mode w Right ;;
     Leader.set_operating_mode w Left).
Proof. unfold Leader.set_operating_mode. respects_walk. Qed.

Lemma calibrate_tail_grows {C} (w : World) :
  respects (C:=C) (grows any_event)
    (Shared.set_operating_mode w Right ;;
     Shared.set_operating_mode w Left ;;
     modify (set_calibration []) ;;
     Shared.calibrate_arm w Right ;;
     Shared.calibrate_arm w Left ;;
     Shared.write_and_save w).
Proof.
  unfold Shared.set_operating_mode, Shared.calibrate_arm, Shared.record_motor,
    Shared.write_and_save.
  respects_walk.
Qed.

(** X13.  The leader's [configure] and either coordinator's [calibrate]
    never give torque back.  In any world they start by calling
    [disable_torque] on the right bus; when that call is accepted the next
    call is [disable_torque] on the left bus; and whatever happens then,
    they never call [enable_torque]. *)
Theorem torque_never_given_back (w : World) (f : Follower.t) (l : Leader.t) :
  ((exists rest, new_events l (snd (Leader.configure w l)) = Bus Right DisableTorque :: rest) /\
   (bus_raises w Right DisableTorque = false ->
    exists rest, new_events l (snd (Leader.configure w l))
                 = Bus Right DisableTorque :: Bus Left DisableTorque :: rest) /\
   existsb is_enable_torque (new_events l (snd (Leader.configure w l))) = false) /\
  ((exists rest, new_events l (snd (Leader.calibrate w l)) = Bus Right DisableTorque :: rest) /\
   (bus_raises w Right DisableTorque = false ->
    exists rest, new_events l (snd (Leader.calibrate w l))
                 = Bus Right DisableTorque :: Bus Left DisableTorque :: rest) /\
   existsb is_enable_torque (new_events l (snd (Leader.calibrate w l))) = false) /\
  ((exists rest, new_events f (snd (Follower.calibrate w f)) = Bus Right DisableTorque :: rest) /\
   (bus_raises w Right DisableTorque = false ->
    exists rest, new_events f (snd (Follower.calibrate w f))
                 = Bus Right DisableTorque :: Bus Left DisableTorque :: rest) /\
   existsb is_enable_torque (new_events f (snd (Follower.calibrate w f))) = false).
Proof.
  split; [|split]; (split; [|split]).
  - apply (call_is_first_event w Right DisableTorque _ l), leader_configure_rest_grows.
  - intros HR.
    apply (two_calls_first_events w Right Left DisableTorque DisableTorque _ l
             (leader_configure_tail_grows w) HR).
  - apply grows_excludes, leader_configure_keeps_torque_off.
  - rewrite leader_calibrate_shared.
    apply (call_is_first_event w Right DisableTorque _ l), calibrate_rest_grows.
  - intros HR. rewrite leader_calibrate_shared.
    apply (two_calls_first_events w Right Left DisableTorque DisableTorque _ l
             (calibrate_tail_grows w) HR).
  - rewrite leader_calibrate_shared. apply grows_excludes, calibrate_keeps_torque_off.
  - rewrite follower_calibrate_shared.
    apply (call_is_first_event w Right DisableTorque _ f), calibrate_rest_grows.
  - intros HR. rewrite follower_calibrate_shared.
    apply (two_calls_first_events w Right Left DisableTorque DisableTorque _ f
             (calibrate_tail_grows w) HR).
  - rewrite follower_calibrate_shared. apply grows_excludes, calibrate_keeps_torque_off.
Qed.

Lemma torque_never_given_back_witness :
  (exists rest,
     new_events Scenario.leader_connected
                (snd (Leader.configure Scenario.calm Scenario.leader_connected))
     = Bus Right DisableTorque :: Bus Left DisableTorque :: rest) /\
  existsb is_enable_torque
    (new_events Scenario.leader_connected
                (snd (Leader.configure Scenario.calm Scenario.leader_connected))) = false.
Proof.
  destruct (torque_never_given_back Scenario.calm (Scenario.follower_connected None)
              Scenario.leader_connected)
    as ((_ & L2 & L3) & _).
  split; [apply L2; reflexivity | exact L3].
Defined.

(** ** The first [connect] of a device that is not calibrated *)

(** A complete calibration run changes nothing but the record sets and the
    trace. *)
Lemma calibrate_complete_device {C} (w : World) (d : Device C) (nmR nmL : MotorNormMode) :
  quiet w ->
  motors (bus Right d) = arm_motors nmR ->
  motors (bus Left d) = arm_motors nmL ->
  covers (homing_reply w Right) = true ->
  covers (range_mins_reply w Right) = true ->
  covers (range_maxes_reply w Right) = true ->
  covers (homing_reply w Left) = true ->
  covers (range_mins_reply w Left) = true ->
  covers (range_maxes_reply w Left) = true ->
  exists d',
    steps (Shared.calibrate w) d d' /\
    config d' = config d /\
    cameras d' = cameras d /\
    (forall s, motors (bus s d') = motors (bus s d) /\
               bus_is_connected (bus s d') = bus_is_connected (bus s d)).
Proof.
  intros Hq HmR HmL HhR HmnR HmxR HhL HmnL HmxL.
  eexists. split.
  - unfold Shared.calibrate. unfold_bus_calls.
    eapply steps_bind; [apply call_steps, Hq|].
    eapply steps_bind; [apply call_steps, Hq|].
    eapply steps_bind; [apply set_operating_mode_steps, Hq|].
    eapply steps_bind; [apply set_operating_mode_steps, Hq|].
    eapply steps_bind; [unfold steps, modify; reflexivity|].
    eapply steps_bind.
    { apply (calibrate_arm_steps w Hq Right nmR); try assumption.
      rewrite bus_set_calibration, !bus_log_all, !bus_log. exact HmR. }
    eapply steps_bind.
    { apply (calibrate_arm_steps w Hq Left nmL); try assumption.
      rewrite bus_set_calibration, bus_log_all, bus_set_calibration,
        !bus_log_all, !bus_log.
      exact HmL. }
    unfold Shared.write_and_save. apply steps_get. cbv beta zeta.
    eapply steps_bind; [apply bus_write_calibration_steps, Hq|].
    eapply steps_bind; [apply bus_write_calibration_steps, Hq|].
    apply save_calibration_steps, Hq.
  - assert (F : forall (es : list event) (x : Device C),
               config (log_all es x) = config x).
    { intros es. induction es as [|e es IH]; intros x; simpl; [reflexivity|].
      rewrite IH. reflexivity. }
    split; [|split].
    + simpl. rewrite ?F. simpl. rewrite ?F. reflexivity.
    + simpl. rewrite ?cameras_log_all. simpl. rewrite ?cameras_log_all. reflexivity.
    + intros s. destruct s; simpl;
        rewrite ?right_bus_log_all, ?left_bus_log_all; simpl;
        rewrite ?right_bus_log_all, ?left_bus_log_all; simpl; auto.
Qed.

Lemma follower_first_connect (w : World) (f : Follower.t) (nm : MotorNormMode) :
  quiet w ->
  covers (homing_reply w Right) = true ->
  covers (range_mins_reply w Right) = true ->
  covers (range_maxes_reply w Right) = true ->
  covers (homing_reply w Left) = true ->
  covers (range_mins_reply w Left) = true ->
  covers (range_maxes_reply w Left) = true ->
  (forall s, motors (bus s f) = arm_motors nm) ->
  Follower.is_connected f = false ->
  Follower.is_calibrated f = false ->
  NoDup (dict_keys (cameras f)) ->
  exists f',
    Follower.connect w true f = (Ok tt, f') /\
    Follower.is_connected f' = true /\
    calibration f' = (fresh_records w Right (String.append "right_")
                      ++ fresh_records w Left (String.append "left_"))%list /\
    (forall s, bus_calibration (bus s f') = fresh_records w s (fun j => j)).
Proof.
  intros Hq HhR HmnR HmxR HhL HmnL HmxL Hm Hc Hcal Hnd.
  unfold Follower.connect. rewrite bind_run. unfold get at 1. cbv iota beta. rewrite Hc.
  rewrite bind_run, (bus_connect_steps w Hq Right).
  rewrite bind_run, (bus_connect_steps w Hq Left).
  rewrite bind_run. unfold get at 1. cbv iota beta.
  match goal with
  | |- context [Follower.is_calibrated ?st] =>
      change (Follower.is_calibrated st) with (Follower.is_calibrated f);
      set (ST := st)
  end.
  rewrite Hcal. cbn [negb andb].
  assert (HmR : motors (bus Right ST) = arm_motors nm) by apply (Hm Right).
  assert (HmL : motors (bus Left ST) = arm_motors nm) by apply (Hm Left).
  destruct (calibrate_complete w ST nm nm Hq HmR HmL HhR HmnR HmxR HhL HmnL HmxL)
    as (d1 & E1 & Cal & BR & BL).
  destruct (calibrate_complete_device w ST nm nm Hq HmR HmL HhR HmnR HmxR HhL HmnL HmxL)
    as (d2 & E2 & Cfg & Cam & Fr).
  unfold steps in E2. rewrite E1 in E2. injection E2 as <-.
  rewrite bind_run, (follower_calibrate_shared w), E1.
  rewrite bind_run. unfold get at 1. cbv iota beta.
  rewrite bind_run, (cam_connect_loop_steps w Hq).
  rewrite (follower_configure_ok w _ (proj1 Hq)).
  eexists. split; [reflexivity|]. split; [|split].
  - unfold Follower.is_connected.
    rewrite cameras_log_all, right_bus_log_all, left_bus_log_all. cbn [right_bus left_bus cameras].
    destruct (Fr Right) as [_ FR], (Fr Left) as [_ FL].
    change (right_bus d1) with (bus Right d1). change (left_bus d1) with (bus Left d1).
    rewrite FR, FL, Cam.
    change (cameras ST) with (cameras f).
    rewrite (all_cameras_connected (cameras f) Hnd). reflexivity.
  - rewrite calibration_log_all. exact Cal.
  - intros s. rewrite bus_log_all. destruct s; [exact BR | exact BL].
Qed.

Lemma leader_first_connect (w : World) (l : Leader.t) (nm : MotorNormMode) :
  quiet w ->
  covers (homing_reply w Right) = true ->
  covers (range_mins_reply w Right) = true ->
  covers (range_maxes_reply w Right) = true ->
  covers (homing_reply w Left) = true ->
  covers (range_mins_reply w Left) = true ->
  covers (range_maxes_reply w Left) = true ->
  (forall s, motors (bus s l) = arm_motors nm) ->
  Leader.is_connected l = false ->
  Leader.is_calibrated l = false ->
  exists l',
    Leader.connect w true l = (Ok tt, l') /\
    Leader.is_connected l' = true /\
    calibration l' = (fresh_records w Right (String.append "right_")
                      ++ fresh_records w Left (String.append "left_"))%list /\
    (forall s, bus_calibration (bus s l') = fresh_records w s (fun j => j)).
Proof.
  intros Hq HhR HmnR HmxR HhL HmnL HmxL Hm Hc Hcal.
  unfold Leader.connect. rewrite bind_run. unfold get at 1. cbv iota beta. rewrite Hc.
  rewrite bind_run, (bus_connect_steps w Hq Right).
  rewrite bind_run, (bus_connect_steps w Hq Left).
  rewrite bind_run. unfold get at 1. cbv iota beta.
  match goal with
  | |- context [Leader.is_calibrated ?st] =>
      change (Leader.is_calibrated st) with (Leader.is_calibrated l);
      set (ST := st)
  end.
  rewrite Hcal. cbn [negb andb].
  assert (HmR : motors (bus Right ST) = arm_motors nm) by apply (Hm Right).
  assert (HmL : motors (bus Left ST) = arm_motors nm) by apply (Hm Left).
  destruct (calibrate_complete w ST nm nm Hq HmR HmL HhR HmnR HmxR HhL HmnL HmxL)
    as (d1 & E1 & Cal & BR & BL).
  destruct (calibrate_complete_device w ST nm nm Hq HmR HmL HhR HmnR HmxR HhL HmnL HmxL)
    as (d2 & E2 & Cfg & Cam & Fr).
  unfold steps in E2. rewrite E1 in E2. injection E2 as <-.
  rewrite bind_run, (leader_calibrate_shared w), E1.
  rewrite (leader_configure_ok w _ (proj1 Hq)).
  eexists. split; [reflexivity|]. split; [|split].
  - unfold Leader.is_connected.
    rewrite right_bus_log_all, left_bus_log_all.
    destruct (Fr Right) as [_ FR], (Fr Left) as [_ FL].
    change (right_bus d1) with (bus Right d1). change (left_bus d1) with (bus Left d1).
    rewrite FR, FL. reflexivity.
  - rewrite calibration_log_all. exact Cal.
  - intros s. rewrite bus_log_all. destruct s; [exact BR | exact BL].
Qed.

(** X14.  The first [connect].  On a device that is neither connected nor
    calibrated, when no collaborator call raises and the homing and range
    replies cover the eight motors of each arm, [connect()] returns
    normally; the device is then connected, its record set consists of this
    run's sixteen records, right arm first, and each bus holds its own eight
    under the local motor names. *)
Theorem first_connect_calibrates
    (w : World) (f : Follower.t) (l : Leader.t) (nf nl : MotorNormMode) :
  quiet w ->
  covers (homing_reply w Right) = true ->
  covers (range_mins_reply w Right) = true ->
  covers (range_maxes_reply w Right) = true ->
  covers (homing_reply w Left) = true ->
  covers (range_mins_reply w Left) = true ->
  covers (range_maxes_reply w Left) = true ->
  (forall s, motors (bus s f) = arm_motors nf) ->
  (forall s, motors (bus s l) = arm_motors nl) ->
  Follower.is_connected f = false ->
  Leader.is_connected l = false ->
  Follower.is_calibrated f = false ->
  Leader.is_calibrated l = false ->
  NoDup (dict_keys (cameras f)) ->
  (fst (Follower.connect w true f) = Ok tt /\
   Follower.is_connected (snd (Follower.connect w true f)) = true /\
   calibration (snd (Follower.connect w true f))
     = (fresh_records w Right (String.append "right_")
        ++ fresh_records w Left (String.append "left_"))%list /\
   (forall s, bus_calibration (bus s (snd (Follower.connect w true f)))
              = fresh_records w s (fun j => j))) /\
  (fst (Leader.connect w true l) = Ok tt /\
   Leader.is_connected (snd (Leader.connect w true l)) = true /\
   calibration (snd (Leader.connect w true l))
     = (fresh_records w Right (String.append "right_")
        ++ fresh_records w Left (String.append "left_"))%list /\
   (forall s, bus_calibration (bus s (snd (Leader.connect w true l)))
              = fresh_records w s (fun j => j))).
Proof.
  intros Hq HhR HmnR HmxR HhL HmnL HmxL Hmf Hml Hcf Hcl Hkf Hkl Hnd.
  destruct (follower_first_connect w f nf Hq HhR HmnR HmxR HhL HmnL HmxL Hmf Hcf Hkf Hnd)
    as (f' & Ef & Pf).
  destruct (leader_first_connect w l nl Hq HhR HmnR HmxR HhL HmnL HmxL Hml Hcl Hkl)
    as (l' & El & Pl).
  rewrite Ef, El. cbn [fst snd]. split; (split; [reflexivity | assumption]).
Qed.

Lemma first_connect_calibrates_witness :
  fst (Follower.connect Scenario.calm true (Scenario.follower_fresh None)) = Ok tt /\
  fst (Leader.connect Scenario.calm true Scenario.leader_fresh) = Ok tt.
Proof.
  destruct (first_connect_calibrates Scenario.calm (Scenario.follower_fresh None)
              Scenario.leader_fresh RANGE_M100_100 RANGE_M100_100)
    as ((Hf & _) & (Hl & _)).
  - repeat split.
  - reflexivity.
  - reflexivity.
  - reflexivity.
  - reflexivity.
  - reflexivity.
  - reflexivity.
  - intros s; destruct s; reflexivity.
  - intros s; destruct s; reflexivity.
  - reflexivity.
  - reflexivity.
  - reflexivity.
  - reflexivity.
  - repeat constructor; simpl; intuition discriminate.
  - split; assumption.
Defined.

(** ** What a run cut short at the left prompt leaves in the device *)

Section RightArmDone.
Context {C : Type}.
Variable w : World.
Hypothesis Hbus : forall s c, bus_raises w s c = false.
Hypothesis Hright : operator_interrupts w Right = false.




End RightArmDone.



